(** * Streaming chat orchestrator: a shallow embedding of [chat.js] and of the
    socket chat module, with the properties of the design document.

    JavaScript strings are modelled by [string]: one [ascii] per UTF-16 code
    unit, so the model covers the strings whose code units are below 256.
    Identifiers coming from JSON bodies are [jsval]s (they may be absent, a
    number or a string); integers stand for the JavaScript numbers that
    occur (ids, counters), [None] for [NaN] where a counter can be one.
    The integers agree with the doubles of the code below [2^53]
    ([safeInteger]), and the finite maps that stand for plain objects hold
    their own properties, so they agree with the code for keys that name
    no member of [Object.prototype] ([plainKey]); properties that depend
    on either are stated with these conditions.
    The process-wide variables of the two modules are the fields of one
    record, the emissions on the push channel are appended to a log, and
    the outcome of every call to a collaborator that is not part of the
    modelled code (the broker client, Upstream) is an argument. *)

From Stdlib Require Import ZArith Ascii String.
From stdpp Require Import base option list gmap strings pretty.

Local Open Scope Z_scope.

(** ** JavaScript strings *)

Module Js.

Definition len (s : string) : Z := Z.of_nat (String.length s).

(** [s.startsWith(p)] *)
Fixpoint startsWith (s p : string) : bool :=
  match p, s with
  | EmptyString, _ => true
  | String _ _, EmptyString => false
  | String a p', String b s' => if decide (a = b) then startsWith s' p' else false
  end.

(** Position of the first occurrence of [p] in [s], counted from [i]. *)
Fixpoint find (s p : string) (i : nat) : option nat :=
  if startsWith s p then Some i
  else match s with
       | EmptyString => None
       | String _ s' => find s' p (S i)
       end.

Fixpoint drop (n : nat) (s : string) : string :=
  match n, s with
  | O, _ => s
  | S _, EmptyString => EmptyString
  | S n', String _ s' => drop n' s'
  end.

Fixpoint take (n : nat) (s : string) : string :=
  match n, s with
  | O, _ => EmptyString
  | S _, EmptyString => EmptyString
  | S n', String a s' => String a (take n' s')
  end.

(** [s.includes(p)] *)
Definition includes (s p : string) : bool :=
  match find s p 0 with Some _ => true | None => false end.

(** [s.indexOf(p)], [-1] when [p] does not occur. *)
Definition indexOf (s p : string) : Z :=
  match find s p 0 with Some i => Z.of_nat i | None => -1 end.

Definition clamp (s : string) (i : Z) : nat := Z.to_nat (Z.min (Z.max i 0) (len s)).

(** [s.indexOf(p, from)] *)
Definition indexOfFrom (s p : string) (from : Z) : Z :=
  let k := clamp s from in
  match find (drop k s) p k with Some i => Z.of_nat i | None => -1 end.

(** [s.substring(a, b)]: both ends are clamped to the string and swapped
    when they come in the wrong order. *)
Definition substring (s : string) (a b : Z) : string :=
  let a' := clamp s a in
  let b' := clamp s b in
  take (Nat.max a' b' - Nat.min a' b') (drop (Nat.min a' b') s).

(** [s.substring(a)] *)
Definition substringFrom (s : string) (a : Z) : string := drop (clamp s a) s.

(** The white space and line terminator code units below 256. *)
Definition isWhiteSpace (c : ascii) : bool :=
  match c with
  | "009" | "010" | "011" | "012" | "013" | " " | "160" => true
  | _ => false
  end%char.

Fixpoint trimStart (s : string) : string :=
  match s with
  | EmptyString => EmptyString
  | String c s' => if isWhiteSpace c then trimStart s' else s
  end.

Fixpoint trimEnd (s : string) : string :=
  match s with
  | EmptyString => EmptyString
  | String c s' =>
      match trimEnd s' with
      | EmptyString => if isWhiteSpace c then EmptyString else String c EmptyString
      | r => String c r
      end
  end.

(** [s.trim()] *)
Definition trim (s : string) : string := trimEnd (trimStart s).

(** Truthiness of a string. *)
Definition nonEmpty (s : string) : bool :=
  match s with EmptyString => false | _ => true end.

Definition isDigit (c : ascii) : bool :=
  match Ascii.is_nat c with Some _ => true | None => false end.

(** [s.replace(/\D/g, '')] *)
Fixpoint stripNonDigits (s : string) : string :=
  match s with
  | EmptyString => EmptyString
  | String c s' => if isDigit c then String c (stripNonDigits s') else stripNonDigits s'
  end.

(** The value of a digit in the given radix (10 or 16). *)
Definition digitOf (radix : Z) (c : ascii) : option Z :=
  let n := Z.of_N (N_of_ascii c) in
  if (48 <=? n) && (n <=? 57) then Some (n - 48)
  else if (radix =? 16) && (97 <=? n) && (n <=? 102) then Some (n - 87)
  else if (radix =? 16) && (65 <=? n) && (n <=? 70) then Some (n - 55)
  else None.

(** Value of the longest prefix of digits, with the number of digits read. *)
Fixpoint digitsValue (radix : Z) (s : string) (acc : Z) (read : nat) : Z * nat :=
  match s with
  | EmptyString => (acc, read)
  | String c s' =>
      match digitOf radix c with
      | Some d => digitsValue radix s' (radix * acc + d) (S read)
      | None => (acc, read)
      end
  end.

(** [parseInt(s)]: leading white space, an optional sign, an optional
    [0x] prefix, then digits; [None] is [NaN]. *)
Definition parseInt (s : string) : option Z :=
  let t := trimStart s in
  let '(sign, body) :=
    match t with
    | String "-" r => (-1, r)
    | String "+" r => (1, r)
    | _ => (1, t)
    end in
  let '(radix, digits) :=
    match body with
    | String "0" (String "x" r) => (16, r)
    | String "0" (String "X" r) => (16, r)
    | _ => (10, body)
    end in
  match digitsValue radix digits 0 0 with
  | (_, O) => None
  | (v, _) => Some (sign * v)
  end.

(** [s.toLowerCase()] on the code units below 256. *)
Definition lowerChar (c : ascii) : ascii :=
  let n := N_of_ascii c in
  if ((65 <=? n) && (n <=? 90))%N then ascii_of_N (n + 32)
  else if ((192 <=? n) && (n <=? 222) && negb (n =? 215))%N then ascii_of_N (n + 32)
  else c.

Fixpoint toLowerCase (s : string) : string :=
  match s with
  | EmptyString => EmptyString
  | String c s' => String (lowerChar c) (toLowerCase s')
  end.

End Js.

(** The one-character string holding a double quote. *)
Definition dquote : string := String (ascii_of_nat 34) EmptyString.

(** ** Values of JSON fields *)

Inductive jsval :=
| VUndef
| VNull
| VNum (n : Z)
| VStr (s : string).

#[global] Instance jsval_eq_dec : EqDecision jsval.
Proof. solve_decision. Defined.

(** Truthiness, as tested by [if (v)], [v || w] and [!v]. *)
Definition truthy (v : jsval) : bool :=
  match v with
  | VUndef | VNull => false
  | VNum n => negb (n =? 0)
  | VStr s => Js.nonEmpty s
  end.

(** [String(v)], also the conversion done by a template literal. *)
Definition toStr (v : jsval) : string :=
  match v with
  | VUndef => "undefined"
  | VNull => "null"
  | VNum n => pretty n
  | VStr s => s
  end.

(** [a || b] *)
Definition orElse (a b : jsval) : jsval := if truthy a then a else b.

(** [a === b] on these values. *)
Definition strictEq (a b : jsval) : bool := bool_decide (a = b).

(** ** Data model *)

Inductive Role := user | assistant.

#[global] Instance Role_eq_dec : EqDecision Role.
Proof. solve_decision. Defined.

(** An entry of a transcript ([globalChatHistory[key][i]]).  A field that
    the creating code leaves out reads as its falsy default. *)
Record Message := {
  role : Role;
  content : string;
  thinkingContent : option string;
  hasThinking : bool;
  chat_id : jsval;
  session_id : jsval;
  user_id : jsval;
  timestamp : Z;
  message_type : string;
  isComplete : bool;
  token_count : Z;
  total_tokens : option Z;
  completion_timestamp : option Z;
  temp_file_name : option string
}.

(** An entry of the session catalog ([globalSessionNames[i]]). *)
Record Session := {
  s_session_id : jsval;
  s_title : string;
  s_user_id : jsval;
  s_current_chat_id : jsval;
  s_total_chats : Z;
  s_created_at : Z;
  s_updated_at : option Z;
  s_source : option string;
  s_titleSource : option string;
  s_titleUpdated : option bool;
  s_originalSource : option string;
  s_originalTitle : option string
}.

(** The per-stream state of the thinking parser ([tokenBuffers.get(key)]). *)
Record TokenBuffer := {
  tokens : list string;
  fullContent : string;
  model : string;
  b_thinkingContent : string;
  isInThinking : bool;
  hasThinkingStarted : bool;
  isInResponseTags : bool;
  hasResponseStarted : bool;
  pendingThinkingTokens : list string;
  thinkingMessageId : option string
}.

(** The consumer object handed out by the broker client; [consumerTag] is
    the empty string when the object carries none. *)
Record Consumer := { consumerTag : string }.

(** An entry of [globalStreamingSessions]. *)
Record SessionContext := {
  ctx_modelId : jsval;
  ctx_chatId : jsval;
  ctx_instanceId : jsval;
  ctx_sessionId : jsval;
  ctx_userId : jsval;
  ctx_consumerTag : string
}.

(** Payloads sent on the push channel; all but the last travel on the
    ['chat-stream'] channel, the last on ['cleanup-generation']. *)
Inductive Payload :=
| Stream (content : string) (chat session instance : jsval)
    (messageId : option string) (isPendingThinking : bool) (token_number : option Z)
| MoveToThinking (content : string) (chat session : jsval)
    (messageId : option string) (pendingTokens : list string)
| ThinkingComplete (chat session : jsval)
| Complete (content : string) (chat session instance : jsval)
    (completion_type : option string) (total : option Z)
| ErrorEvent (content : string) (chat session instance : jsval)
| CleanupGeneration (userId sessionId chatId instanceId : jsval) (reason : string).

(** [io.to(room).emit(...)] at clock reading [at_]. *)
Record Emission := { room : string; at_ : Z; payload : Payload }.

Record ModelEntry := { m_id : jsval; m_name : string }.

(** The module-level variables of [chat.js] and of the socket chat module,
    and the log of emissions. *)
Record State := {
  (* chat.js *)
  globalSessionNames : list Session;
  globalChatHistory : gmap string (list Message);
  sessionMessageCounts : gmap string Z;
  sessionCacheTimestamp : gmap string Z;
  globalModelList : list ModelEntry;
  modelListCacheTimestamp : option Z;
  foreignLastSessionIds : gmap string string;
  sessionCounters : gmap string (option Z);
  currentUserId : jsval;
  thinkingContentBuffer : gmap string string;
  globalPersonalizedFiles : gmap string (list string);
  (* socket chat module *)
  tokenBuffers : gmap string TokenBuffer;
  globalActiveConsumer : option Consumer;
  globalConsumerCount : Z;
  globalStreamingSessions : gmap string SessionContext;
  (* push channel *)
  emitted : list Emission
}.

Definition with_sessions (v : list Session) (st : State) : State :=
  {| globalSessionNames := v; globalChatHistory := globalChatHistory st;
     sessionMessageCounts := sessionMessageCounts st;
     sessionCacheTimestamp := sessionCacheTimestamp st;
     globalModelList := globalModelList st;
     modelListCacheTimestamp := modelListCacheTimestamp st;
     foreignLastSessionIds := foreignLastSessionIds st;
     sessionCounters := sessionCounters st; currentUserId := currentUserId st;
     thinkingContentBuffer := thinkingContentBuffer st;
     globalPersonalizedFiles := globalPersonalizedFiles st;
     tokenBuffers := tokenBuffers st; globalActiveConsumer := globalActiveConsumer st;
     globalConsumerCount := globalConsumerCount st;
     globalStreamingSessions := globalStreamingSessions st; emitted := emitted st |}.

Definition with_history (v : gmap string (list Message)) (st : State) : State :=
  {| globalSessionNames := globalSessionNames st; globalChatHistory := v;
     sessionMessageCounts := sessionMessageCounts st;
     sessionCacheTimestamp := sessionCacheTimestamp st;
     globalModelList := globalModelList st;
     modelListCacheTimestamp := modelListCacheTimestamp st;
     foreignLastSessionIds := foreignLastSessionIds st;
     sessionCounters := sessionCounters st; currentUserId := currentUserId st;
     thinkingContentBuffer := thinkingContentBuffer st;
     globalPersonalizedFiles := globalPersonalizedFiles st;
     tokenBuffers := tokenBuffers st; globalActiveConsumer := globalActiveConsumer st;
     globalConsumerCount := globalConsumerCount st;
     globalStreamingSessions := globalStreamingSessions st; emitted := emitted st |}.

Definition with_counts (v : gmap string Z) (st : State) : State :=
  {| globalSessionNames := globalSessionNames st; globalChatHistory := globalChatHistory st;
     sessionMessageCounts := v;
     sessionCacheTimestamp := sessionCacheTimestamp st;
     globalModelList := globalModelList st;
     modelListCacheTimestamp := modelListCacheTimestamp st;
     foreignLastSessionIds := foreignLastSessionIds st;
     sessionCounters := sessionCounters st; currentUserId := currentUserId st;
     thinkingContentBuffer := thinkingContentBuffer st;
     globalPersonalizedFiles := globalPersonalizedFiles st;
     tokenBuffers := tokenBuffers st; globalActiveConsumer := globalActiveConsumer st;
     globalConsumerCount := globalConsumerCount st;
     globalStreamingSessions := globalStreamingSessions st; emitted := emitted st |}.

Definition with_sessionCounters (v : gmap string (option Z)) (st : State) : State :=
  {| globalSessionNames := globalSessionNames st; globalChatHistory := globalChatHistory st;
     sessionMessageCounts := sessionMessageCounts st;
     sessionCacheTimestamp := sessionCacheTimestamp st;
     globalModelList := globalModelList st;
     modelListCacheTimestamp := modelListCacheTimestamp st;
     foreignLastSessionIds := foreignLastSessionIds st;
     sessionCounters := v; currentUserId := currentUserId st;
     thinkingContentBuffer := thinkingContentBuffer st;
     globalPersonalizedFiles := globalPersonalizedFiles st;
     tokenBuffers := tokenBuffers st; globalActiveConsumer := globalActiveConsumer st;
     globalConsumerCount := globalConsumerCount st;
     globalStreamingSessions := globalStreamingSessions st; emitted := emitted st |}.

Definition with_thinkingContentBuffer (v : gmap string string) (st : State) : State :=
  {| globalSessionNames := globalSessionNames st; globalChatHistory := globalChatHistory st;
     sessionMessageCounts := sessionMessageCounts st;
     sessionCacheTimestamp := sessionCacheTimestamp st;
     globalModelList := globalModelList st;
     modelListCacheTimestamp := modelListCacheTimestamp st;
     foreignLastSessionIds := foreignLastSessionIds st;
     sessionCounters := sessionCounters st; currentUserId := currentUserId st;
     thinkingContentBuffer := v;
     globalPersonalizedFiles := globalPersonalizedFiles st;
     tokenBuffers := tokenBuffers st; globalActiveConsumer := globalActiveConsumer st;
     globalConsumerCount := globalConsumerCount st;
     globalStreamingSessions := globalStreamingSessions st; emitted := emitted st |}.

Definition with_tokenBuffers (v : gmap string TokenBuffer) (st : State) : State :=
  {| globalSessionNames := globalSessionNames st; globalChatHistory := globalChatHistory st;
     sessionMessageCounts := sessionMessageCounts st;
     sessionCacheTimestamp := sessionCacheTimestamp st;
     globalModelList := globalModelList st;
     modelListCacheTimestamp := modelListCacheTimestamp st;
     foreignLastSessionIds := foreignLastSessionIds st;
     sessionCounters := sessionCounters st; currentUserId := currentUserId st;
     thinkingContentBuffer := thinkingContentBuffer st;
     globalPersonalizedFiles := globalPersonalizedFiles st;
     tokenBuffers := v; globalActiveConsumer := globalActiveConsumer st;
     globalConsumerCount := globalConsumerCount st;
     globalStreamingSessions := globalStreamingSessions st; emitted := emitted st |}.

Definition with_activeConsumer (v : option Consumer) (st : State) : State :=
  {| globalSessionNames := globalSessionNames st; globalChatHistory := globalChatHistory st;
     sessionMessageCounts := sessionMessageCounts st;
     sessionCacheTimestamp := sessionCacheTimestamp st;
     globalModelList := globalModelList st;
     modelListCacheTimestamp := modelListCacheTimestamp st;
     foreignLastSessionIds := foreignLastSessionIds st;
     sessionCounters := sessionCounters st; currentUserId := currentUserId st;
     thinkingContentBuffer := thinkingContentBuffer st;
     globalPersonalizedFiles := globalPersonalizedFiles st;
     tokenBuffers := tokenBuffers st; globalActiveConsumer := v;
     globalConsumerCount := globalConsumerCount st;
     globalStreamingSessions := globalStreamingSessions st; emitted := emitted st |}.

Definition with_streamingSessions (v : gmap string SessionContext) (st : State) : State :=
  {| globalSessionNames := globalSessionNames st; globalChatHistory := globalChatHistory st;
     sessionMessageCounts := sessionMessageCounts st;
     sessionCacheTimestamp := sessionCacheTimestamp st;
     globalModelList := globalModelList st;
     modelListCacheTimestamp := modelListCacheTimestamp st;
     foreignLastSessionIds := foreignLastSessionIds st;
     sessionCounters := sessionCounters st; currentUserId := currentUserId st;
     thinkingContentBuffer := thinkingContentBuffer st;
     globalPersonalizedFiles := globalPersonalizedFiles st;
     tokenBuffers := tokenBuffers st; globalActiveConsumer := globalActiveConsumer st;
     globalConsumerCount := globalConsumerCount st;
     globalStreamingSessions := v; emitted := emitted st |}.

Definition with_emitted (v : list Emission) (st : State) : State :=
  {| globalSessionNames := globalSessionNames st; globalChatHistory := globalChatHistory st;
     sessionMessageCounts := sessionMessageCounts st;
     sessionCacheTimestamp := sessionCacheTimestamp st;
     globalModelList := globalModelList st;
     modelListCacheTimestamp := modelListCacheTimestamp st;
     foreignLastSessionIds := foreignLastSessionIds st;
     sessionCounters := sessionCounters st; currentUserId := currentUserId st;
     thinkingContentBuffer := thinkingContentBuffer st;
     globalPersonalizedFiles := globalPersonalizedFiles st;
     tokenBuffers := tokenBuffers st; globalActiveConsumer := globalActiveConsumer st;
     globalConsumerCount := globalConsumerCount st;
     globalStreamingSessions := globalStreamingSessions st; emitted := v |}.

(** [io.to(room).emit(...)] *)
Definition emit (r : string) (now : Z) (p : Payload) (st : State) : State :=
  with_emitted (emitted st ++ [{| room := r; at_ := now; payload := p |}]) st.

(** The state of a freshly started process. *)
Definition initialState : State :=
  {| globalSessionNames := []; globalChatHistory := ∅; sessionMessageCounts := ∅;
     sessionCacheTimestamp := ∅; globalModelList := []; modelListCacheTimestamp := None;
     foreignLastSessionIds := ∅; sessionCounters := ∅; currentUserId := VNull;
     thinkingContentBuffer := ∅; globalPersonalizedFiles := ∅;
     tokenBuffers := ∅; globalActiveConsumer := None; globalConsumerCount := 0;
     globalStreamingSessions := ∅; emitted := [] |}.

(** The key [`${userId}_${sessionId}`] of transcripts, counters and buffers. *)
Definition sessionKeyOf (userId sessionId : jsval) : string :=
  toStr userId +:+ "_" +:+ toStr sessionId.

(** ** Stop path: the matcher of the socket chat module and [POST /stop] *)

(** The predicate of the [filter] in [removeIncompleteChatFromHistory]:
    [msg.chat_id === chatId && (!msg.isComplete || msg.isComplete === false)]. *)
Definition shouldRemove (chatId : jsval) (msg : Message) : bool :=
  strictEq (chat_id msg) chatId && (negb (isComplete msg) || bool_decide (isComplete msg = false)).

Definition removeIncompleteChatFromHistory (userId sessionId chatId : jsval) (st : State) : State :=
  let historyKey := sessionKeyOf userId sessionId in
  match globalChatHistory st !! historyKey with
  | None => st
  | Some msgs =>
      with_history
        (<[historyKey := List.filter (fun msg => negb (shouldRemove chatId msg)) msgs]>
           (globalChatHistory st)) st
  end.

Definition cleanupTokenBuffer (sessionKey : string) (st : State) : State :=
  match tokenBuffers st !! sessionKey with
  | Some _ => with_tokenBuffers (delete sessionKey (tokenBuffers st)) st
  | None => st
  end.

(** The tag computed when a socket chat starts:
    [`socket_${socket.id}_${finalSessionId}_${finalChatId}_${Date.now()}`]. *)
Definition consumerTagOf (socketId : string) (finalSessionId finalChatId : jsval) (now : Z)
    : string :=
  "socket_" +:+ socketId +:+ "_" +:+ toStr finalSessionId +:+ "_" +:+ toStr finalChatId
    +:+ "_" +:+ pretty now.

(** Outcome of [rabbitmq.cancelConsumer]: it returns a boolean or throws. *)
Inductive CancelOutcome := CancelReturns (b : bool) | CancelThrows.

(** [forceCleanupConsumerForSession(userId, sessionId, chatId)]: the new
    state and the returned boolean. *)
Definition forceCleanupConsumerForSession
    (userId sessionId chatId : jsval) (cancel : CancelOutcome) (st : State) : State * bool :=
  match globalActiveConsumer st with
  | Some c =>
      let tag := consumerTag c in
      let sessionPattern := toStr userId +:+ "_" +:+ toStr sessionId in
      let chatPattern :=
        if truthy chatId
        then Some (toStr userId +:+ "_" +:+ toStr sessionId +:+ "_" +:+ toStr chatId)
        else None in
      let matchesSession := Js.includes tag sessionPattern in
      let matchesChat :=
        match chatPattern with Some p => Js.includes tag p | None => false end in
      if matchesSession || matchesChat then
        match cancel with
        | CancelReturns _ =>
            let st1 := with_activeConsumer None st in
            let st2 :=
              if truthy chatId
              then removeIncompleteChatFromHistory userId sessionId chatId st1
              else st1 in
            let sessionKey := sessionKeyOf userId sessionId in
            let st3 :=
              with_streamingSessions (delete sessionKey (globalStreamingSessions st2)) st2 in
            (cleanupTokenBuffer sessionKey st3, true)
        | CancelThrows => (st, false)
        end
      else (st, false)
  | None => (st, false)
  end.

(** Body of a [POST /stop] request. *)
Record StopRequest := {
  stop_user_id : jsval;
  stop_session_id : jsval;
  stop_chat_id : jsval;
  stop_instance_id : jsval
}.

(** What the call to Upstream's [/stop] does: an ok response with a JSON
    body (its [status] and [message] fields), an ok response whose JSON body
    is [null], an ok response whose body does not parse, a response with an
    error status, or a rejected [fetch] (network failure, or the abort
    after 100 s).  On a [null] body the handler cleans up, then reading
    [data.status] throws and the [catch] branch cleans up a second time:
    [retry] is the outcome of cancelling the consumer in that second
    cleanup. *)
Inductive UpstreamReply :=
| ReplyOk (status message : option string)
| ReplyOkNull (retry : CancelOutcome)
| ReplyOkUnparsable
| ReplyNotOk (code : Z)
| ReplyThrows.

Record StopResponse := {
  http_code : Z;
  success : bool;
  r_status : option string;
  r_message : option string;
  cleanup_completed : bool
}.

Definition stopRoom (finalUserId : jsval) (req : StopRequest) : string :=
  if truthy (stop_instance_id req) then
    "chat_" +:+ toStr finalUserId +:+ "_" +:+ toStr (stop_session_id req) +:+ "_"
      +:+ toStr (stop_chat_id req) +:+ "_" +:+ toStr (stop_instance_id req)
  else if truthy (stop_chat_id req) then
    "chat_" +:+ toStr finalUserId +:+ "_" +:+ toStr (stop_session_id req) +:+ "_"
      +:+ toStr (stop_chat_id req)
  else "chat_" +:+ toStr finalUserId +:+ "_" +:+ toStr (stop_session_id req).

(** The cleanup shared by the two branches of the handler that clean up;
    they differ in the texts they send. *)
Definition stopCleanup (finalUserId : jsval) (req : StopRequest) (cancel : CancelOutcome)
    (now : Z) (text ctype reason : string) (st : State) : State :=
  let roomId := stopRoom finalUserId req in
  let st1 :=
    fst (forceCleanupConsumerForSession finalUserId (stop_session_id req)
           (stop_chat_id req) cancel st) in
  let st2 :=
    emit roomId now
      (Complete text (stop_chat_id req) (stop_session_id req) (stop_instance_id req)
         (Some ctype) (Some 0)) st1 in
  emit roomId now
    (CleanupGeneration finalUserId (stop_session_id req) (stop_chat_id req)
       (stop_instance_id req) reason) st2.

(** [router.post('/stop', ...)] *)
Definition stopEndpoint (req : StopRequest) (reply : UpstreamReply) (cancel : CancelOutcome)
    (now : Z) (st : State) : State * StopResponse :=
  let finalUserId := orElse (stop_user_id req) (currentUserId st) in
  let fallback :=
    (if truthy (stop_session_id req)
     then stopCleanup finalUserId req cancel now
            "Generation stopped (server timeout)" "timeout_stopped" "stop_timeout" st
     else st,
     {| http_code := 200; success := true; r_status := Some "timeout_cleanup";
        r_message := Some "Foreign server timed out, but local cleanup completed";
        cleanup_completed := true |}) in
  match reply with
  | ReplyOk status message =>
      (if truthy (stop_session_id req)
       then stopCleanup finalUserId req cancel now
              "Generation stopped by user" "user_stopped" "stop_requested" st
       else st,
       {| http_code := 200; success := true;
          r_status := Some (match status with Some s => if Js.nonEmpty s then s else "success"
                                             | None => "success" end);
          r_message := Some (match message with
                             | Some s => if Js.nonEmpty s then s
                                         else "Generation stopped successfully"
                             | None => "Generation stopped successfully" end);
          cleanup_completed := true |})
  | ReplyOkNull retry =>
      (if truthy (stop_session_id req)
       then stopCleanup finalUserId req retry now
              "Generation stopped (server timeout)" "timeout_stopped" "stop_timeout"
              (stopCleanup finalUserId req cancel now
                 "Generation stopped by user" "user_stopped" "stop_requested" st)
       else st,
       snd fallback)
  | ReplyNotOk code =>
      (st, {| http_code := 500; success := false; r_status := Some (pretty code);
              r_message := Some "Failed to stop generation on foreign server";
              cleanup_completed := false |})
  | ReplyOkUnparsable => fallback
  | ReplyThrows => fallback
  end.

(** ** Session catalog: sliding window, id minting, [POST /chatsession] *)

Record WindowResult := {
  deletedSession : option Session;
  shouldNotifyUser : bool;
  isWarning : bool;
  w_message : option string;
  sessionCount : Z
}.

(** The key of the comparator of the window sort:
    [parseInt(a.session_id.replace(/\D/g, '')) || 0].  Only a string has a
    [replace] method; on another value the comparator throws ([None]). *)
Definition sessionNum (v : jsval) : option Z :=
  match v with
  | VStr s =>
      Some (default 0 (Js.parseInt (Js.stripNonDigits s)))
  | _ => None
  end.

Fixpoint insertByKey {A} (key : A -> Z) (x : A) (l : list A) : list A :=
  match l with
  | [] => [x]
  | y :: l' => if key x <=? key y then x :: y :: l' else y :: insertByKey key x l'
  end.

(** [Array.prototype.sort] with the comparator [(a, b) => key a - key b]:
    a stable sort by increasing key. *)
Definition sortByKey {A} (key : A -> Z) (l : list A) : list A :=
  foldr (insertByKey key) [] l.

Definition ofUser (u : jsval) (s : Session) : bool := strictEq (s_user_id s) u.

(** [manageSessionWindow(userId)]; [None] when the comparator throws. *)
Definition manageSessionWindow (userId : jsval) (st : State) : option (State * WindowResult) :=
  let finalUserId := orElse userId (currentUserId st) in
  let userSessions := List.filter (ofUser finalUserId) (globalSessionNames st) in
  let n := Z.of_nat (length userSessions) in
  if n =? 9 then
    Some (st, {| deletedSession := None; shouldNotifyUser := true; isWarning := true;
                 w_message := Some "This is your 10th session. Creating additional sessions will automatically remove the oldest ones to maintain the 10-session limit.";
                 sessionCount := n + 1 |})
  else if 25 <=? n then
    if forallb (fun s => bool_decide (is_Some (sessionNum (s_session_id s)))) userSessions then
      let key s := default 0 (sessionNum (s_session_id s)) in
      match sortByKey key userSessions with
      | [] => None
      | oldestSession :: _ =>
          let st1 :=
            with_sessions
              (List.filter
                 (fun s => negb (strictEq (s_user_id s) finalUserId
                                 && strictEq (s_session_id s) (s_session_id oldestSession)))
                 (globalSessionNames st)) st in
          let oldestHistoryKey := sessionKeyOf finalUserId (s_session_id oldestSession) in
          let st2 := with_history (delete oldestHistoryKey (globalChatHistory st1)) st1 in
          let st3 := with_counts (delete oldestHistoryKey (sessionMessageCounts st2)) st2 in
          let st4 :=
            match thinkingContentBuffer st3 !! oldestHistoryKey with
            | Some t => if Js.nonEmpty t
                        then with_thinkingContentBuffer
                               (delete oldestHistoryKey (thinkingContentBuffer st3)) st3
                        else st3
            | None => st3
            end in
          Some (st4,
                {| deletedSession := Some oldestSession; shouldNotifyUser := true;
                   isWarning := false;
                   w_message :=
                     Some ("Session " +:+ dquote +:+
                           (if Js.nonEmpty (s_title oldestSession) then s_title oldestSession
                            else toStr (s_session_id oldestSession))
                           +:+ dquote
                           +:+ " was automatically deleted to maintain the 10-session limit.");
                   sessionCount := 10 |})
      end
    else None
  else
    Some (st, {| deletedSession := None; shouldNotifyUser := false; isWarning := false;
                 w_message := None; sessionCount := n + 1 |}).

(** [getNextSessionId(userId)]: the counter is (re)seeded from the id
    recorded at login whenever it is missing, zero or [NaN]. *)
Definition getNextSessionId (userId : jsval) (st : State) : State * string :=
  let finalUserId := toStr (orElse userId (currentUserId st)) in
  let seeded :=
    match sessionCounters st !! finalUserId with
    | Some (Some n) => if n =? 0 then None else Some n
    | _ => None
    end in
  let current :=
    match seeded with
    | Some n => Some n
    | None =>
        Js.parseInt
          (match foreignLastSessionIds st !! finalUserId with
           | Some s => if Js.nonEmpty s then s else "0"
           | None => "0"
           end)
    end in
  let next := (fun n => n + 1) <$> current in
  (with_sessionCounters (<[finalUserId := next]> (sessionCounters st)) st,
   match next with Some n => pretty n | None => "NaN" end).

Record ChatSessionRequest := { cs_user_id : jsval; cs_title : string }.

Record WindowManagement := {
  wm_is_warning : bool;
  wm_deleted_session : option Session;
  wm_notification : option string;
  wm_action : string;
  wm_current_session_count : Z
}.

Inductive ChatSessionResponse :=
| SessionCreated (session_id : string) (user_id : jsval) (title : string)
    (session_count : Z) (window_management : option WindowManagement)
| SessionFailed.

(** [router.post('/chatsession', ...)] *)
Definition chatSessionEndpoint (req : ChatSessionRequest) (now : Z) (st : State)
    : State * ChatSessionResponse :=
  let user_id :=
    if negb (truthy (cs_user_id req)) || strictEq (cs_user_id req) (VStr "default_user")
    then currentUserId st else cs_user_id req in
  let currentSessionCount :=
    Z.of_nat (length (List.filter (ofUser user_id) (globalSessionNames st))) in
  match manageSessionWindow user_id st with
  | None => (st, SessionFailed)
  | Some (st1, windowResult) =>
      let '(st2, sessionId) := getNextSessionId user_id st1 in
      let sessionTitle :=
        if Js.nonEmpty (cs_title req) then cs_title req else "Chat Session " +:+ sessionId in
      let newSession :=
        {| s_session_id := VStr sessionId; s_title := sessionTitle; s_user_id := user_id;
           s_current_chat_id := VUndef; s_total_chats := 0; s_created_at := now;
           s_updated_at := None; s_source := Some "local"; s_titleSource := None;
           s_titleUpdated := None; s_originalSource := None; s_originalTitle := None |} in
      let st3 := with_sessions (newSession :: globalSessionNames st2) st2 in
      (st3,
       SessionCreated sessionId user_id sessionTitle
         (if sessionCount windowResult =? 0 then currentSessionCount + 1
          else sessionCount windowResult)
         (if shouldNotifyUser windowResult
          then Some {| wm_is_warning := isWarning windowResult;
                       wm_deleted_session := deletedSession windowResult;
                       wm_notification := w_message windowResult;
                       wm_action := if isWarning windowResult then "session_limit_warning"
                                    else "oldest_session_deleted_automatically";
                       wm_current_session_count := sessionCount windowResult |}
          else None))
  end.

(** ** [POST /chat]: admission and the steps up to the call to Upstream *)

Record ChatRequest := {
  c_user_id : jsval;
  c_chat_id : jsval;
  c_session_id : jsval;
  c_llm_model_id : jsval;
  c_summarize_flag : jsval;
  c_codebase_search_flag : jsval;
  c_personalize_flag : jsval;
  c_temp_file_flag : jsval;
  c_first_chat_flag : jsval;
  c_web_search_flag : jsval;
  c_prompt : string;
  c_temp_file_paths : list string;
  c_temp_file_name : option string
}.

(** The body posted to Upstream's [/chat]. *)
Record UpstreamChat := {
  u_user_id : string;
  u_chat_id : string;
  u_session_id : string;
  u_llm_model_id : string;
  u_summarize_flag : bool;
  u_codebase_search_flag : bool;
  u_personalize_flag : bool;
  u_temp_file_flag : bool;
  u_first_chat_flag : bool;
  u_web_search_flag : bool;
  u_prompt : string;
  u_temp_file_paths : list string;
  u_room_id : string
}.

(** A line written on the chunked response: the replay of the transcript. *)
Inductive Chunk :=
| HistoryStart
| History (old : Message)
| HistoryEnd.

Inductive ChatStart :=
| Refused (code : Z) (error : string)
| Accepted (written : list Chunk) (posted : UpstreamChat).

(** The user id a [POST /chat] request runs under: the one of the body,
    or the logged-in user when the body has none or the placeholder. *)
Definition chatUser (req : ChatRequest) (st : State) : jsval :=
  if negb (truthy (c_user_id req)) || strictEq (c_user_id req) (VStr "default_user")
  then currentUserId st else c_user_id req.

(** The handler of [router.post('/chat', ...)] from its entry to the point
    where the request to Upstream is sent. *)
Definition chatEndpointStart (req : ChatRequest) (now : Z) (st : State) : State * ChatStart :=
  let user_id := chatUser req st in
  if negb (truthy user_id) || negb (truthy (c_session_id req)) || negb (Js.nonEmpty (c_prompt req))
  then (st, Refused 400 "Missing required fields: user_id, session_id, prompt")
  else
    let sessionKey := sessionKeyOf user_id (c_session_id req) in
    let currentCount := default 0 (sessionMessageCounts st !! sessionKey) in
    if 15 <=? currentCount
    then (st, Refused 429 "Maximum limit reached. Create new chat.")
    else
      let st1 := with_counts (<[sessionKey := currentCount + 1]> (sessionMessageCounts st)) st in
      let old := default [] (globalChatHistory st1 !! sessionKey) in
      let written :=
        match old with
        | [] => []
        | _ => HistoryStart :: map History old ++ [HistoryEnd]
        end in
      let prompt :=
        {| role := user; content := c_prompt req; thinkingContent := None; hasThinking := false;
           chat_id := c_chat_id req; session_id := c_session_id req; user_id := user_id;
           timestamp := now; message_type := "prompt"; isComplete := false; token_count := 0;
           total_tokens := None; completion_timestamp := None;
           temp_file_name := c_temp_file_name req |} in
      let st2 := with_history (<[sessionKey := old ++ [prompt]]> (globalChatHistory st1)) st1 in
      let sameSession s :=
        strictEq (s_session_id s) (c_session_id req) && strictEq (s_user_id s) user_id in
      let upsert :=
        fix go (l : list Session) : option (list Session) :=
          match l with
          | [] => None
          | s :: l' =>
              if sameSession s then
                Some ({| s_session_id := s_session_id s; s_title := s_title s;
                         s_user_id := s_user_id s; s_current_chat_id := c_chat_id req;
                         s_total_chats := s_total_chats s + 1; s_created_at := s_created_at s;
                         s_updated_at := Some now; s_source := s_source s;
                         s_titleSource := s_titleSource s; s_titleUpdated := s_titleUpdated s;
                         s_originalSource := s_originalSource s;
                         s_originalTitle := s_originalTitle s |} :: l')
              else cons s <$> go l'
          end in
      let sessions :=
        match upsert (globalSessionNames st2) with
        | Some l => l
        | None =>
            {| s_session_id := c_session_id req;
               s_title := "Chat Session " +:+ toStr (c_session_id req);
               s_user_id := user_id; s_current_chat_id := c_chat_id req; s_total_chats := 1;
               s_created_at := now; s_updated_at := Some now; s_source := Some "local";
               s_titleSource := None; s_titleUpdated := None; s_originalSource := None;
               s_originalTitle := None |} :: globalSessionNames st2
        end in
      let st3 := with_sessions sessions st2 in
      (st3,
       Accepted written
         {| u_user_id := toStr user_id; u_chat_id := toStr (c_chat_id req);
            u_session_id := toStr (c_session_id req);
            u_llm_model_id := toStr (orElse (c_llm_model_id req) (VStr "1"));
            u_summarize_flag := truthy (c_summarize_flag req);
            u_codebase_search_flag := truthy (c_codebase_search_flag req);
            u_personalize_flag := truthy (c_personalize_flag req);
            u_temp_file_flag := truthy (c_temp_file_flag req);
            u_first_chat_flag := truthy (c_first_chat_flag req);
            u_web_search_flag := truthy (c_web_search_flag req);
            u_prompt := c_prompt req; u_temp_file_paths := c_temp_file_paths req;
            u_room_id := "chat_" +:+ toStr user_id +:+ "_" +:+ toStr (c_session_id req)
                           +:+ "_" +:+ toStr (c_chat_id req) |}).

(** ** Session-index re-sync ([POST /sessionName]) *)

(** A row of a session-index payload as the handler reads it:
    [{S_id, title, created_at}] ([C_id] is always [null], [source] always
    ['rabbitmq']). *)
Record Transformed := { t_S_id : jsval; t_title : string; t_created_at : Z }.

(** The shapes of payload the handler tells apart: an array of
    [[sid, title]] pairs; an array of [{user_id, sessions: [{s_id, s_name,
    created_at?}]}] objects; one such object whose sessions are pairs, or
    objects. *)
Inductive IndexPayload :=
| DirectArray (rows : list (jsval * string))
| ArrayOfUsers (items : list (jsval * list (jsval * string * option Z)))
| UserRows (uid : jsval) (stamp : option Z) (rows : list (jsval * string))
| UserObjects (uid : jsval) (sessions : list (jsval * string * option Z)).

Definition ofObject (now : Z) (o : jsval * string * option Z) : Transformed :=
  let '(sid, name, created) := o in
  {| t_S_id := sid; t_title := name; t_created_at := default now created |}.

Definition transformSessions (user_id : jsval) (now : Z) (message : IndexPayload)
    : list Transformed :=
  match message with
  | DirectArray rows =>
      map (fun r => {| t_S_id := r.1; t_title := r.2; t_created_at := now |}) rows
  | ArrayOfUsers items =>
      match items with
      | (first, _) :: _ =>
          if truthy first then
            match List.find (fun item => strictEq item.1 user_id) items with
            | Some userSession => map (ofObject now) userSession.2
            | None => []
            end
          else []
      | [] => []
      end
  | UserRows uid stamp rows =>
      if strictEq uid user_id
      then map (fun r => {| t_S_id := r.1; t_title := r.2;
                            t_created_at := default now stamp |}) rows
      else []
  | UserObjects uid sessions =>
      if strictEq uid user_id then map (ofObject now) sessions else []
  end.

(** A [Map] keyed by session id, in insertion order. *)
Fixpoint mapSet {V} (k : jsval) (v : V) (m : list (jsval * V)) : list (jsval * V) :=
  match m with
  | [] => [(k, v)]
  | (k', v') :: m' => if strictEq k' k then (k, v) :: m' else (k', v') :: mapSet k v m'
  end.

Fixpoint mapGet {V} (k : jsval) (m : list (jsval * V)) : option V :=
  match m with
  | [] => None
  | (k', v') :: m' => if strictEq k' k then Some v' else mapGet k m'
  end.

Definition rememberOrigin (s : Session) : Session :=
  {| s_session_id := s_session_id s; s_title := s_title s; s_user_id := s_user_id s;
     s_current_chat_id := s_current_chat_id s; s_total_chats := s_total_chats s;
     s_created_at := s_created_at s; s_updated_at := s_updated_at s;
     s_source := s_source s; s_titleSource := s_titleSource s;
     s_titleUpdated := s_titleUpdated s; s_originalSource := s_source s;
     s_originalTitle := Some (s_title s) |}.

(** One step of the [transformedSessions.forEach] that merges the payload
    into the map. *)
Definition mergeOne (user_id : jsval) (sessionMap : list (jsval * Session)) (t : Transformed)
    : list (jsval * Session) :=
  match mapGet (t_S_id t) sessionMap with
  | None =>
      mapSet (t_S_id t)
        {| s_session_id := t_S_id t; s_title := t_title t; s_user_id := user_id;
           s_current_chat_id := VNull; s_total_chats := 0; s_created_at := t_created_at t;
           s_updated_at := Some (t_created_at t); s_source := Some "rabbitmq";
           s_titleSource := Some "rabbitmq"; s_titleUpdated := None;
           s_originalSource := None; s_originalTitle := None |} sessionMap
  | Some existing =>
      let oldSource :=
        match s_originalSource existing with
        | Some o => if Js.nonEmpty o then Some o else s_source existing
        | None => s_source existing
        end in
      mapSet (t_S_id t)
        {| s_session_id := s_session_id existing; s_title := t_title t;
           s_user_id := s_user_id existing; s_current_chat_id := s_current_chat_id existing;
           s_total_chats := s_total_chats existing; s_created_at := s_created_at existing;
           s_updated_at := Some (t_created_at t);
           s_source := Some (if bool_decide (oldSource = Some "local")
                             then "local_updated_from_rabbitmq" else "rabbitmq");
           s_titleSource := Some "rabbitmq";
           s_titleUpdated := Some (negb (bool_decide (s_title existing = t_title t)));
           s_originalSource := s_originalSource existing;
           s_originalTitle := s_originalTitle existing |} sessionMap
  end.

Definition deduplicate (user_id : jsval) (current : list Session) (ts : list Transformed)
    : list Session :=
  let sessionMap :=
    fold_left (fun m s => mapSet (s_session_id s) (rememberOrigin s) m) current [] in
  map snd (fold_left (mergeOne user_id) ts sessionMap).

(** A row of the list returned to the client. *)
Record SessionRow := {
  row_S_id : jsval;
  row_title : string;
  row_created_at : Z;
  row_C_id : jsval;
  row_source : option string;
  row_titleSource : option string
}.

Definition rowOf (s : Session) : SessionRow :=
  {| row_S_id := s_session_id s; row_title := s_title s; row_created_at := s_created_at s;
     row_C_id := s_current_chat_id s; row_source := s_source s;
     row_titleSource := s_titleSource s |}.

Definition existingRowOf (s : Session) : SessionRow :=
  {| row_S_id := s_session_id s; row_title := s_title s; row_created_at := s_created_at s;
     row_C_id := s_current_chat_id s;
     row_source := Some (match s_source s with
                         | Some o => if Js.nonEmpty o then o else "existing"
                         | None => "existing"
                         end);
     row_titleSource := None |}.

(** The consumer callback of the session-index queue, for a message that
    arrives while the request is still waiting: the rows resolved to the
    client and the catalog after the detached update has run. *)
Definition onSessionIndexMessage (user_id : jsval) (now : Z) (message : IndexPayload)
    (st : State) : State * list SessionRow :=
  let transformedSessions := transformSessions user_id now message in
  match transformedSessions with
  | _ :: _ =>
      let currentUserSessions := List.filter (ofUser user_id) (globalSessionNames st) in
      let deduplicatedSessions := deduplicate user_id currentUserSessions transformedSessions in
      (with_sessions
         (deduplicatedSessions
            ++ List.filter (fun s => negb (ofUser user_id s)) (globalSessionNames st)) st,
       map rowOf deduplicatedSessions)
  | [] =>
      (st, map existingRowOf (List.filter (ofUser user_id) (globalSessionNames st)))
  end.

(** ** Logout: [flushAllGlobalVariables] *)

(** The function lives in [chat.js] and assigns the variables of that
    module; the variables of the socket chat module are not in its scope. *)
Definition flushAllGlobalVariables (st : State) : State :=
  {| globalSessionNames := []; globalChatHistory := ∅; sessionMessageCounts := ∅;
     sessionCacheTimestamp := ∅; globalModelList := []; modelListCacheTimestamp := None;
     foreignLastSessionIds := ∅; sessionCounters := ∅; currentUserId := VNull;
     thinkingContentBuffer := ∅; globalPersonalizedFiles := ∅;
     tokenBuffers := tokenBuffers st; globalActiveConsumer := globalActiveConsumer st;
     globalConsumerCount := globalConsumerCount st;
     globalStreamingSessions := globalStreamingSessions st; emitted := emitted st |}.

(** ** Model profiles *)

Record ModelConfig := {
  type_ : string;
  prompt_format : string;
  supports_thinking : bool;
  thinking_start : string;
  thinking_end : string;
  response_start : string;
  response_end : string
}.

Definition plainModel (t f : string) : ModelConfig :=
  {| type_ := t; prompt_format := f; supports_thinking := false;
     thinking_start := EmptyString; thinking_end := EmptyString;
     response_start := EmptyString; response_end := EmptyString |}.

Definition thinkModel (t f : string) : ModelConfig :=
  {| type_ := t; prompt_format := f; supports_thinking := true;
     thinking_start := "<think>"; thinking_end := "</think>";
     response_start := EmptyString; response_end := EmptyString |}.

Definition gptOssModel : ModelConfig :=
  {| type_ := "gpt-oss"; prompt_format := "gpt_oss"; supports_thinking := true;
     thinking_start := "<|channel|>analysis<|message|>"; thinking_end := "<|end|>";
     response_start := "<|start|>assistant<|channel|>final<|message|>";
     response_end := "<|end|>" |}.

(** The table [MODEL_TYPES] of [chat.js] (own properties). *)
Definition MODEL_TYPES_table : list (string * ModelConfig) :=
  [ ("1", plainModel "llama" "llama");
    ("2", gptOssModel);
    ("3", plainModel "QuickChat" "Quickchat");
    ("4", plainModel "Vision LLM" "Vision LLM");
    ("6", plainModel "qwen" "qwen");
    ("7", thinkModel "qwen" "qwen");
    ("8", thinkModel "qwen" "qwen");
    ("9", plainModel "llama" "llama");
    ("gpt-oss-20b", gptOssModel);
    ("DeepSeek-R1-Distill-Llama-8B", thinkModel "deepseek-thinking" "deepseek_llama");
    ("DeepSeek-R1-Distill-Qwen-7B", thinkModel "deepseek-thinking" "qwen_deepseek");
    ("Qwen-1.5B-QuickChat", plainModel "QuickChat" "QuickChat");
    ("Qwen3-8B", thinkModel "qwen" "qwen");
    ("Qwen3-8B-UD", thinkModel "qwen" "qwen");
    ("Llama-3.1-8B-Instruct-UD", plainModel "llama" "llama");
    ("phi-4", plainModel "phi" "phi");
    ("Ministral-8B-Instruct-2410", plainModel "generic" "generic");
    ("Llama-3.2-1B-Instruct", plainModel "generic" "generic") ].

Fixpoint assoc {V} (k : string) (l : list (string * V)) : option V :=
  match l with
  | [] => None
  | (k', v) :: l' => if decide (k' = k) then Some v else assoc k l'
  end.

Definition MODEL_TYPES (name : string) : option ModelConfig := assoc name MODEL_TYPES_table.

(** The fallback table of the socket module's [getModelNameFromId], in the
    order in which [Object.entries] lists it. *)
Definition modelMappings : list (string * string) :=
  [ ("1", "Llama-3.1-8B-Instruct-UD");
    ("2", "gpt-oss-20b");
    ("3", "Qwen-1.5B-QuickChat");
    ("4", "InterVL-Vision-LLM");
    ("gpt-oss", "gpt-oss-20b");
    ("qwen", "Qwen-1.5B-QuickChat");
    ("llama", "Llama-3.1-8B-Instruct-UD");
    ("Vission-LLM", "InterVL-Vision-LLM") ].

(** [getModelNameFromId(modelId)] of the socket chat module. *)
Definition getModelNameFromId (modelId : jsval) : string :=
  if negb (truthy modelId) then "unknown"
  else
    let modelIdStr := toStr modelId in
    match MODEL_TYPES modelIdStr with
    | Some _ => modelIdStr
    | None =>
        let lowerModelId := Js.toLowerCase modelIdStr in
        match List.find (fun kv => Js.includes lowerModelId kv.1) modelMappings with
        | Some kv => kv.2
        | None => modelIdStr
        end
    end.

(** ** Thinking parser: [processTokenStreamThinking] *)

Definition freshBuffer (m : string) : TokenBuffer :=
  {| tokens := []; fullContent := EmptyString; model := m; b_thinkingContent := EmptyString;
     isInThinking := false; hasThinkingStarted := false; isInResponseTags := false;
     hasResponseStarted := false; pendingThinkingTokens := []; thinkingMessageId := None |}.

(** The reset done when the model of the stream changes. *)
Definition switchModel (m : string) (b : TokenBuffer) : TokenBuffer :=
  {| tokens := tokens b; fullContent := fullContent b; model := m;
     b_thinkingContent := EmptyString; isInThinking := false; hasThinkingStarted := false;
     isInResponseTags := false; hasResponseStarted := false; pendingThinkingTokens := [];
     thinkingMessageId := None |}.

(** [buffer.tokens.push(token); buffer.fullContent += token] *)
Definition pushToken (token : string) (b : TokenBuffer) : TokenBuffer :=
  {| tokens := tokens b ++ [token]; fullContent := fullContent b +:+ token; model := model b;
     b_thinkingContent := b_thinkingContent b; isInThinking := isInThinking b;
     hasThinkingStarted := hasThinkingStarted b; isInResponseTags := isInResponseTags b;
     hasResponseStarted := hasResponseStarted b;
     pendingThinkingTokens := pendingThinkingTokens b;
     thinkingMessageId := thinkingMessageId b |}.

Definition startThinking (mid thinking : string) (b : TokenBuffer) : TokenBuffer :=
  {| tokens := tokens b; fullContent := fullContent b; model := model b;
     b_thinkingContent := thinking; isInThinking := true; hasThinkingStarted := true;
     isInResponseTags := isInResponseTags b; hasResponseStarted := hasResponseStarted b;
     pendingThinkingTokens := pendingThinkingTokens b; thinkingMessageId := Some mid |}.

(** [buffer.thinkingContent += token], with the token recorded as pending
    when it is streamed. *)
Definition accumulate (token : string) (streamed : bool) (b : TokenBuffer) : TokenBuffer :=
  {| tokens := tokens b; fullContent := fullContent b; model := model b;
     b_thinkingContent := b_thinkingContent b +:+ token; isInThinking := isInThinking b;
     hasThinkingStarted := hasThinkingStarted b; isInResponseTags := isInResponseTags b;
     hasResponseStarted := hasResponseStarted b;
     pendingThinkingTokens :=
       if streamed then pendingThinkingTokens b ++ [token] else pendingThinkingTokens b;
     thinkingMessageId := thinkingMessageId b |}.

Definition endThinking (b : TokenBuffer) : TokenBuffer :=
  {| tokens := tokens b; fullContent := fullContent b; model := model b;
     b_thinkingContent := b_thinkingContent b; isInThinking := false;
     hasThinkingStarted := hasThinkingStarted b; isInResponseTags := isInResponseTags b;
     hasResponseStarted := hasResponseStarted b; pendingThinkingTokens := [];
     thinkingMessageId := None |}.

Definition setResponse (inTags started : bool) (b : TokenBuffer) : TokenBuffer :=
  {| tokens := tokens b; fullContent := fullContent b; model := model b;
     b_thinkingContent := b_thinkingContent b; isInThinking := isInThinking b;
     hasThinkingStarted := hasThinkingStarted b; isInResponseTags := inTags;
     hasResponseStarted := started; pendingThinkingTokens := pendingThinkingTokens b;
     thinkingMessageId := thinkingMessageId b |}.

(** [s.trim()] is truthy. *)
Definition nonBlank (s : string) : bool := Js.nonEmpty (Js.trim s).

(** [if (s.trim()) return s; return '';] *)
Definition orEmpty (s : string) : string := if nonBlank s then s else EmptyString.

Definition gptOssResponseSignal : string := "<|channel|>final<|message|>".

(** What one call of the parser does besides returning: the buffer it
    leaves, the payloads it sends to the room, and the thinking text it
    stores in the transcript. *)
Record ParseOut := {
  out_buffer : TokenBuffer;
  out_emits : list Payload;
  out_store : option string;
  out_return : string
}.

Definition parsed (b : TokenBuffer) (ret : string) : ParseOut :=
  {| out_buffer := b; out_emits := []; out_store := None; out_return := ret |}.

Definition plainStream (text : string) (chatId sessionId : jsval) : Payload :=
  Stream text chatId sessionId VUndef None false None.

(** The part of [processTokenStreamThinking] that runs for a model with
    thinking support, after the token has been pushed on the buffer. *)
Definition parseThinking (cfg : ModelConfig) (sessionKey : string) (chatId sessionId : jsval)
    (now : Z) (token : string) (buffer : TokenBuffer) : ParseOut :=
  let full := fullContent buffer in
  let tstart := thinking_start cfg in
  let tend := thinking_end cfg in
  let rstart := response_start cfg in
  let rend := response_end cfg in
  if Js.nonEmpty tstart && Js.includes full tstart && negb (hasThinkingStarted buffer) then
    let startIndex := Js.indexOf full tstart in
    let emptyPair :=
      if Js.nonEmpty tend && Js.includes full tend then
        let endIndex := Js.indexOfFrom full tend startIndex in
        let thinkingContent :=
          Js.trim (Js.substring full (startIndex + Js.len tstart) endIndex) in
        if Js.nonEmpty thinkingContent then None
        else Some (Js.substring full 0 startIndex
                   +:+ Js.substringFrom full (endIndex + Js.len tend))
      else None in
    match emptyPair with
    | Some cleanContent => parsed buffer (orEmpty cleanContent)
    | None =>
        let beforeThinking := Js.substring full 0 startIndex in
        {| out_buffer :=
             startThinking ("thinking_" +:+ sessionKey +:+ "_" +:+ pretty now)
               (Js.substringFrom full (startIndex + Js.len tstart)) buffer;
           out_emits :=
             if nonBlank beforeThinking then [plainStream beforeThinking chatId sessionId]
             else [];
           out_store := None; out_return := EmptyString |}
    end
  else if isInThinking buffer then
    let streamed :=
      nonBlank token && negb (bool_decide (token = tstart)) && negb (bool_decide (token = tend)) in
    let b1 := accumulate token streamed buffer in
    let pendingEmit :=
      if streamed
      then [Stream token chatId sessionId VUndef (thinkingMessageId buffer) true None]
      else [] in
    let thinking := b_thinkingContent b1 in
    let isGptOss := bool_decide (model b1 = "gpt-oss-20b") || bool_decide (model b1 = "3") in
    let detected :=
      if isGptOss && Js.includes thinking gptOssResponseSignal
      then Some (Js.indexOf thinking gptOssResponseSignal)
      else if negb isGptOss && Js.nonEmpty tend && Js.includes thinking tend
      then Some (Js.indexOf thinking tend)
      else None in
    match detected with
    | None =>
        {| out_buffer := b1; out_emits := pendingEmit; out_store := None;
           out_return := EmptyString |}
    | Some endIndex =>
        let thinkingOnly := Js.trim (Js.substring thinking 0 endIndex) in
        let moved := Js.nonEmpty thinkingOnly in
        let emits :=
          pendingEmit ++
          (if moved
           then [MoveToThinking thinkingOnly chatId sessionId (thinkingMessageId b1)
                   (pendingThinkingTokens b1);
                 ThinkingComplete chatId sessionId]
           else []) in
        let store := if moved then Some thinkingOnly else None in
        let b2 := endThinking b1 in
        let afterThinking :=
          if isGptOss
          then Js.substringFrom thinking (endIndex + Js.len gptOssResponseSignal)
          else Js.substringFrom thinking (endIndex + Js.len tend) in
        if negb isGptOss && Js.nonEmpty rstart && Js.includes afterThinking rstart then
          let responseStartIndex := Js.indexOf afterThinking rstart in
          let beforeResponse := Js.substring afterThinking 0 responseStartIndex in
          if nonBlank beforeResponse then
            {| out_buffer := b2; out_emits := emits; out_store := store;
               out_return := beforeResponse |}
          else
            {| out_buffer := setResponse true true b2; out_emits := emits; out_store := store;
               out_return :=
                 orEmpty (Js.substringFrom afterThinking (responseStartIndex + Js.len rstart)) |}
        else if isGptOss then
          {| out_buffer := setResponse true true b2; out_emits := emits; out_store := store;
             out_return := orEmpty afterThinking |}
        else
          {| out_buffer := b2; out_emits := emits; out_store := store;
             out_return := orEmpty afterThinking |}
    end
  else if Js.nonEmpty rstart && negb (hasResponseStarted buffer) && Js.includes full rstart then
    let responseStartIndex := Js.indexOf full rstart in
    let beforeResponse := Js.substring full 0 responseStartIndex in
    {| out_buffer := setResponse true true buffer;
       out_emits :=
         if nonBlank beforeResponse then [plainStream beforeResponse chatId sessionId] else [];
       out_store := None;
       out_return := orEmpty (Js.substringFrom full (responseStartIndex + Js.len rstart)) |}
  else if isInResponseTags buffer && Js.nonEmpty rend && Js.includes full rend then
    let responseEndIndex := Js.indexOf full rend in
    let responseContent := Js.substring full 0 responseEndIndex in
    let responseStartIndex := Js.indexOf responseContent rstart in
    let pureResponseContent :=
      if 0 <=? responseStartIndex
      then Js.trim (Js.substringFrom responseContent (responseStartIndex + Js.len rstart))
      else Js.trim responseContent in
    let afterResponse := Js.substringFrom full (responseEndIndex + Js.len rend) in
    parsed (setResponse false (hasResponseStarted buffer) buffer)
      (if Js.nonEmpty pureResponseContent then pureResponseContent else orEmpty afterResponse)
  else parsed buffer token.

(** [sessionKey.split('_')[0]] *)
Fixpoint beforeUnderscore (s : string) : string :=
  match s with
  | EmptyString => EmptyString
  | String c s' => if decide (c = "_"%char) then EmptyString else String c (beforeUnderscore s')
  end.

(** The transcript update done when thinking content is moved: the last
    message takes it when it is an unfinished assistant message, otherwise
    a new assistant message is pushed. *)
Definition storeThinking (sessionKey : string) (chatId sessionId : jsval) (now : Z)
    (thinkingOnly : string) (st : State) : State :=
  let msgs := default [] (globalChatHistory st !! sessionKey) in
  let fresh :=
    {| role := assistant; content := EmptyString; thinkingContent := Some thinkingOnly;
       hasThinking := true; chat_id := chatId; session_id := sessionId;
       user_id := VStr (beforeUnderscore sessionKey); timestamp := now;
       message_type := "assistant_with_thinking"; isComplete := false; token_count := 0;
       total_tokens := None; completion_timestamp := None; temp_file_name := None |} in
  let msgs' :=
    match last msgs with
    | Some lastMessage =>
        if bool_decide (role lastMessage = assistant) && negb (isComplete lastMessage) then
          removelast msgs ++
          [{| role := role lastMessage; content := content lastMessage;
              thinkingContent := Some thinkingOnly; hasThinking := true;
              chat_id := chat_id lastMessage; session_id := session_id lastMessage;
              user_id := user_id lastMessage; timestamp := timestamp lastMessage;
              message_type := message_type lastMessage; isComplete := isComplete lastMessage;
              token_count := token_count lastMessage; total_tokens := total_tokens lastMessage;
              completion_timestamp := completion_timestamp lastMessage;
              temp_file_name := temp_file_name lastMessage |}]
        else msgs ++ [fresh]
    | None => msgs ++ [fresh]
    end in
  with_history (<[sessionKey := msgs']> (globalChatHistory st)) st.

(** The buffer the parser works on: the stored one, or a fresh one, after
    the model check. *)
Definition currentBuffer (sessionKey : string) (modelId : jsval) (st : State) : TokenBuffer :=
  let currentModel := getModelNameFromId modelId in
  let buffer := default (freshBuffer currentModel) (tokenBuffers st !! sessionKey) in
  if bool_decide (model buffer = currentModel) then buffer else switchModel currentModel buffer.

(** The parser proper, on the buffer that already holds the token: a model
    without thinking support passes the token through. *)
Definition parseToken (sessionKey : string) (chatId sessionId : jsval) (now : Z)
    (token : string) (buffer : TokenBuffer) : ParseOut :=
  match MODEL_TYPES (model buffer) with
  | Some cfg =>
      if supports_thinking cfg
      then parseThinking cfg sessionKey chatId sessionId now token buffer
      else parsed buffer token
  | None => parsed buffer token
  end.

Definition emission (r : string) (now : Z) (p : Payload) : Emission :=
  {| room := r; at_ := now; payload := p |}.

(** [processTokenStreamThinking(token, sessionKey, modelId, io, roomId, chatId, sessionId)] *)
Definition processTokenStreamThinking (token sessionKey : string) (modelId : jsval)
    (roomId : string) (chatId sessionId : jsval) (now : Z) (st : State) : State * string :=
  if negb (Js.nonEmpty token) then (st, EmptyString)
  else
    let buffer := pushToken token (currentBuffer sessionKey modelId st) in
    let out := parseToken sessionKey chatId sessionId now token buffer in
    let st1 := with_tokenBuffers (<[sessionKey := out_buffer out]> (tokenBuffers st)) st in
    let st2 :=
      with_emitted (emitted st1 ++ map (emission roomId now) (out_emits out)) st1 in
    let st3 :=
      match out_store out with
      | Some thinkingOnly => storeThinking sessionKey chatId sessionId now thinkingOnly st2
      | None => st2
      end in
    (st3, out_return out).

(** ** Socket chat: start of a chat and the consumer callback *)

(** A message delivered by the chat queue: a bare string, or an object
    with the fields the callback reads.  The text fields are strings when
    present, as in the wire contract. *)
Record BusObject := {
  bm_type : option string;
  bm_status : option string;
  bm_token : option string;
  bm_data : option string;
  bm_content : option string;
  bm_response : option string;
  bm_message : option string;
  bm_chat_id : jsval
}.

Inductive BusMessage :=
| BusText (s : string)
| BusObj (o : BusObject).

Definition hexDigit (n : N) : ascii :=
  ascii_of_N (if (n <? 10)%N then 48 + n else 87 + n).

(** The escape of one code unit inside a JSON string. *)
Definition jsonEscape (c : ascii) : string :=
  let n := N_of_ascii c in
  if (n =? 34)%N then String "\"%char dquote
  else if (n =? 92)%N then "\\"
  else if (n =? 8)%N then "\b"
  else if (n =? 9)%N then "\t"
  else if (n =? 10)%N then "\n"
  else if (n =? 12)%N then "\f"
  else if (n =? 13)%N then "\r"
  else if (n <? 32)%N
       then "\u00" +:+ String (hexDigit (n / 16)) (String (hexDigit (n mod 16)) EmptyString)
       else String c EmptyString.

Fixpoint jsonEscapeAll (s : string) : string :=
  match s with
  | EmptyString => EmptyString
  | String c s' => jsonEscape c +:+ jsonEscapeAll s'
  end.

Definition jsonString (s : string) : string := dquote +:+ jsonEscapeAll s +:+ dquote.

Definition jsonField (name : string) (v : option string) : list string :=
  match v with
  | Some s => [jsonString name +:+ ":" +:+ jsonString s]
  | None => []
  end.

Fixpoint joinWith (sep : string) (l : list string) : string :=
  match l with
  | [] => EmptyString
  | [x] => x
  | x :: l' => x +:+ sep +:+ joinWith sep l'
  end.

(** [JSON.stringify(message)] for an object message; the keys come in the
    order of the fields of [BusObject]. *)
Definition jsonOfBus (o : BusObject) : string :=
  "{" +:+
  joinWith ","
    (jsonField "type" (bm_type o) ++ jsonField "status" (bm_status o)
     ++ jsonField "token" (bm_token o) ++ jsonField "data" (bm_data o)
     ++ jsonField "content" (bm_content o) ++ jsonField "response" (bm_response o)
     ++ jsonField "message" (bm_message o)
     ++ match bm_chat_id o with
        | VUndef => []
        | VNull => [jsonString "chat_id" +:+ ":null"]
        | VNum n => [jsonString "chat_id" +:+ ":" +:+ pretty n]
        | VStr s => [jsonString "chat_id" +:+ ":" +:+ jsonString s]
        end)
  +:+ "}".

(** The variables captured by the callback of one socket chat. *)
Record ChatCtx := {
  finalUserId : jsval;
  finalSessionId : jsval;
  finalChatId : jsval;
  finalInstanceId : jsval;
  roomId : string;
  finalPrompt : string;
  isStreamingComplete : bool;
  messageCount : Z
}.

Definition with_progress (complete : bool) (count : Z) (c : ChatCtx) : ChatCtx :=
  {| finalUserId := finalUserId c; finalSessionId := finalSessionId c;
     finalChatId := finalChatId c; finalInstanceId := finalInstanceId c; roomId := roomId c;
     finalPrompt := finalPrompt c; isStreamingComplete := complete; messageCount := count |}.

(** The fields of the ['send-chat-message'] event that the steps modelled
    here read. *)
Record ChatMessageData := {
  d_prompt : string;
  d_message : string;
  d_session_id : jsval;
  d_chat_id : jsval;
  d_instance_id : jsval;
  d_llm_model_id : jsval;
  d_userId : jsval;
  d_roomId : string
}.

(** [forceCleanupAllConsumers()] *)
Definition forceCleanupAllConsumers (cancel : CancelOutcome) (st : State) : State :=
  let st1 :=
    match globalActiveConsumer st, cancel with
    | Some _, CancelReturns _ => with_activeConsumer None st
    | _, _ => st
    end in
  with_streamingSessions ∅ st1.

Definition with_consumerCount (v : Z) (st : State) : State :=
  {| globalSessionNames := globalSessionNames st; globalChatHistory := globalChatHistory st;
     sessionMessageCounts := sessionMessageCounts st;
     sessionCacheTimestamp := sessionCacheTimestamp st;
     globalModelList := globalModelList st;
     modelListCacheTimestamp := modelListCacheTimestamp st;
     foreignLastSessionIds := foreignLastSessionIds st;
     sessionCounters := sessionCounters st; currentUserId := currentUserId st;
     thinkingContentBuffer := thinkingContentBuffer st;
     globalPersonalizedFiles := globalPersonalizedFiles st;
     tokenBuffers := tokenBuffers st; globalActiveConsumer := globalActiveConsumer st;
     globalConsumerCount := v;
     globalStreamingSessions := globalStreamingSessions st; emitted := emitted st |}.

(** The handler of ['send-chat-message'] up to the moment the consumer is
    registered: [socketId] is [socket.id], [cancel] the outcome of
    cancelling a previous consumer, [broker] what the broker client gives
    back ([None] when the connection is unavailable or subscribing fails).
    No chat starts without a user id. *)
Definition startSocketChat (data : ChatMessageData) (socketId : string) (now : Z)
    (cancel : CancelOutcome) (broker : option Consumer) (st : State)
    : option (State * ChatCtx) :=
  let finalPrompt := if Js.nonEmpty (d_prompt data) then d_prompt data else d_message data in
  let user_id := orElse (d_userId data) (currentUserId st) in
  if negb (truthy user_id) then None
  else
    let finalSessionId := orElse (d_session_id data) (VStr "1") in
    let finalChatId := orElse (d_chat_id data) (VStr "1") in
    let sessionKey := sessionKeyOf user_id finalSessionId in
    let st1 :=
      with_tokenBuffers
        (<[sessionKey := freshBuffer (getModelNameFromId (d_llm_model_id data))]>
           (tokenBuffers (cleanupTokenBuffer sessionKey st))) st in
    let prompt :=
      {| role := user; content := finalPrompt; thinkingContent := None; hasThinking := false;
         chat_id := finalChatId; session_id := finalSessionId; user_id := user_id;
         timestamp := now; message_type := "user_prompt"; isComplete := false;
         token_count := 0; total_tokens := None; completion_timestamp := None;
         temp_file_name := None |} in
    let st2 :=
      with_history
        (<[sessionKey := default [] (globalChatHistory st1 !! sessionKey) ++ [prompt]]>
           (globalChatHistory st1)) st1 in
    let tag := consumerTagOf socketId finalSessionId finalChatId now in
    let st3 := forceCleanupAllConsumers cancel st2 in
    let st4 := with_consumerCount (globalConsumerCount st3 + 1) st3 in
    let st5 :=
      with_streamingSessions
        (<[sessionKey :=
             {| ctx_modelId := d_llm_model_id data; ctx_chatId := finalChatId;
                ctx_instanceId := d_instance_id data; ctx_sessionId := finalSessionId;
                ctx_userId := user_id; ctx_consumerTag := tag |}]>
           (globalStreamingSessions st4)) st4 in
    let st6 :=
      match broker with
      | Some consumer => with_activeConsumer (Some consumer) st5
      | None => st5
      end in
    Some (st6,
          {| finalUserId := user_id; finalSessionId := finalSessionId;
             finalChatId := finalChatId; finalInstanceId := d_instance_id data;
             roomId := d_roomId data; finalPrompt := finalPrompt;
             isStreamingComplete := false; messageCount := 0 |}).

(** [generateSessionTitle(firstMessage)] *)
Definition generateSessionTitle (firstMessage : string) : string :=
  if negb (Js.nonEmpty firstMessage) then "New Chat"
  else
    let trimmed := Js.trim firstMessage in
    if negb (Js.nonEmpty trimmed) then "New Chat"
    else if 50 <? Js.len trimmed then Js.trim (Js.substring trimmed 0 50) +:+ "..."
    else trimmed.

Definition isCompletionMessage (message : BusMessage) : bool :=
  match message with
  | BusText _ => false
  | BusObj o =>
      (bool_decide (bm_type o = Some "status") && bool_decide (bm_token o = Some "done"))
      || (bool_decide (bm_type o = Some "completion") && bool_decide (bm_status o = Some "done"))
  end.

Definition chatIdOf (message : BusMessage) : jsval :=
  match message with
  | BusText _ => VUndef
  | BusObj o => bm_chat_id o
  end.

Definition truthyField (v : option string) : bool :=
  match v with Some s => Js.nonEmpty s | None => false end.

(** The text the callback extracts from a message that is not a
    completion signal. *)
Definition responseContentOf (message : BusMessage) : string :=
  match message with
  | BusText s => s
  | BusObj o =>
      if bool_decide (bm_type o = Some "token") && truthyField (bm_data o)
      then default EmptyString (bm_data o)
      else if truthyField (bm_data o) then default EmptyString (bm_data o)
      else if truthyField (bm_response o) then default EmptyString (bm_response o)
      else if truthyField (bm_content o) then default EmptyString (bm_content o)
      else if truthyField (bm_message o) then default EmptyString (bm_message o)
      else jsonOfBus o
  end.

Definition isTokenMessage (message : BusMessage) : bool :=
  match message with
  | BusText _ => false
  | BusObj o => bool_decide (bm_type o = Some "token")
  end.

Definition markComplete (now : Z) (m : Message) : Message :=
  {| role := role m; content := content m; thinkingContent := thinkingContent m;
     hasThinking := hasThinking m; chat_id := chat_id m; session_id := session_id m;
     user_id := user_id m; timestamp := timestamp m; message_type := "complete_response";
     isComplete := true; token_count := token_count m;
     total_tokens := Some (if token_count m =? 0 then 1 else token_count m);
     completion_timestamp := Some now; temp_file_name := temp_file_name m |}.

Definition setComplete (m : Message) : Message :=
  {| role := role m; content := content m; thinkingContent := thinkingContent m;
     hasThinking := hasThinking m; chat_id := chat_id m; session_id := session_id m;
     user_id := user_id m; timestamp := timestamp m; message_type := message_type m;
     isComplete := true; token_count := token_count m; total_tokens := total_tokens m;
     completion_timestamp := completion_timestamp m; temp_file_name := temp_file_name m |}.

(** The backward loop that marks the user message of the chat: on the
    reversed transcript, the first unfinished user message of the chat. *)
Fixpoint markUserBackward (chatId : jsval) (reversed : list Message) : list Message :=
  match reversed with
  | [] => []
  | m :: rest =>
      if bool_decide (role m = user) && strictEq (chat_id m) chatId && negb (isComplete m)
      then setComplete m :: rest
      else m :: markUserBackward chatId rest
  end.

(** The transcript update on a completion signal. *)
Definition completeTranscript (chatId : jsval) (now : Z) (msgs : list Message) : list Message :=
  match last msgs with
  | None => msgs
  | Some lastMessage =>
      let msgs1 :=
        if bool_decide (role lastMessage = assistant)
        then removelast msgs ++ [markComplete now lastMessage]
        else msgs in
      rev (markUserBackward chatId (rev msgs1))
  end.

(** The transcript update for a piece of streamed text. *)
Definition appendResponse (ctx : ChatCtx) (now : Z) (isToken : bool) (text : string)
    (msgs : list Message) : list Message :=
  let fresh :=
    {| role := assistant; content := text; thinkingContent := None; hasThinking := false;
       chat_id := finalChatId ctx; session_id := finalSessionId ctx;
       user_id := finalUserId ctx; timestamp := now;
       message_type := if isToken then "streaming_tokens" else "streaming_content";
       isComplete := false; token_count := 1; total_tokens := None;
       completion_timestamp := None; temp_file_name := None |} in
  match last msgs with
  | Some lastMessage =>
      if bool_decide (role lastMessage = assistant) && negb (isComplete lastMessage) then
        removelast msgs ++
        [{| role := role lastMessage; content := content lastMessage +:+ text;
            thinkingContent := thinkingContent lastMessage;
            hasThinking := hasThinking lastMessage; chat_id := chat_id lastMessage;
            session_id := session_id lastMessage; user_id := user_id lastMessage;
            timestamp := now;
            message_type := if isToken then "streaming_tokens" else message_type lastMessage;
            isComplete := isComplete lastMessage; token_count := token_count lastMessage + 1;
            total_tokens := total_tokens lastMessage;
            completion_timestamp := completion_timestamp lastMessage;
            temp_file_name := temp_file_name lastMessage |}]
      else msgs ++ [fresh]
  | None => msgs ++ [fresh]
  end.

(** The catalog entry made or refreshed when the first texts of a chat
    arrive. *)
Definition noteSession (ctx : ChatCtx) (now : Z) (st : State) : State :=
  let same s :=
    strictEq (s_session_id s) (finalSessionId ctx) && strictEq (s_user_id s) (finalUserId ctx) in
  let refresh :=
    fix go (l : list Session) : option (list Session) :=
      match l with
      | [] => None
      | s :: l' =>
          if same s then
            Some ({| s_session_id := s_session_id s; s_title := s_title s;
                     s_user_id := s_user_id s; s_current_chat_id := finalChatId ctx;
                     s_total_chats := s_total_chats s; s_created_at := s_created_at s;
                     s_updated_at := Some now; s_source := s_source s;
                     s_titleSource := s_titleSource s; s_titleUpdated := s_titleUpdated s;
                     s_originalSource := s_originalSource s;
                     s_originalTitle := s_originalTitle s |} :: l')
          else cons s <$> go l'
      end in
  match refresh (globalSessionNames st) with
  | Some l => with_sessions l st
  | None =>
      let historyKey := sessionKeyOf (finalUserId ctx) (finalSessionId ctx) in
      let userMessage :=
        List.find (fun m => bool_decide (role m = user) && strictEq (chat_id m) (finalChatId ctx))
          (default [] (globalChatHistory st !! historyKey)) in
      let userPrompt :=
        match userMessage with
        | Some m => if Js.nonEmpty (content m) then content m else finalPrompt ctx
        | None => finalPrompt ctx
        end in
      with_sessions
        ({| s_session_id := finalSessionId ctx; s_title := generateSessionTitle userPrompt;
            s_user_id := finalUserId ctx; s_current_chat_id := finalChatId ctx;
            s_total_chats := 1; s_created_at := now; s_updated_at := Some now;
            s_source := None; s_titleSource := None; s_titleUpdated := None;
            s_originalSource := None; s_originalTitle := None |} :: globalSessionNames st) st
  end.

(** [sessionContext?.modelId || 'unknown'] for the stream of [sessionKey]. *)
Definition streamModelId (sessionKey : string) (st : State) : jsval :=
  match globalStreamingSessions st !! sessionKey with
  | Some sessionContext => orElse (ctx_modelId sessionContext) (VStr "unknown")
  | None => VStr "unknown"
  end.

(** What the callback does with a non-empty piece of text: record it in
    the transcript, note the session, run the parser, stream what the
    parser returns. [count] is the number of the message. *)
Definition streamText (responseContent : string) (isToken : bool) (now count : Z)
    (ctx : ChatCtx) (st : State) : State :=
  let historyKey := sessionKeyOf (finalUserId ctx) (finalSessionId ctx) in
  let st1 :=
    with_history
      (<[historyKey :=
           appendResponse ctx now isToken responseContent
             (default [] (globalChatHistory st !! historyKey))]>
         (globalChatHistory st)) st in
  let st2 :=
    if (count <=? 3) && (2 <? Js.len (Js.trim responseContent))
    then noteSession ctx now st1 else st1 in
  let '(st3, processedToken) :=
    processTokenStreamThinking responseContent historyKey (streamModelId historyKey st2)
      (roomId ctx) (finalChatId ctx) (finalSessionId ctx) now st2 in
  if nonBlank processedToken
  then emit (roomId ctx) now
         (Stream processedToken (finalChatId ctx) (finalSessionId ctx)
            (finalInstanceId ctx) None false (Some count)) st3
  else st3.

(** The callback given to [rabbitmq.consumeQueue] for the chat queue. The
    timers it arms and clears are not part of the model. *)
Definition onChatMessage (message : BusMessage) (now : Z) (ctx : ChatCtx) (st : State)
    : State * ChatCtx :=
  if isStreamingComplete ctx then (st, ctx)
  else
    let count := messageCount ctx + 1 in
    let ctx1 := with_progress false count ctx in
    if truthy (chatIdOf message)
       && negb (bool_decide (toStr (chatIdOf message) = toStr (finalChatId ctx)))
    then (st, ctx1)
    else
      let historyKey := sessionKeyOf (finalUserId ctx) (finalSessionId ctx) in
      if isCompletionMessage message then
        let st1 :=
          match globalChatHistory st !! historyKey with
          | Some msgs =>
              with_history
                (<[historyKey := completeTranscript (finalChatId ctx) now msgs]>
                   (globalChatHistory st)) st
          | None => st
          end in
        (emit (roomId ctx) now
           (Complete "Stream completed" (finalChatId ctx) (finalSessionId ctx)
              (finalInstanceId ctx)
              (match message with BusObj o => bm_type o | BusText _ => None end)
              (Some count)) st1,
         with_progress true count ctx)
      else
        let responseContent := responseContentOf message in
        if negb (Js.nonEmpty responseContent) then (st, ctx1)
        else (streamText responseContent (isTokenMessage message) now count ctx st, ctx1).

(** Delivery of a sequence of messages to the callback of one chat, each
    with the clock reading at its arrival. *)
Fixpoint deliver (messages : list (Z * BusMessage)) (ctx : ChatCtx) (st : State)
    : State * ChatCtx :=
  match messages with
  | [] => (st, ctx)
  | (now, m) :: rest => let '(st1, ctx1) := onChatMessage m now ctx st in deliver rest ctx1 st1
  end.

(** ** The chat-queue consumers of [POST /chat]

    The handler of [POST /chat] registers consumers of its own on the chat
    queue: one once Upstream has answered, and one that drains the queue
    after an error answer.  Their callbacks are modelled up to the decision
    they take on a message.  [headersSent] is [res.headersSent] at that
    moment; a content they accept goes to [processStreamingThinking], and
    the main content that returns is written to the response of the
    request. *)

Inductive HttpVerdict :=
| HttpIgnored
| HttpCompletion
| HttpContent (content : string)
| HttpNothing.

(** The completion test of the first callback. *)
Definition isHttpCompletion (message : BusMessage) : bool :=
  match message with
  | BusText _ => false
  | BusObj o =>
      bool_decide (bm_content o = Some "COMPLETION")
      || bool_decide (bm_type o = Some "complete")
      || bool_decide (bm_type o = Some "completion")
      || bool_decide (bm_status o = Some "done")
      || (truthyField (bm_content o)
          && Js.includes (Js.toLowerCase (default EmptyString (bm_content o))) "completion")
  end.

(** The callback of the consumer registered once Upstream has answered. *)
Definition onHttpQueueMessage (message : BusMessage) (isStreamingComplete headersSent : bool)
    : HttpVerdict :=
  if isStreamingComplete then HttpIgnored
  else if isHttpCompletion message then HttpCompletion
  else
    match message with
    | BusObj o =>
        if truthyField (bm_content o) && negb headersSent
        then HttpContent (default EmptyString (bm_content o))
        else HttpNothing
    | BusText _ => HttpNothing
    end.

(** The callback of the consumer that drains the queue after an error
    answer of Upstream. *)
Definition onHttpDrainMessage (message : BusMessage) (queueDrained headersSent : bool)
    : HttpVerdict :=
  if queueDrained then HttpIgnored
  else
    match message with
    | BusObj o =>
        if truthyField (bm_content o) && negb headersSent
        then HttpContent (default EmptyString (bm_content o))
        else HttpNothing
    | BusText _ => HttpNothing
    end.

(** ** Reading the log of emissions *)

(** The texts of the [stream] emissions, in order. *)
Definition streamContents (log : list Emission) : list string :=
  omap (fun e => match payload e with
                 | Stream text _ _ _ _ _ _ => Some text
                 | _ => None
                 end) log.

(** The texts of the [stream] emissions marked [isPendingThinking]. *)
Definition pendingContents (log : list Emission) : list string :=
  omap (fun e => match payload e with
                 | Stream text _ _ _ _ true _ => Some text
                 | _ => None
                 end) log.

Definition isStream (e : Emission) : bool :=
  match payload e with Stream _ _ _ _ _ _ _ => true | _ => false end.

Fixpoint concatAll (l : list string) : string :=
  match l with
  | [] => EmptyString
  | x :: l' => x +:+ concatAll l'
  end.

(** A token message [{type: 'token', data, chat_id}]. *)
Definition tokenMessage (text : string) (chat : jsval) : BusMessage :=
  BusObj {| bm_type := Some "token"; bm_status := None; bm_token := None;
            bm_data := Some text; bm_content := None; bm_response := None;
            bm_message := None; bm_chat_id := chat |}.

(** The completion signal [{type: 'status', token: 'done'}]. *)
Definition doneMessage : BusMessage :=
  BusObj {| bm_type := Some "status"; bm_status := None; bm_token := Some "done";
            bm_data := None; bm_content := None; bm_response := None;
            bm_message := None; bm_chat_id := VUndef |}.

(** ** Predicates used in the statements *)

(** [p] occurs in [s] as a contiguous piece. *)
Definition occursIn (p s : string) : Prop := exists pre post, s = pre +:+ p +:+ post.

Definition stopFailure (code : Z) : StopResponse :=
  {| http_code := 500; success := false; r_status := Some (pretty code);
     r_message := Some "Failed to stop generation on foreign server";
     cleanup_completed := false |}.




(** The invariant of the map built by the deduplication of user [u]: every
    key is the session id of its entry, and every entry belongs to [u]. *)
Definition keyed (u : jsval) (m : list (jsval * Session)) : Prop :=
  forall k s, In (k, s) m -> s_session_id s = k /\ s_user_id s = u.

(** The rows [(sid, title)] that a session-index payload holds for
    [user_id], read off the wire contract: the pairs of a direct array; the
    sessions of the object of the user; in an array of such objects, the
    sessions of the first object of the user. *)
Definition payloadRows (user_id : jsval) (message : IndexPayload) : list (jsval * string) :=
  match message with
  | DirectArray rows => rows
  | ArrayOfUsers items =>
      match List.find (fun item => strictEq item.1 user_id) items with
      | Some item => map (fun o => (o.1.1, o.1.2)) item.2
      | None => []
      end
  | UserRows uid _ rows => if strictEq uid user_id then rows else []
  | UserObjects uid sessions =>
      if strictEq uid user_id then map (fun o => (o.1.1, o.1.2)) sessions else []
  end.

(** Every object of an array of user objects names its user. *)
Definition namedUsers (message : IndexPayload) : bool :=
  match message with
  | ArrayOfUsers items => forallb (fun item => truthy item.1) items
  | _ => true
  end.

(** The title of the last row of [rows] whose id is [sid]. *)
Fixpoint lastTitle (sid : jsval) (rows : list (jsval * string)) : option string :=
  match rows with
  | [] => None
  | (k, title) :: rest =>
      match lastTitle sid rest with
      | Some later => Some later
      | None => if strictEq k sid then Some title else None
      end
  end.

(** Every [move_to_thinking] of a log is sound with respect to the text
    [full] received so far: its content is not empty and occurs in [full],
    its [pendingTokens] are the pending [stream] texts emitted before it,
    and the next emission is the [thinking_complete] of the same chat. *)
Definition moveSound (full : string) (log : list Emission) : Prop :=
  forall (i : nat) e X c s mid P,
    log !! i = Some e -> payload e = MoveToThinking X c s mid P ->
    X <> EmptyString /\ occursIn X full /\ P = pendingContents (take i log)
    /\ exists e', log !! S i = Some e' /\ payload e' = ThinkingComplete c s.

(** The invariant that ties a parser buffer to the log of its stream. *)
Definition coherent (b : TokenBuffer) (log : list Emission) : Prop :=
  fullContent b = concatAll (tokens b)
  /\ (isInThinking b = true -> hasThinkingStarted b = true)
  /\ (isInThinking b = true -> exists pre, fullContent b = pre +:+ b_thinkingContent b)
  /\ (isInThinking b = true \/ hasThinkingStarted b = false ->
      pendingThinkingTokens b = pendingContents log)
  /\ moveSound (fullContent b) log.

Definition isMove (p : Payload) : bool :=
  match p with MoveToThinking _ _ _ _ _ => true | _ => false end.

Definition isPending (p : Payload) : bool :=
  match p with Stream _ _ _ _ _ true _ => true | _ => false end.

(** A model whose profile has thinking support. *)
Definition thinkingModel (m : string) : bool :=
  match MODEL_TYPES m with Some cfg => supports_thinking cfg | None => false end.

(** The parser buffer of a stream is coherent with the log, belongs to the
    model of the stream, and is in the thinking phase only for a model with
    thinking support. *)
Definition streamInv (key : string) (st : State) : Prop :=
  exists b, tokenBuffers st !! key = Some b
            /\ model b = getModelNameFromId (streamModelId key st)
            /\ (isInThinking b = true -> thinkingModel (model b) = true)
            /\ coherent b (emitted st).

(** The test that ends the thinking phase, on the thinking text
    accumulated by a buffer of model [m]. *)
Definition thinkingEnds (cfg : ModelConfig) (m thinking : string) : bool :=
  if bool_decide (m = "gpt-oss-20b") || bool_decide (m = "3")
  then Js.includes thinking gptOssResponseSignal
  else Js.nonEmpty (thinking_end cfg) && Js.includes thinking (thinking_end cfg).

(** A [stream] event carries text that is not blank (every other event
    passes). *)
Definition streamsText (p : Payload) : Prop :=
  match p with
  | Stream text _ _ _ _ _ _ => nonBlank text = true
  | _ => True
  end.

(** The parser takes none of its tag branches at [token]: the model has no
    thinking support; or, with [full] the text received so far including
    the token, [full] does not hold the thinking start tag of a thinking
    that has not started, and either the stream is in its thinking phase
    and the thinking text with the token does not hold the end marker, or
    it is outside the thinking phase and [full] holds neither a response
    start tag that is still looked for nor, inside response tags, the
    response end tag.  In these cases the parser passes the token through
    or holds it as thinking text. *)
Definition guardedPhase (b : TokenBuffer) (token : string) : bool :=
  match MODEL_TYPES (model b) with
  | None => true
  | Some cfg =>
      let full := fullContent b +:+ token in
      negb (supports_thinking cfg)
      || (negb (Js.nonEmpty (thinking_start cfg) && Js.includes full (thinking_start cfg)
                && negb (hasThinkingStarted b))
          && (if isInThinking b
              then negb (thinkingEnds cfg (model b) (b_thinkingContent b +:+ token))
              else negb (Js.nonEmpty (response_start cfg) && negb (hasResponseStarted b)
                         && Js.includes full (response_start cfg))
                   && negb (isInResponseTags b && Js.nonEmpty (response_end cfg)
                            && Js.includes full (response_end cfg))))
  end.

(** ** Sample states and requests *)

(** A running socket chat used in the examples: user [u1], session [19],
    chat [1], started through socket [abc] on a fresh process. *)
Definition sampleData : ChatMessageData :=
  {| d_prompt := "hi"; d_message := EmptyString; d_session_id := VStr "19";
     d_chat_id := VStr "1"; d_instance_id := VStr "i1"; d_llm_model_id := VStr "7";
     d_userId := VStr "u1"; d_roomId := "chat_u1_19_1_i1" |}.

Definition sampleConsumer : Consumer :=
  {| consumerTag := consumerTagOf "abc" (VStr "19") (VStr "1") 1700000000000 |}.

Definition sampleStart : State * ChatCtx :=
  default (initialState,
           {| finalUserId := VUndef; finalSessionId := VUndef; finalChatId := VUndef;
              finalInstanceId := VUndef; roomId := EmptyString; finalPrompt := EmptyString;
              isStreamingComplete := true; messageCount := 0 |})
    (startSocketChat sampleData "abc" 1700000000000 (CancelReturns true)
       (Some sampleConsumer) initialState).

Definition sampleStop : StopRequest :=
  {| stop_user_id := VStr "u1"; stop_session_id := VStr "19"; stop_chat_id := VStr "1";
     stop_instance_id := VStr "i1" |}.

(** A chat of [u1] in session [19] whose consumer tag happens to contain
    [u1_19] (the socket id ends in [u1]): chat [1] has been answered once
    and is submitted again, so the transcript holds its two finished
    messages and the new, unfinished prompt. *)
Definition resubmittedChat : State :=
  let consumer := {| consumerTag := consumerTagOf "k9u1" (VStr "19") (VStr "1") 1700000000000 |} in
  match startSocketChat sampleData "k9u1" 1700000000000 (CancelReturns true)
          (Some consumer) initialState with
  | Some (st, ctx) =>
      let '(st1, _) :=
        deliver [(1700000000001, tokenMessage "Hello" (VStr "1"));
                 (1700000000002, doneMessage)] ctx st in
      match startSocketChat sampleData "k9u1" 1700000000100 (CancelReturns true)
              (Some consumer) st1 with
      | Some (st2, _) => st2
      | None => st1
      end
  | None => initialState
  end.

Definition answeredPrompt : Message :=
  {| role := user; content := "hi"; thinkingContent := None; hasThinking := false;
     chat_id := VStr "1"; session_id := VStr "19"; user_id := VStr "u1";
     timestamp := 1700000000000; message_type := "user_prompt"; isComplete := true;
     token_count := 0; total_tokens := None; completion_timestamp := None;
     temp_file_name := None |}.

Definition answer : Message :=
  {| role := assistant; content := "Hello"; thinkingContent := None; hasThinking := false;
     chat_id := VStr "1"; session_id := VStr "19"; user_id := VStr "u1";
     timestamp := 1700000000001; message_type := "complete_response"; isComplete := true;
     token_count := 1; total_tokens := Some 1; completion_timestamp := Some 1700000000002;
     temp_file_name := None |}.

(** A chat of [u1] in session [19] submitted through [POST /chat]: its
    prompt is in the transcript and no socket consumer is registered. *)
Definition httpChat : State :=
  fst (chatEndpointStart
         {| c_user_id := VStr "u1"; c_chat_id := VStr "1"; c_session_id := VStr "19";
            c_llm_model_id := VStr "1"; c_summarize_flag := VUndef;
            c_codebase_search_flag := VUndef; c_personalize_flag := VUndef;
            c_temp_file_flag := VUndef; c_first_chat_flag := VUndef;
            c_web_search_flag := VUndef; c_prompt := "hi"; c_temp_file_paths := [];
            c_temp_file_name := None |} 1700000000000 initialState).

Definition localSession (id : string) : Session :=
  {| s_session_id := VStr id; s_title := "Chat Session " +:+ id; s_user_id := VStr "u1";
     s_current_chat_id := VUndef; s_total_chats := 0; s_created_at := 1700000000000;
     s_updated_at := None; s_source := Some "local"; s_titleSource := None;
     s_titleUpdated := None; s_originalSource := None; s_originalTitle := None |}.

(** The catalog of scenario 4: user [u1] logged in with last Upstream id
    [14] and holds the ten sessions [5] ... [14]. *)
Definition tenSessions : State :=
  with_sessions
    (map localSession ["14"; "13"; "12"; "11"; "10"; "9"; "8"; "7"; "6"; "5"])
    {| globalSessionNames := []; globalChatHistory := {[ "u1_5" := [answeredPrompt] ]};
       sessionMessageCounts := ∅; sessionCacheTimestamp := ∅; globalModelList := [];
       modelListCacheTimestamp := None; foreignLastSessionIds := {[ "u1" := "14" ]};
       sessionCounters := ∅; currentUserId := VStr "u1"; thinkingContentBuffer := ∅;
       globalPersonalizedFiles := ∅; tokenBuffers := ∅; globalActiveConsumer := None;
       globalConsumerCount := 0; globalStreamingSessions := ∅; emitted := [] |}.



(** The callback context of chat [2] of [u1] in session [19]. *)
Definition secondChat : State * ChatCtx :=
  default sampleStart
    (startSocketChat
       {| d_prompt := "and then?"; d_message := EmptyString; d_session_id := VStr "19";
          d_chat_id := VStr "2"; d_instance_id := VStr "i2"; d_llm_model_id := VStr "1";
          d_userId := VStr "u1"; d_roomId := "chat_u1_19_2_i2" |}
       "abc" 1700000002000 (CancelReturns true) (Some sampleConsumer) initialState).

(** The local catalog and the session-index payload of scenario 6. *)
Definition beforeSync : State :=
  with_sessions
    [ localSession "15";
      {| s_session_id := VStr "14"; s_title := "Bug triage"; s_user_id := VStr "u1";
         s_current_chat_id := VNull; s_total_chats := 0; s_created_at := 1690000000000;
         s_updated_at := Some 1690000000000; s_source := Some "rabbitmq";
         s_titleSource := Some "rabbitmq"; s_titleUpdated := None;
         s_originalSource := None; s_originalTitle := None |} ]
    initialState.

Definition syncPayload : IndexPayload :=
  DirectArray [(VStr "15", "Debugging crash"); (VStr "14", "Bug triage"); (VStr "13", "...")].

(** The sample chat (model [7], tags [<think>] and [</think>]) after the
    Bus has delivered the given token texts for it. *)
Abbreviation afterTokens texts :=
  (fst (deliver (map (fun t => (1700000000001, tokenMessage t (VStr "1"))) texts)
          (snd sampleStart) (fst sampleStart))).

(** Chat [3] of [u1] in session [19], with the model [2] whose profile has
    thinking tags and response tags, after the Bus has delivered the given
    token texts for it. *)
Definition taggedChat : State * ChatCtx :=
  default sampleStart
    (startSocketChat
       {| d_prompt := "why?"; d_message := EmptyString; d_session_id := VStr "19";
          d_chat_id := VStr "3"; d_instance_id := VStr "i3"; d_llm_model_id := VStr "2";
          d_userId := VStr "u1"; d_roomId := "chat_u1_19_3_i3" |}
       "abc" 1700000004000 (CancelReturns true) (Some sampleConsumer) initialState).

Abbreviation afterTaggedTokens texts :=
  (fst (deliver (map (fun t => (1700000004001, tokenMessage t (VStr "3"))) texts)
          (snd taggedChat) (fst taggedChat))).


Definition sampleKey : string := "u1_19".

(** A content fragment of chat [1], as the wire contract has it. *)
Definition lateContent : BusMessage :=
  BusObj {| bm_type := None; bm_status := None; bm_token := None; bm_data := None;
            bm_content := Some "late"; bm_response := None; bm_message := None;
            bm_chat_id := VStr "1" |}.

(** ** Session helpers of [chat.js] and the bookkeeping of the login *)

Definition with_foreignLastSessionIds (v : gmap string string) (st : State) : State :=
  {| globalSessionNames := globalSessionNames st; globalChatHistory := globalChatHistory st;
     sessionMessageCounts := sessionMessageCounts st;
     sessionCacheTimestamp := sessionCacheTimestamp st;
     globalModelList := globalModelList st;
     modelListCacheTimestamp := modelListCacheTimestamp st;
     foreignLastSessionIds := v;
     sessionCounters := sessionCounters st; currentUserId := currentUserId st;
     thinkingContentBuffer := thinkingContentBuffer st;
     globalPersonalizedFiles := globalPersonalizedFiles st;
     tokenBuffers := tokenBuffers st; globalActiveConsumer := globalActiveConsumer st;
     globalConsumerCount := globalConsumerCount st;
     globalStreamingSessions := globalStreamingSessions st; emitted := emitted st |}.

Definition with_currentUserId (v : jsval) (st : State) : State :=
  {| globalSessionNames := globalSessionNames st; globalChatHistory := globalChatHistory st;
     sessionMessageCounts := sessionMessageCounts st;
     sessionCacheTimestamp := sessionCacheTimestamp st;
     globalModelList := globalModelList st;
     modelListCacheTimestamp := modelListCacheTimestamp st;
     foreignLastSessionIds := foreignLastSessionIds st;
     sessionCounters := sessionCounters st; currentUserId := v;
     thinkingContentBuffer := thinkingContentBuffer st;
     globalPersonalizedFiles := globalPersonalizedFiles st;
     tokenBuffers := tokenBuffers st; globalActiveConsumer := globalActiveConsumer st;
     globalConsumerCount := globalConsumerCount st;
     globalStreamingSessions := globalStreamingSessions st; emitted := emitted st |}.

Definition with_personalizedFiles (v : gmap string (list string)) (st : State) : State :=
  {| globalSessionNames := globalSessionNames st; globalChatHistory := globalChatHistory st;
     sessionMessageCounts := sessionMessageCounts st;
     sessionCacheTimestamp := sessionCacheTimestamp st;
     globalModelList := globalModelList st;
     modelListCacheTimestamp := modelListCacheTimestamp st;
     foreignLastSessionIds := foreignLastSessionIds st;
     sessionCounters := sessionCounters st; currentUserId := currentUserId st;
     thinkingContentBuffer := thinkingContentBuffer st;
     globalPersonalizedFiles := v;
     tokenBuffers := tokenBuffers st; globalActiveConsumer := globalActiveConsumer st;
     globalConsumerCount := globalConsumerCount st;
     globalStreamingSessions := globalStreamingSessions st; emitted := emitted st |}.

Definition with_cacheTimestamp (v : gmap string Z) (st : State) : State :=
  {| globalSessionNames := globalSessionNames st; globalChatHistory := globalChatHistory st;
     sessionMessageCounts := sessionMessageCounts st;
     sessionCacheTimestamp := v;
     globalModelList := globalModelList st;
     modelListCacheTimestamp := modelListCacheTimestamp st;
     foreignLastSessionIds := foreignLastSessionIds st;
     sessionCounters := sessionCounters st; currentUserId := currentUserId st;
     thinkingContentBuffer := thinkingContentBuffer st;
     globalPersonalizedFiles := globalPersonalizedFiles st;
     tokenBuffers := tokenBuffers st; globalActiveConsumer := globalActiveConsumer st;
     globalConsumerCount := globalConsumerCount st;
     globalStreamingSessions := globalStreamingSessions st; emitted := emitted st |}.

(** [setForeignLastSessionId(userId, lastSessionId)]: the id is stored as
    [String(lastSessionId) || "0"] and the counter of the user is dropped. *)
Definition setForeignLastSessionId (userId lastSessionId : jsval) (st : State) : State :=
  let key := toStr userId in
  let stored :=
    if Js.nonEmpty (toStr lastSessionId) then toStr lastSessionId else "0" in
  let st1 := with_foreignLastSessionIds (<[key := stored]> (foreignLastSessionIds st)) st in
  with_sessionCounters (delete key (sessionCounters st1)) st1.

Definition setCurrentUserId (userId : jsval) (st : State) : State :=
  with_currentUserId userId st.

Definition getCurrentUserId (st : State) : jsval := currentUserId st.

(** [setPersonalizedFiles(userId, filePaths)]; [filePaths] is [None] when
    the value passed is not an array.  The table is a plain object: the
    finite map holds its own properties (see [plainKey] for the keys that
    reach [Object.prototype] in the code). *)
Definition setPersonalizedFiles (userId : jsval) (filePaths : option (list string))
    (st : State) : State :=
  if negb (truthy userId) then st
  else
    with_personalizedFiles
      (<[toStr userId := default [] filePaths]> (globalPersonalizedFiles st)) st.

(** [getPersonalizedFiles(userId)], for a key that names no member of
    [Object.prototype]. *)
Definition getPersonalizedFiles (userId : jsval) (st : State) : list string :=
  let finalUserId := orElse userId (getCurrentUserId st) in
  default [] (globalPersonalizedFiles st !! toStr finalUserId).

(** [addPersonalizedFile(userId, filePath)], for a key that names no member
    of [Object.prototype] (on an inherited member the call throws). *)
Definition addPersonalizedFile (userId : jsval) (filePath : string) (st : State) : State :=
  let finalUserId := toStr (orElse userId (getCurrentUserId st)) in
  match globalPersonalizedFiles st !! finalUserId with
  | None =>
      with_personalizedFiles (<[finalUserId := [filePath]]> (globalPersonalizedFiles st)) st
  | Some files =>
      if bool_decide (filePath ∈ files) then st
      else
        with_personalizedFiles
          (<[finalUserId := files ++ [filePath]]> (globalPersonalizedFiles st)) st
  end.

(** [removePersonalizedFile(userId, filePath)], for a key that names no
    member of [Object.prototype] (on an inherited member the call
    throws). *)
Definition removePersonalizedFile (userId : jsval) (filePath : string) (st : State) : State :=
  let finalUserId := toStr (orElse userId (getCurrentUserId st)) in
  match globalPersonalizedFiles st !! finalUserId with
  | Some files =>
      with_personalizedFiles
        (<[finalUserId := List.filter (fun f => negb (bool_decide (f = filePath))) files]>
           (globalPersonalizedFiles st)) st
  | None => st
  end.

(** What the login handler of [auth.js] adds to Upstream's answer. *)
Record LoginInfo := {
  li_session_count : jsval;
  li_last_session_id : string;
  li_next_session_id : string;
  li_local_session_count : Z
}.

(** The bookkeeping of [router.post('/login', ...)] once Upstream has
    accepted the login and the share is mounted: [userId], [session_id] and
    [personalized_files] are the fields of Upstream's answer
    ([personalized_files] is [None] when it is missing or not an array).
    The next id is computed on integers, which is what the code computes
    on doubles for a last id below [2^53]. *)
Definition loginBookkeeping (userId session_id : jsval)
    (personalized_files : option (list string)) (st : State) : State * LoginInfo :=
  let st1 := setCurrentUserId userId st in
  let st2 := setPersonalizedFiles userId (Some (default [] personalized_files)) st1 in
  let foreignSessionId := orElse session_id (VNum 0) in
  let foreignLastSessionId := toStr foreignSessionId in
  let st3 := setForeignLastSessionId userId (VStr foreignLastSessionId) st2 in
  let localSessionCount :=
    if truthy userId
    then Z.of_nat (length (List.filter (ofUser userId) (globalSessionNames st3)))
    else 0 in
  let nextLocalSessionId := (fun n => n + 1) <$> Js.parseInt foreignLastSessionId in
  (st3,
   {| li_session_count := foreignSessionId;
      li_last_session_id := foreignLastSessionId;
      li_next_session_id :=
        match nextLocalSessionId with Some n => pretty n | None => "NaN" end;
      li_local_session_count := localSessionCount |}).

(** The session ids minted by [n] successive calls of
    [getNextSessionId(userId)], oldest first, with the state they leave. *)
Fixpoint mintSessionIds (n : nat) (userId : jsval) (st : State) : State * list string :=
  match n with
  | O => (st, [])
  | S n' =>
      let '(st1, id) := getNextSessionId userId st in
      let '(st2, ids) := mintSessionIds n' userId st1 in
      (st2, id :: ids)
  end.

(** ** [DELETE /deletesession/:sessionId] and [clearUserSessionData] *)

(** What the call to Upstream's [/delete_session] gave: the body of an ok
    answer, the text and status of an error answer, or the message of the
    error thrown by the call. *)
Inductive ForeignDelete :=
| ForeignDeleted (data : string)
| ForeignDeleteError (errorText : string) (status : Z)
| ForeignDeleteThrew (message : string).

Inductive DeleteResponse :=
| DeleteRefused (code : Z) (error : string)
| DeleteDone (session_id : string) (user_id : jsval)
    (sessions_removed messages_removed : Z) (message_count_cleared : bool)
    (foreign_server_result : ForeignDelete).

(** The test [session.user_id === user_id && session.session_id === sessionId]
    of the handler. *)
Definition sameSession (u : jsval) (sessionId : string) (s : Session) : bool :=
  strictEq (s_user_id s) u && strictEq (s_session_id s) (VStr sessionId).

(** [router.delete('/deletesession/:sessionId', ...)]; the path parameter is
    a string. *)
Definition deleteSessionEndpoint (sessionId : string) (foreign : ForeignDelete) (st : State)
    : State * DeleteResponse :=
  let user_id := getCurrentUserId st in
  if negb (truthy user_id)
  then (st, DeleteRefused 401 "User not authenticated. Please login first.")
  else if negb (Js.nonEmpty sessionId) then (st, DeleteRefused 400 "Session ID is required")
  else
    let same := sameSession user_id sessionId in
    match List.find same (globalSessionNames st) with
    | None => (st, DeleteRefused 404 "Session not found")
    | Some _ =>
        let beforeCount := Z.of_nat (length (globalSessionNames st)) in
        let st1 :=
          with_sessions (List.filter (fun s => negb (same s)) (globalSessionNames st)) st in
        let sessionsRemoved := beforeCount - Z.of_nat (length (globalSessionNames st1)) in
        let historyKey := sessionKeyOf user_id (VStr sessionId) in
        let messagesRemoved :=
          match globalChatHistory st1 !! historyKey with
          | Some msgs => Z.of_nat (length msgs)
          | None => 0
          end in
        let st2 := with_history (delete historyKey (globalChatHistory st1)) st1 in
        let messageCountRemoved := bool_decide (is_Some (sessionMessageCounts st2 !! historyKey)) in
        let st3 := with_counts (delete historyKey (sessionMessageCounts st2)) st2 in
        (st3,
         DeleteDone sessionId user_id sessionsRemoved messagesRemoved messageCountRemoved
           foreign)
    end.

Record ClearResult := {
  cleared_sessions : Z;
  cleared_chatHistories : Z;
  cleared_messageCounts : Z
}.

(** The keys of a table that start with [prefix] are dropped. *)
Definition dropPrefixed {V} (prefix : string) (m : gmap string V) : gmap string V :=
  filter (fun kv => Js.startsWith kv.1 prefix = false) m.

Definition countPrefixed {V} (prefix : string) (m : gmap string V) : Z :=
  Z.of_nat (size (filter (fun kv => Js.startsWith kv.1 prefix = true) m)).

(** [clearUserSessionData(user_id)] *)
Definition clearUserSessionData (user_id : jsval) (st : State) : State * ClearResult :=
  let beforeCount := Z.of_nat (length (globalSessionNames st)) in
  let st1 :=
    with_sessions
      (List.filter (fun s => negb (strictEq (s_user_id s) user_id)) (globalSessionNames st))
      st in
  let removedCount := beforeCount - Z.of_nat (length (globalSessionNames st1)) in
  let prefix := toStr user_id +:+ "_" in
  let userChatKeys := countPrefixed prefix (globalChatHistory st1) in
  let st2 := with_history (dropPrefixed prefix (globalChatHistory st1)) st1 in
  let userSessionKeys := countPrefixed prefix (sessionMessageCounts st2) in
  let st3 := with_counts (dropPrefixed prefix (sessionMessageCounts st2)) st2 in
  let st4 :=
    with_foreignLastSessionIds (delete (toStr user_id) (foreignLastSessionIds st3)) st3 in
  let st5 := with_sessionCounters (delete (toStr user_id) (sessionCounters st4)) st4 in
  let st6 :=
    if strictEq (currentUserId st5) user_id then with_currentUserId VNull st5 else st5 in
  (st6,
   {| cleared_sessions := removedCount; cleared_chatHistories := userChatKeys;
      cleared_messageCounts := userSessionKeys |}).

(** ** The cleanup of one socket chat *)

(** [cleanupConsumer()] of the ['send-chat-message'] handler, with the
    consumer the chat holds ([rabbitConsumer]); whether cancelling it
    succeeds or throws makes no difference to what follows. *)
Definition cleanupConsumer (rabbitConsumer : option Consumer) (ctx : ChatCtx) (st : State)
    : State * ChatCtx * option Consumer :=
  match rabbitConsumer with
  | Some _ =>
      if isStreamingComplete ctx then (st, ctx, rabbitConsumer)
      else
        let st1 := with_activeConsumer None st in
        let sessionKey := sessionKeyOf (finalUserId ctx) (finalSessionId ctx) in
        let st2 :=
          with_streamingSessions (delete sessionKey (globalStreamingSessions st1)) st1 in
        (cleanupTokenBuffer sessionKey st2, with_progress true (messageCount ctx) ctx, None)
  | None => (st, ctx, None)
  end.

(** The callback of the 60 s safety timer armed after each streamed text. *)
Definition onSafetyTimeout (rabbitConsumer : option Consumer) (now : Z) (ctx : ChatCtx)
    (st : State) : State * ChatCtx * option Consumer :=
  if isStreamingComplete ctx then (st, ctx, rabbitConsumer)
  else
    let ctx1 := with_progress true (messageCount ctx) ctx in
    let st1 :=
      emit (roomId ctx) now
        (Complete "Stream completed (safety timeout)" VUndef VUndef (finalInstanceId ctx)
           None None) st in
    cleanupConsumer rabbitConsumer ctx1 st1.

(** ** Predicates of the further properties *)

(** Every character of [s] is a decimal digit. *)
Fixpoint decimal (s : string) : bool :=
  match s with
  | EmptyString => true
  | String c s' => bool_decide (is_Some (Js.digitOf 10 c)) && decimal s'
  end.

(** The two prefix tests of [parseInt]: the sign, and the [0x] prefix. *)
Definition signSplit (t : string) : Z * string :=
  match t with
  | String "-" r => (-1, r)
  | String "+" r => (1, r)
  | _ => (1, t)
  end.

Definition radixSplit (body : string) : Z * string :=
  match body with
  | String "0" (String "x" r) => (16, r)
  | String "0" (String "X" r) => (16, r)
  | _ => (10, body)
  end.

(** A message the callback of the chat takes as a piece of the answer: it
    passes the chat-id filter, is no completion signal and yields a text. *)
Definition carriesText (ctx : ChatCtx) (message : BusMessage) : bool :=
  negb (truthy (chatIdOf message)
        && negb (bool_decide (toStr (chatIdOf message) = toStr (finalChatId ctx))))
  && negb (isCompletionMessage message)
  && Js.nonEmpty (responseContentOf message).

(** A completion signal that passes the chat-id filter of the chat. *)
Definition endsChat (ctx : ChatCtx) (message : BusMessage) : bool :=
  negb (truthy (chatIdOf message)
        && negb (bool_decide (toStr (chatIdOf message) = toStr (finalChatId ctx))))
  && isCompletionMessage message.

(** The texts of a sequence of deliveries. *)
Definition textsOf (messages : list (Z * BusMessage)) : list string :=
  map (fun p => responseContentOf p.2) messages.

(** The last message of a transcript is not an assistant message that is
    still being written. *)
Definition settled (msgs : list Message) : bool :=
  match last msgs with
  | Some m => negb (bool_decide (role m = assistant) && negb (isComplete m))
  | None => true
  end.

(** The transcript under [key] is [old] followed by one assistant message
    of chat [chat] that is still being written, with content [acc] made of
    [n] pieces. *)
Definition writing (key : string) (chat : jsval) (old : list Message) (acc : string) (n : Z)
    (st : State) : Prop :=
  exists m, globalChatHistory st !! key = Some (old ++ [m])
            /\ role m = assistant /\ isComplete m = false /\ content m = acc
            /\ token_count m = n /\ chat_id m = chat.

(** The names of the members of [Object.prototype].  The tables that the
    code keeps in plain objects ([foreignLastSessionIds], [sessionCounters],
    [globalPersonalizedFiles]) are modelled by finite maps of their own
    properties; under a key that names one of these members the code reads
    or replaces the inherited member instead, so the properties of these
    tables are stated for the other keys. *)
Definition objectPrototypeKeys : list string :=
  [ "constructor"; "__defineGetter__"; "__defineSetter__"; "hasOwnProperty";
    "__lookupGetter__"; "__lookupSetter__"; "isPrototypeOf"; "propertyIsEnumerable";
    "toString"; "valueOf"; "__proto__"; "toLocaleString" ].

Definition plainKey (k : string) : bool := negb (bool_decide (k ∈ objectPrototypeKeys)).

(** The integers that a JavaScript number holds exactly together with
    their neighbours, and that [String] prints digit by digit: those below
    [2^53] in absolute value.  Ids and counters are modelled by integers,
    so the properties of their arithmetic are stated within this range. *)
Definition safeInteger (n : Z) : bool := Z.abs n <? 2 ^ 53.

(** The two events a cleanup of [POST /stop] sends to the room of the chat. *)
Definition stopEvents (userId : jsval) (req : StopRequest) (now : Z)
    (text ctype reason : string) : list Emission :=
  [emission (stopRoom userId req) now
     (Complete text (stop_chat_id req) (stop_session_id req) (stop_instance_id req)
        (Some ctype) (Some 0));
   emission (stopRoom userId req) now
     (CleanupGeneration userId (stop_session_id req) (stop_chat_id req)
        (stop_instance_id req) reason)].

(** ** Further sample states *)

(** A catalog at the limit of the window: [u1] holds the 25 sessions
    [5] ... [29], the transcript of session [5] among them. *)
Definition fullWindow : State :=
  with_sessions (map (fun i => localSession (pretty (Z.of_nat i))) (rev (seq 5 25))) tenSessions.

(** Two pieces of an answer to chat [1], as the Bus delivers them. *)
Definition twoPieces : list (Z * BusMessage) :=
  [(1700000000001, tokenMessage "Hel" (VStr "1")); (1700000000002, tokenMessage "lo" (VStr "1"))].

(** * Properties *)

(** ** Strings *)

Lemma app_nil_l (t : string) : EmptyString +:+ t = t.
Proof. reflexivity. Qed.

Lemma app_cons_l (c : ascii) (s t : string) : String c s +:+ t = String c (s +:+ t).
Proof. reflexivity. Qed.

Ltac sapp := rewrite ?app_cons_l, ?app_nil_l in *.

Lemma app_empty_r (s : string) : s +:+ EmptyString = s.
Proof. induction s as [|c s IH]; sapp; [reflexivity | by rewrite IH]. Qed.

Lemma app_assoc_s (a b c : string) : (a +:+ b) +:+ c = a +:+ (b +:+ c).
Proof. induction a as [|x a IH]; sapp; [reflexivity | by rewrite IH]. Qed.

Lemma occursIn_refl (s : string) : occursIn s s.
Proof. exists EmptyString, EmptyString. sapp. by rewrite app_empty_r. Qed.

Lemma occursIn_trans (a b c : string) : occursIn a b -> occursIn b c -> occursIn a c.
Proof.
  intros (p1 & q1 & ->) (p2 & q2 & ->).
  exists (p2 +:+ p1), (q1 +:+ q2). by rewrite !app_assoc_s.
Qed.

Lemma occursIn_app_r (p s t : string) : occursIn p s -> occursIn p (s +:+ t).
Proof.
  intros (pre & post & ->). exists pre, (post +:+ t). by rewrite !app_assoc_s.
Qed.

Lemma occursIn_app_l (p s t : string) : occursIn p s -> occursIn p (t +:+ s).
Proof.
  intros (pre & post & ->). exists (t +:+ pre), post. by rewrite !app_assoc_s.
Qed.

Lemma startsWith_spec (s p : string) :
  Js.startsWith s p = true <-> exists post, s = p +:+ post.
Proof.
  revert s. induction p as [|a p IH]; intros s.
  - split; [intros _; by exists s | by destruct s].
  - destruct s as [|b s]; simpl.
    + split; [done | intros (post & H); discriminate].
    + case_decide as Hab.
      * subst b. rewrite IH. split; intros (post & H); exists post; sapp; congruence.
      * split; [done | intros (post & H); sapp; congruence].
Qed.

Lemma find_unfold (s p : string) (i : nat) :
  Js.find s p i =
  if Js.startsWith s p then Some i
  else match s with
       | EmptyString => None
       | String _ s' => Js.find s' p (S i)
       end.
Proof. by destruct s. Qed.

Lemma find_occurs (s p : string) (i k : nat) :
  Js.find s p i = Some k -> occursIn p s.
Proof.
  revert i. induction s as [|c s IH]; intros i; rewrite find_unfold.
  - destruct (Js.startsWith EmptyString p) eqn:E; [|done].
    intros _. apply startsWith_spec in E as (post & E).
    exists EmptyString, post. by sapp.
  - destruct (Js.startsWith (String c s) p) eqn:E.
    + intros _. apply startsWith_spec in E as (post & E).
      exists EmptyString, post. by sapp.
    + intros H. apply IH in H as (pre & post & ->).
      exists (String c pre), post. by sapp.
Qed.

Lemma occurs_find (s p pre post : string) (i : nat) :
  s = pre +:+ p +:+ post -> exists k, Js.find s p i = Some k.
Proof.
  revert s i. induction pre as [|c pre IH]; intros s i ->; sapp.
  - assert (Js.startsWith (p +:+ post) p = true) as E
      by (apply startsWith_spec; by exists post).
    rewrite find_unfold, E. by eexists.
  - rewrite find_unfold. destruct (Js.startsWith _ p); [by eexists|]. by apply IH.
Qed.

Lemma includes_spec (s p : string) : Js.includes s p = true <-> occursIn p s.
Proof.
  unfold Js.includes. split.
  - destruct (Js.find s p 0) eqn:E; [|done]. intros _. by eapply find_occurs.
  - intros (pre & post & H). by destruct (occurs_find s p pre post 0 H) as [k ->].
Qed.

Lemma take_drop_s (n : nat) (s : string) : s = Js.take n s +:+ Js.drop n s.
Proof.
  revert s. induction n as [|n IH]; intros [|c s]; simpl; sapp; try reflexivity.
  by rewrite <- IH.
Qed.

Lemma drop_suffix (n : nat) (s : string) : exists pre, s = pre +:+ Js.drop n s.
Proof. exists (Js.take n s). apply take_drop_s. Qed.

Lemma substringFrom_suffix (s : string) (a : Z) : exists pre, s = pre +:+ Js.substringFrom s a.
Proof. apply drop_suffix. Qed.

Lemma substring_occurs (s : string) (a b : Z) : occursIn (Js.substring s a b) s.
Proof.
  unfold Js.substring.
  set (lo := Nat.min _ _). set (n := (_ - _)%nat).
  exists (Js.take lo s), (Js.drop n (Js.drop lo s)).
  rewrite <- take_drop_s. apply take_drop_s.
Qed.

Lemma trimStart_suffix (s : string) : exists pre, s = pre +:+ Js.trimStart s.
Proof.
  induction s as [|c s (pre & IH)]; simpl.
  - by exists EmptyString.
  - destruct (Js.isWhiteSpace c); [|by exists EmptyString].
    exists (String c pre). sapp. by rewrite <- IH.
Qed.

Lemma trimEnd_prefix (s : string) : exists post, s = Js.trimEnd s +:+ post.
Proof.
  induction s as [|c s (post & IH)]; simpl.
  - by exists EmptyString.
  - destruct (Js.trimEnd s) as [|d r] eqn:E.
    + destruct (Js.isWhiteSpace c).
      * by exists (String c s).
      * exists s. done.
    + exists post. sapp. by rewrite <- IH.
Qed.

Lemma trim_occurs (s : string) : occursIn (Js.trim s) s.
Proof.
  unfold Js.trim. destruct (trimStart_suffix s) as (pre & H1).
  destruct (trimEnd_prefix (Js.trimStart s)) as (post & H2).
  exists pre, post. by rewrite <- H2.
Qed.

(** ** Stop control *)

(** When the call to Upstream is rejected (network failure, or the abort
    after 100 s) the handler does clean up locally: it runs the consumer
    matcher, emits [complete] with [completion_type = timeout_stopped] and
    the [cleanup-generation] hint to the room of the chat, and answers
    success with [cleanup_completed = true]. *)
Lemma stop_rejected_fetch_cleans_up (req : StopRequest) (cancel : CancelOutcome) (now : Z)
    (st : State) :
  truthy (stop_session_id req) = true ->
  let userId := orElse (stop_user_id req) (currentUserId st) in
  let '(st', resp) := stopEndpoint req ReplyThrows cancel now st in
  success resp = true /\ cleanup_completed resp = true
  /\ emitted st' =
     emitted st ++
     [emission (stopRoom userId req) now
        (Complete "Generation stopped (server timeout)" (stop_chat_id req)
           (stop_session_id req) (stop_instance_id req) (Some "timeout_stopped") (Some 0));
      emission (stopRoom userId req) now
        (CleanupGeneration userId (stop_session_id req) (stop_chat_id req)
           (stop_instance_id req) "stop_timeout")].
Proof.
  intros Hs userId. unfold stopEndpoint. rewrite Hs. fold userId.
  split; [reflexivity|]. split; [reflexivity|].
  unfold stopCleanup, emit. cbn [emitted with_emitted].
  rewrite <- app_assoc.
  assert (emitted (fst (forceCleanupConsumerForSession userId (stop_session_id req)
                          (stop_chat_id req) cancel st)) = emitted st) as ->; [|reflexivity].
  unfold forceCleanupConsumerForSession.
  destruct (globalActiveConsumer st); [|reflexivity].
  destruct (_ || _); [|reflexivity]. destruct cancel; [|reflexivity].
  unfold cleanupTokenBuffer. cbn.
  destruct (tokenBuffers _ !! _);
    destruct (truthy (stop_chat_id req)); try reflexivity;
    unfold removeIncompleteChatFromHistory; cbn;
    destruct (globalChatHistory st !! _); reflexivity.
Qed.

(** C1. The claim asks for local cleanup whenever the call to Upstream's
    [/stop] errors or times out. When Upstream answers with an error
    status the handler does nothing locally: whatever the request and the
    state, the state is left as it was and the endpoint answers 500 with
    [success = false]. In particular, for the running chat of [u1] stopped
    while Upstream answers 500, the consumer stays registered, the
    unfinished prompt stays in the transcript and nothing is emitted. *)
Theorem C1_stop_error_status_no_cleanup :
  (forall (req : StopRequest) (code : Z) (cancel : CancelOutcome) (now : Z) (st : State),
     stopEndpoint req (ReplyNotOk code) cancel now st = (st, stopFailure code))
  /\ (let '(st, resp) :=
        stopEndpoint sampleStop (ReplyNotOk 500) (CancelReturns true) 1700000000500
          (fst sampleStart) in
      globalActiveConsumer st = Some sampleConsumer
      /\ emitted st = []
      /\ (exists m, globalChatHistory st !! "u1_19" = Some [m]
                    /\ chat_id m = VStr "1" /\ isComplete m = false)
      /\ success resp = false /\ cleanup_completed resp = false /\ http_code resp = 500).
Proof.
  split; [reflexivity|]. vm_compute. repeat split. eexists. repeat split.
Qed.

(** The matcher cancels only a consumer whose tag contains
    [`${userId}_${sessionId}`]. *)
Lemma forceCleanup_true_tag (userId sessionId chatId : jsval) (cancel : CancelOutcome)
    (st st' : State) :
  forceCleanupConsumerForSession userId sessionId chatId cancel st = (st', true) ->
  exists c, globalActiveConsumer st = Some c
            /\ Js.includes (consumerTag c) (toStr userId +:+ "_" +:+ toStr sessionId) = true.
Proof.
  unfold forceCleanupConsumerForSession.
  destruct (globalActiveConsumer st) as [c|]; [|intros [=]].
  destruct (Js.includes (consumerTag c) (toStr userId +:+ "_" +:+ toStr sessionId)) eqn:E1.
  - eauto.
  - destruct (truthy chatId); simpl; [|intros [=]].
    destruct (Js.includes (consumerTag c)
                (toStr userId +:+ "_" +:+ toStr sessionId +:+ "_" +:+ toStr chatId)) eqn:E2;
      [|intros [=]].
    intros _. apply includes_spec in E2.
    assert (occursIn (toStr userId +:+ "_" +:+ toStr sessionId) (consumerTag c)) as H.
    { eapply occursIn_trans; [|exact E2].
      exists EmptyString, ("_" +:+ toStr chatId). sapp. by rewrite !app_assoc_s. }
    apply includes_spec in H. congruence.
Qed.

Lemma forceCleanup_unmatched (userId sessionId chatId : jsval) (cancel : CancelOutcome)
    (st : State) (c : Consumer) :
  globalActiveConsumer st = Some c ->
  Js.includes (consumerTag c) (toStr userId +:+ "_" +:+ toStr sessionId) = false ->
  forceCleanupConsumerForSession userId sessionId chatId cancel st = (st, false).
Proof.
  intros Hc Hno.
  destruct (forceCleanupConsumerForSession userId sessionId chatId cancel st) as [st' [|]]
    eqn:E.
  - apply forceCleanup_true_tag in E as (c' & Hc' & Hyes). congruence.
  - revert E. unfold forceCleanupConsumerForSession. rewrite Hc.
    destruct (_ || _); [|by intros [= <-]]. destruct cancel; [intros [=] | by intros [= <-]].
Qed.

(** C2. A live consumer whose tag has the documented form
    [socket_{conn}_{sessionId}_{chatId}_{epoch}] is not found by the stop
    matcher: the tag carries no user id, while the matcher looks for
    [`${userId}_${sessionId}`] in it. For the chat of [u1] in session [19]
    started through socket [abc] the matcher returns [false] and leaves the
    consumer in place. *)
Theorem C2_matcher_misses_documented_tag :
  consumerTag sampleConsumer = "socket_abc_19_1_1700000000000"
  /\ globalActiveConsumer (fst sampleStart) = Some sampleConsumer
  /\ forceCleanupConsumerForSession (VStr "u1") (VStr "19") (VStr "1") (CancelReturns true)
       (fst sampleStart) = (fst sampleStart, false).
Proof. vm_compute. repeat split. Qed.

(** The scrub leaves no unfinished message of the chat. *)
Lemma removeIncomplete_clean (userId sessionId chatId : jsval) (st : State)
    (msgs : list Message) (m : Message) :
  globalChatHistory (removeIncompleteChatFromHistory userId sessionId chatId st)
    !! sessionKeyOf userId sessionId = Some msgs ->
  In m msgs -> chat_id m = chatId -> isComplete m = true.
Proof.
  unfold removeIncompleteChatFromHistory.
  destruct (globalChatHistory st !! sessionKeyOf userId sessionId) as [old|] eqn:E.
  - simpl. rewrite lookup_insert_eq. intros [= <-] Hin Hc.
    apply filter_In in Hin as [_ Hkeep]. unfold shouldRemove, strictEq in Hkeep.
    rewrite bool_decide_eq_true_2 in Hkeep by done.
    destruct (isComplete m); [done | discriminate].
  - congruence.
Qed.

(** The transcript after a stop that goes through one cleanup is the one
    the matcher leaves. *)
Lemma stopEndpoint_history (req : StopRequest) (reply : UpstreamReply) (cancel : CancelOutcome)
    (now : Z) (st : State) :
  truthy (stop_session_id req) = true ->
  (forall code, reply <> ReplyNotOk code) ->
  (forall retry, reply <> ReplyOkNull retry) ->
  globalChatHistory (fst (stopEndpoint req reply cancel now st)) =
  globalChatHistory
    (fst (forceCleanupConsumerForSession (orElse (stop_user_id req) (currentUserId st))
            (stop_session_id req) (stop_chat_id req) cancel st)).
Proof.
  intros Hs Hr Hn. unfold stopEndpoint. rewrite Hs.
  destruct reply as [status message|retry| |code|]; try reflexivity.
  - by destruct (Hn retry).
  - by destruct (Hr code).
Qed.

(** The scrub does run when the matcher finds the live consumer and
    cancels it for a stop that names a chat id: the transcript of the
    chat's (userId, sessionId) then holds no message of that chat that is
    not complete. *)
Lemma stop_scrubs_when_consumer_cancelled :
  forall (req : StopRequest) (reply : UpstreamReply) (cancel : CancelOutcome) (now : Z)
         (st : State) (msgs : list Message) (m : Message),
    let userId := orElse (stop_user_id req) (currentUserId st) in
    truthy (stop_session_id req) = true ->
    truthy (stop_chat_id req) = true ->
    (forall code, reply <> ReplyNotOk code) ->
    (forall retry, reply <> ReplyOkNull retry) ->
    snd (forceCleanupConsumerForSession userId (stop_session_id req) (stop_chat_id req)
           cancel st) = true ->
    globalChatHistory (fst (stopEndpoint req reply cancel now st))
      !! sessionKeyOf userId (stop_session_id req) = Some msgs ->
    In m msgs -> chat_id m = stop_chat_id req -> isComplete m = true.
Proof.
  intros req reply cancel now st msgs m userId Hs Hc Hr Hn Hok.
  rewrite stopEndpoint_history by done. fold userId.
  revert Hok. unfold forceCleanupConsumerForSession.
  destruct (globalActiveConsumer st) as [c|]; [|intros [=]].
  destruct (_ || _); [|intros [=]].
  destruct cancel; [|intros [=]]. intros _. rewrite Hc. simpl.
  unfold cleanupTokenBuffer. simpl.
  set (st1 := removeIncompleteChatFromHistory _ _ _ _).
  assert (forall st2, globalChatHistory st2 = globalChatHistory st1 ->
            globalChatHistory st2 !! sessionKeyOf userId (stop_session_id req) = Some msgs ->
            In m msgs -> chat_id m = stop_chat_id req -> isComplete m = true) as Hgen.
  { intros st2 ->. apply removeIncomplete_clean. }
  destruct (tokenBuffers _ !! _); apply Hgen; reflexivity.
Qed.

(** The stop of the resubmitted chat, whose consumer tag happens to
    contain [u1_19]: the finished exchange stays, the unfinished prompt is
    gone. *)
Lemma stop_scrubs_resubmitted_chat :
  length (default [] (globalChatHistory resubmittedChat !! "u1_19")) = 3%nat
  /\ snd (forceCleanupConsumerForSession (VStr "u1") (VStr "19") (VStr "1")
            (CancelReturns true) resubmittedChat) = true
  /\ globalChatHistory
       (fst (stopEndpoint sampleStop ReplyThrows (CancelReturns true) 1700000000500
               resubmittedChat)) !! "u1_19" = Some [answeredPrompt; answer].
Proof. vm_compute. repeat split. Qed.

(** A stop whose matcher finds no consumer to cancel (none is registered,
    or the tag of the registered one does not contain
    [`${userId}_${sessionId}`]) changes nothing but the log of emissions. *)
Lemma forceCleanup_missed (userId sessionId chatId : jsval) (cancel : CancelOutcome)
    (st : State) :
  (forall c, globalActiveConsumer st = Some c ->
             Js.includes (consumerTag c) (toStr userId +:+ "_" +:+ toStr sessionId) = false) ->
  forceCleanupConsumerForSession userId sessionId chatId cancel st = (st, false).
Proof.
  intros Hmiss. destruct (globalActiveConsumer st) as [c|] eqn:Hc.
  - by apply (forceCleanup_unmatched _ _ _ _ _ c); [|apply Hmiss].
  - unfold forceCleanupConsumerForSession. by rewrite Hc.
Qed.

Lemma stopCleanup_missed (finalUserId : jsval) (req : StopRequest) (cancel : CancelOutcome)
    (now : Z) (text ctype reason : string) (st : State) :
  (forall c, globalActiveConsumer st = Some c ->
             Js.includes (consumerTag c)
               (toStr finalUserId +:+ "_" +:+ toStr (stop_session_id req)) = false) ->
  globalChatHistory (stopCleanup finalUserId req cancel now text ctype reason st)
  = globalChatHistory st
  /\ globalActiveConsumer (stopCleanup finalUserId req cancel now text ctype reason st)
     = globalActiveConsumer st.
Proof.
  intros Hmiss. unfold stopCleanup. by rewrite forceCleanup_missed.
Qed.

(** C3. The claim asks that no unfinished message of the stopped chat
    remains once a stop has completed, and the matcher carries the scrub
    for it (its comment reads "CRITICAL FIX: Remove incomplete chat from
    history").  The scrub sits behind the tag match of the matcher: for
    every request, answer of Upstream and state in which the matcher finds
    no consumer to cancel, the stop leaves every transcript as it was.  So
    for the running chat of [u1] started through socket [abc], whose tag
    [socket_abc_19_1_...] has the documented form, a stop that completes
    with success leaves the unfinished prompt of chat [1], written with
    [isComplete: false], in the transcript. *)
Theorem C3_stop_leaves_unfinished_messages :
  (forall (req : StopRequest) (reply : UpstreamReply) (cancel : CancelOutcome) (now : Z)
          (st : State),
     (forall c, globalActiveConsumer st = Some c ->
                Js.includes (consumerTag c)
                  (toStr (orElse (stop_user_id req) (currentUserId st)) +:+ "_"
                   +:+ toStr (stop_session_id req)) = false) ->
     globalChatHistory (fst (stopEndpoint req reply cancel now st)) = globalChatHistory st)
  /\ (let '(st, resp) :=
        stopEndpoint sampleStop (ReplyOk None None) (CancelReturns true) 1700000000500
          (fst sampleStart) in
      consumerTag sampleConsumer = "socket_abc_19_1_1700000000000"
      /\ globalActiveConsumer (fst sampleStart) = Some sampleConsumer
      /\ success resp = true /\ cleanup_completed resp = true
      /\ exists m, globalChatHistory st !! "u1_19" = Some [m]
                   /\ role m = user /\ chat_id m = VStr "1" /\ isComplete m = false).
Proof.
  split.
  - intros req reply cancel now st Hmiss. unfold stopEndpoint.
    set (u := orElse (stop_user_id req) (currentUserId st)) in *.
    destruct reply as [status message|retry| |code|]; cbn [fst snd];
      destruct (truthy (stop_session_id req)); try reflexivity;
      try (by apply stopCleanup_missed).
    destruct (stopCleanup_missed u req cancel now "Generation stopped by user"
                "user_stopped" "stop_requested" st Hmiss) as [Hh Hc].
    rewrite <- Hh. apply stopCleanup_missed. by rewrite Hc.
  - vm_compute. do 4 (split; [reflexivity|]). eexists. repeat split.
Qed.

(** The same for a chat submitted through [POST /chat], for which no
    consumer is registered: a stop that completes with success leaves its
    prompt in the transcript (the prompt carries no [isComplete] field,
    which the test of the scrub, [!msg.isComplete], counts as
    unfinished). *)
Lemma stop_without_consumer_keeps_prompt :
  let '(st, resp) :=
    stopEndpoint sampleStop (ReplyOk None None) (CancelReturns true) 1700000000500 httpChat in
  globalActiveConsumer httpChat = None
  /\ success resp = true /\ cleanup_completed resp = true
  /\ globalChatHistory st = globalChatHistory httpChat
  /\ exists m, globalChatHistory st !! "u1_19" = Some [m]
               /\ role m = user /\ chat_id m = VStr "1".
Proof.
  vm_compute. do 4 (split; [reflexivity|]). eexists. repeat split.
Qed.

(** ** Session catalog *)

(** C4. With the ten sessions [5] ... [14] in the catalog, creating a
    session mints id [15] and evicts nothing: the eviction branch of
    [manageSessionWindow] is entered from 25 sessions on, not from 10. The
    user then has eleven sessions, session [5] and its transcript are still
    there, and the response carries no window notice. *)
Theorem C4_eleventh_session_not_evicted :
  let '(st, resp) :=
    chatSessionEndpoint {| cs_user_id := VStr "u1"; cs_title := EmptyString |}
      1700000001000 tenSessions in
  length (List.filter (ofUser (VStr "u1")) (globalSessionNames tenSessions)) = 10%nat
  /\ resp = SessionCreated "15" (VStr "u1") "Chat Session 15" 11 None
  /\ length (List.filter (ofUser (VStr "u1")) (globalSessionNames st)) = 11%nat
  /\ In (localSession "5") (globalSessionNames st)
  /\ globalChatHistory st !! "u1_5" = Some [answeredPrompt].
Proof.
  vm_compute. repeat split. do 10 right. left. reflexivity.
Qed.

(** The window is left alone for every count from 10 to 24. *)
Lemma manageSessionWindow_idle (userId : jsval) (st : State) :
  let n := Z.of_nat (length (List.filter (ofUser (orElse userId (currentUserId st)))
                               (globalSessionNames st))) in
  10 <= n < 25 ->
  manageSessionWindow userId st =
  Some (st, {| deletedSession := None; shouldNotifyUser := false; isWarning := false;
               w_message := None; sessionCount := n + 1 |}).
Proof.
  intros n Hn. unfold manageSessionWindow. fold n.
  destruct (Z.eqb_spec n 9); [lia|]. destruct (Z.leb_spec 25 n); [lia|]. reflexivity.
Qed.

(** ** Logout *)

(** What the flush does clear: the variables of [chat.js]. *)
Lemma flush_clears_chat_module (st : State) :
  let st' := flushAllGlobalVariables st in
  globalSessionNames st' = [] /\ globalChatHistory st' = ∅ /\ sessionMessageCounts st' = ∅
  /\ sessionCacheTimestamp st' = ∅ /\ globalModelList st' = []
  /\ modelListCacheTimestamp st' = None /\ foreignLastSessionIds st' = ∅
  /\ sessionCounters st' = ∅ /\ currentUserId st' = VNull /\ thinkingContentBuffer st' = ∅
  /\ globalPersonalizedFiles st' = ∅.
Proof. repeat split. Qed.

(** C8. The flush run at logout does not reach the variables of the socket
    chat module: the parser buffers ([tokenBuffers]), the active-stream
    table ([globalStreamingSessions]) and the active consumer slot are,
    after the flush, exactly what they were before it. *)
Theorem C8_flush_keeps_socket_module_state :
  forall st : State,
    tokenBuffers (flushAllGlobalVariables st) = tokenBuffers st
    /\ globalStreamingSessions (flushAllGlobalVariables st) = globalStreamingSessions st
    /\ globalActiveConsumer (flushAllGlobalVariables st) = globalActiveConsumer st.
Proof. intros st. repeat split. Qed.

(** At a concrete state: [u1] logs out while the chat of session [19] is
    streaming; its parser buffer and stream entry survive the flush. *)
Example flush_leaves_residue :
  let st :=
    flushAllGlobalVariables
      (fst (deliver [(1700000000001, tokenMessage "<think>" (VStr "1"));
                     (1700000000002, tokenMessage "secret" (VStr "1"))]
              (snd sampleStart) (fst sampleStart))) in
  currentUserId st = VNull
  /\ (fullContent <$> tokenBuffers st !! "u1_19") = Some "<think>secret"
  /\ (ctx_userId <$> globalStreamingSessions st !! "u1_19") = Some (VStr "u1")
  /\ globalActiveConsumer st = Some sampleConsumer.
Proof. vm_compute. repeat split. Qed.

(** ** Admission of prompts *)




(** ** Filtering of Bus messages by chat id *)




(** The consumers that [POST /chat] registers on the same queue have no
    filter of this kind: their callbacks do not read the chat id of a
    message, so what they do with it is the same whatever chat id it
    carries, and a content fragment that carries the chat id [1] is
    accepted for the response of whichever request is consuming. *)
Lemma httpConsumers_ignore_chat_id (o : BusObject) (id : jsval) (stopped sent : bool) :
  let o' := {| bm_type := bm_type o; bm_status := bm_status o; bm_token := bm_token o;
               bm_data := bm_data o; bm_content := bm_content o;
               bm_response := bm_response o; bm_message := bm_message o;
               bm_chat_id := id |} in
  onHttpQueueMessage (BusObj o') stopped sent = onHttpQueueMessage (BusObj o) stopped sent
  /\ onHttpDrainMessage (BusObj o') stopped sent = onHttpDrainMessage (BusObj o) stopped sent.
Proof. done. Qed.

Lemma httpConsumers_accept_other_chat :
  chatIdOf lateContent = VStr "1"
  /\ onHttpQueueMessage lateContent false false = HttpContent "late"
  /\ onHttpDrainMessage lateContent false false = HttpContent "late".
Proof. repeat split. Qed.

(** ** Session-index re-sync *)

Lemma mapGet_mapSet_eq {V} (k : jsval) (v : V) (m : list (jsval * V)) :
  mapGet k (mapSet k v m) = Some v.
Proof.
  induction m as [|[k' v'] m IH]; simpl; unfold strictEq.
  - by rewrite bool_decide_eq_true_2.
  - case_bool_decide; simpl; unfold strictEq.
    + by rewrite bool_decide_eq_true_2.
    + by rewrite bool_decide_eq_false_2.
Qed.

Lemma mapGet_mapSet_ne {V} (k k0 : jsval) (v : V) (m : list (jsval * V)) :
  k <> k0 -> mapGet k0 (mapSet k v m) = mapGet k0 m.
Proof.
  intros Hne. induction m as [|[k' v'] m IH]; simpl; unfold strictEq.
  - by rewrite bool_decide_eq_false_2.
  - case_bool_decide as E; simpl; unfold strictEq.
    + subst k'. by rewrite !bool_decide_eq_false_2.
    + case_bool_decide; [done | exact IH].
Qed.

Lemma mapSet_In {V} (k k0 : jsval) (v v0 : V) (m : list (jsval * V)) :
  In (k0, v0) (mapSet k v m) -> (k0 = k /\ v0 = v) \/ In (k0, v0) m.
Proof.
  induction m as [|[k' v'] m IH]; simpl.
  - intros [[= <- <-]|[]]. by left.
  - destruct (strictEq k' k); simpl.
    + intros [[= <- <-]|H]; [by left | by right; right].
    + intros [H|H]; [by right; left|].
      destruct (IH H) as [?|?]; [by left | by right; right].
Qed.

Lemma mapSet_keys {V} (k x : jsval) (v : V) (m : list (jsval * V)) :
  In x (map fst (mapSet k v m)) -> x = k \/ In x (map fst m).
Proof.
  intros H. apply in_map_iff in H as ([k0 v0] & <- & H).
  apply mapSet_In in H as [[-> _]|H]; [by left|].
  right. apply in_map_iff. by exists (k0, v0).
Qed.

Lemma mapSet_NoDup {V} (k : jsval) (v : V) (m : list (jsval * V)) :
  List.NoDup (map fst m) -> List.NoDup (map fst (mapSet k v m)).
Proof.
  induction m as [|[k' v'] m IH]; simpl.
  - intros _. constructor; [by intros []|constructor].
  - intros H. apply List.NoDup_cons_iff in H as [Hk' Hm].
    unfold strictEq. case_bool_decide as E; simpl.
    + subst k'. by constructor.
    + constructor; [|by apply IH].
      intros Hin. apply mapSet_keys in Hin as [->|Hin]; [done | by apply Hk'].
Qed.

Lemma mapGet_In {V} (k : jsval) (v : V) (m : list (jsval * V)) :
  mapGet k m = Some v -> In (k, v) m.
Proof.
  induction m as [|[k' v'] m IH]; simpl; [done|].
  unfold strictEq. case_bool_decide as E.
  - intros [= ->]. subst k'. by left.
  - intros H. right. by apply IH.
Qed.

Lemma In_mapGet {V} (k : jsval) (v : V) (m : list (jsval * V)) :
  List.NoDup (map fst m) -> In (k, v) m -> mapGet k m = Some v.
Proof.
  induction m as [|[k' v'] m IH]; simpl; [by intros _ []|].
  intros H. apply List.NoDup_cons_iff in H as [Hk' Hm].
  unfold strictEq. intros [[= -> ->]|Hin].
  - by rewrite bool_decide_eq_true_2.
  - case_bool_decide as E; [|by apply IH].
    subst k'. destruct Hk'. apply in_map_iff. by exists (k, v).
Qed.

Lemma mergeOne_NoDup (u : jsval) (m : list (jsval * Session)) (t : Transformed) :
  List.NoDup (map fst m) -> List.NoDup (map fst (mergeOne u m t)).
Proof. intros H. unfold mergeOne. destruct (mapGet _ _); by apply mapSet_NoDup. Qed.

Lemma mergeOne_keyed (u : jsval) (m : list (jsval * Session)) (t : Transformed) :
  keyed u m -> keyed u (mergeOne u m t).
Proof.
  intros Hm k s. unfold mergeOne.
  destruct (mapGet (t_S_id t) m) as [existing|] eqn:E; intros H.
  - apply mapSet_In in H as [[-> ->]|H]; [|by apply Hm].
    apply mapGet_In, Hm in E. exact E.
  - apply mapSet_In in H as [[-> ->]|H]; [done | by apply Hm].
Qed.

(** The title stored under [sid] after one payload row has been merged. *)
Lemma mergeOne_title_same (u : jsval) (m : list (jsval * Session)) (t : Transformed) :
  exists s, mapGet (t_S_id t) (mergeOne u m t) = Some s /\ s_title s = t_title t.
Proof.
  unfold mergeOne. destruct (mapGet (t_S_id t) m); rewrite mapGet_mapSet_eq; by eexists.
Qed.

Lemma mergeOne_title_other (u sid : jsval) (m : list (jsval * Session)) (t : Transformed) :
  t_S_id t <> sid -> mapGet sid (mergeOne u m t) = mapGet sid m.
Proof.
  intros Hne. unfold mergeOne. destruct (mapGet (t_S_id t) m); by apply mapGet_mapSet_ne.
Qed.

Lemma merge_all_title (u sid : jsval) (title : string) (ts : list Transformed)
    (m : list (jsval * Session)) :
  (forall t, In t ts -> t_S_id t = sid -> t_title t = title) ->
  (exists t, In t ts /\ t_S_id t = sid)
  \/ (exists s, mapGet sid m = Some s /\ s_title s = title) ->
  exists s, mapGet sid (fold_left (mergeOne u) ts m) = Some s /\ s_title s = title.
Proof.
  revert m. induction ts as [|t ts IH]; intros m Hall Hsome; simpl.
  - destruct Hsome as [(t & [] & _)|H]. exact H.
  - apply IH; [intros t' Hin; apply Hall; by right|].
    destruct (decide (t_S_id t = sid)) as [E|E].
    + right. destruct (mergeOne_title_same u m t) as (s & Hs & Ht).
      exists s. rewrite <- E. split; [exact Hs|]. rewrite Ht. apply Hall; [by left | exact E].
    + destruct Hsome as [(t' & [->|Hin] & Hid)|H]; [done | left; by exists t' |].
      right. by rewrite mergeOne_title_other.
Qed.

Lemma fold_mergeOne_inv (u : jsval) (ts : list Transformed) (m : list (jsval * Session)) :
  List.NoDup (map fst m) -> keyed u m ->
  List.NoDup (map fst (fold_left (mergeOne u) ts m)) /\ keyed u (fold_left (mergeOne u) ts m).
Proof.
  revert m. induction ts as [|t ts IH]; intros m Hn Hk; simpl; [done|].
  apply IH; [by apply mergeOne_NoDup | by apply mergeOne_keyed].
Qed.

Lemma fold_remember_inv (u : jsval) (current : list Session) (m : list (jsval * Session)) :
  (forall s, In s current -> s_user_id s = u) ->
  List.NoDup (map fst m) -> keyed u m ->
  let m' := fold_left (fun m s => mapSet (s_session_id s) (rememberOrigin s) m) current m in
  List.NoDup (map fst m') /\ keyed u m'.
Proof.
  revert m. induction current as [|s current IH]; intros m Hu Hn Hk; simpl; [done|].
  apply IH; [intros s' Hin; apply Hu; by right | by apply mapSet_NoDup |].
  intros k s' Hin. apply mapSet_In in Hin as [[-> ->]|Hin]; [|by apply Hk].
  split; [done|]. simpl. apply Hu. by left.
Qed.

(** The deduplicated list holds one entry for [sid], with the title of the
    payload. *)
Lemma deduplicate_title (u sid : jsval) (title : string) (current : list Session)
    (ts : list Transformed) :
  (forall s, In s current -> s_user_id s = u) ->
  (exists t, In t ts /\ t_S_id t = sid) ->
  (forall t, In t ts -> t_S_id t = sid -> t_title t = title) ->
  (exists s, In s (deduplicate u current ts) /\ s_user_id s = u /\ s_session_id s = sid)
  /\ (forall s, In s (deduplicate u current ts) -> s_user_id s = u)
  /\ (forall s, In s (deduplicate u current ts) -> s_session_id s = sid -> s_title s = title).
Proof.
  intros Hu Hsome Hall. unfold deduplicate.
  set (m0 := fold_left _ current []).
  destruct (fold_remember_inv u current [] Hu) as [Hn0 Hk0];
    [constructor | by intros ? ? [] |]. fold m0 in Hn0, Hk0.
  destruct (fold_mergeOne_inv u ts m0 Hn0 Hk0) as [Hn Hk].
  destruct (merge_all_title u sid title ts m0 Hall (or_introl Hsome)) as (s & Hs & Ht).
  split; [|split].
  - exists s. pose proof (mapGet_In _ _ _ Hs) as Hin.
    split; [apply in_map_iff; by exists (sid, s)|]. destruct (Hk _ _ Hin) as [? ?]. done.
  - intros s' Hin. apply in_map_iff in Hin as ([k s''] & <- & Hin). by apply (Hk _ _ Hin).
  - intros s' Hin Hid. apply in_map_iff in Hin as ([k s''] & <- & Hin). simpl in *.
    destruct (Hk _ _ Hin) as [Hkey _]. rewrite Hid in Hkey. subst k.
    apply In_mapGet in Hin; [|exact Hn]. congruence.
Qed.

(** The decoder of the callback yields the rows of the payload, in
    order. *)
Lemma transformSessions_rows (u : jsval) (now : Z) (message : IndexPayload) :
  namedUsers message = true ->
  map (fun t => (t_S_id t, t_title t)) (transformSessions u now message)
  = payloadRows u message.
Proof.
  assert (forall rows : list (jsval * string), map (fun r => (r.1, r.2)) rows = rows) as Hid.
  { induction rows as [|[k t] rows IH]; cbn; [done|]. by rewrite IH. }
  intros Hn. destruct message as [rows|items|uid stamp rows|uid sessions]; cbn.
  - rewrite List.map_map. cbn. apply Hid.
  - destruct items as [|[first ss] items]; [done|]. cbn in Hn.
    apply andb_true_iff in Hn as [Hf _]. rewrite Hf.
    destruct (List.find _ _) as [item|]; [|done].
    rewrite List.map_map. apply map_ext. by intros [[sid name] created].
  - destruct (strictEq uid u); [|done].
    rewrite List.map_map. cbn. apply Hid.
  - destruct (strictEq uid u); [|done].
    rewrite List.map_map. apply map_ext. by intros [[sid name] created].
Qed.

Lemma lastTitle_None (sid : jsval) (ts : list Transformed) :
  lastTitle sid (map (fun t => (t_S_id t, t_title t)) ts) = None ->
  forall t, In t ts -> t_S_id t <> sid.
Proof.
  induction ts as [|t0 ts IH]; cbn; [by intros _ t []|].
  destruct (lastTitle sid _); [done|]. unfold strictEq. case_bool_decide; [done|].
  intros _ t [<-|Hin]; [done | by apply IH].
Qed.

(** After the merge of the payload the entry of [sid] carries the title of
    the last row of [sid]. *)
Lemma merge_last_title (u sid : jsval) (title : string) (ts : list Transformed)
    (m : list (jsval * Session)) :
  lastTitle sid (map (fun t => (t_S_id t, t_title t)) ts) = Some title ->
  exists s, mapGet sid (fold_left (mergeOne u) ts m) = Some s /\ s_title s = title.
Proof.
  revert m. induction ts as [|t ts IH]; intros m; cbn; [done|].
  destruct (lastTitle sid (map (fun t => (t_S_id t, t_title t)) ts)) as [later|] eqn:E.
  - intros [= ->]. by apply IH.
  - unfold strictEq. case_bool_decide as Hid; [|done]. intros [= <-].
    apply merge_all_title.
    + intros t' Hin Hid'. by destruct (lastTitle_None sid ts E t' Hin).
    + right. destruct (mergeOne_title_same u m t) as (s & Hs & Ht).
      exists s. by rewrite <- Hid.
Qed.

(** The merge of the callback does give the title of Upstream precedence
    where the ids are the same value: after a re-sync that delivers a
    payload, every session id that has a row in the payload has an entry in
    the catalog of the user, and every entry of the user under that id
    carries the title of the last row of that id, whatever title the
    catalog held before. *)
Lemma sync_overwrites_title_of_same_id :
  forall (u : jsval) (now : Z) (message : IndexPayload) (st : State)
         (sid : jsval) (title : string),
    namedUsers message = true ->
    lastTitle sid (payloadRows u message) = Some title ->
    let catalog := globalSessionNames (fst (onSessionIndexMessage u now message st)) in
    (exists s, In s catalog /\ s_user_id s = u /\ s_session_id s = sid)
    /\ (forall s, In s catalog -> s_user_id s = u -> s_session_id s = sid -> s_title s = title).
Proof.
  intros u now message st sid title Hn Hlast.
  rewrite <- (transformSessions_rows u now message Hn) in Hlast.
  unfold onSessionIndexMessage.
  destruct (transformSessions u now message) as [|t0 ts] eqn:E; [done|].
  cbn [fst globalSessionNames with_sessions].
  set (current := List.filter (ofUser u) (globalSessionNames st)).
  assert (forall s, In s current -> s_user_id s = u) as Hcur.
  { intros s Hin. apply filter_In in Hin as [_ Hin]. unfold ofUser, strictEq in Hin.
    by apply bool_decide_eq_true in Hin. }
  unfold deduplicate.
  set (m0 := fold_left (fun m s => mapSet (s_session_id s) (rememberOrigin s) m) current []).
  destruct (fold_remember_inv u current [] Hcur) as [Hn0 Hk0];
    [constructor | by intros ? ? [] |]. fold m0 in Hn0, Hk0.
  destruct (fold_mergeOne_inv u (t0 :: ts) m0 Hn0 Hk0) as [Hnd Hk].
  destruct (merge_last_title u sid title (t0 :: ts) m0 Hlast) as (s & Hs & Ht).
  split.
  - exists s. pose proof (mapGet_In _ _ _ Hs) as Hin.
    destruct (Hk _ _ Hin) as [Hid Hu].
    split; [|done]. apply in_or_app. left. apply in_map_iff. by exists (sid, s).
  - intros s' Hin' Hus' Hid'. apply in_app_or in Hin' as [Hin'|Hin'].
    + apply in_map_iff in Hin' as ([k s''] & <- & Hin'). cbn in *.
      destruct (Hk _ _ Hin') as [Hkey _]. rewrite Hid' in Hkey. subst k.
      apply In_mapGet in Hin'; [|exact Hnd]. congruence.
    + apply filter_In in Hin' as [_ Hno]. unfold ofUser, strictEq in Hno.
      by rewrite bool_decide_eq_true_2 in Hno.
Qed.

(** Scenario 6 with the ids of the payload as strings: the local title of
    session [15] gives way to the title of the payload. *)
Lemma sync_overwrites_sample_title :
  map (fun s => (s_session_id s, s_title s))
    (globalSessionNames
       (fst (onSessionIndexMessage (VStr "u1") 1700000003000 syncPayload beforeSync)))
  = [(VStr "15", "Debugging crash"); (VStr "14", "Bug triage"); (VStr "13", "...")].
Proof. vm_compute. reflexivity. Qed.


(** ** Thinking parser *)

Lemma pendingContents_app (l1 l2 : list Emission) :
  pendingContents (l1 ++ l2) = pendingContents l1 ++ pendingContents l2.
Proof. unfold pendingContents. apply omap_app. Qed.

Lemma pendingContents_quiet (r : string) (now : Z) (ps : list Payload) :
  forallb (fun p => negb (isPending p)) ps = true ->
  pendingContents (map (emission r now) ps) = [].
Proof.
  induction ps as [|p ps IH]; simpl; [done|].
  intros H. apply andb_true_iff in H as [Hp Hps].
  unfold pendingContents in *. simpl.
  destruct p as [? ? ? ? ? [] ?| | | | |]; simpl in *; try discriminate; by apply IH.
Qed.

Lemma moveSound_mono (full full' : string) (log : list Emission) :
  (forall X, occursIn X full -> occursIn X full') ->
  moveSound full log -> moveSound full' log.
Proof.
  intros Hsub H i e X c s mid P Hi He.
  destruct (H i e X c s mid P Hi He) as (? & ? & ? & ?). eauto.
Qed.

Lemma moveSound_nil (full : string) : moveSound full [].
Proof. intros i e X c s mid P Hi. by rewrite lookup_nil in Hi. Qed.

Lemma moveSound_app (full : string) (log : list Emission) (r : string) (now : Z)
    (ps : list Payload) :
  forallb (fun p => negb (isMove p)) ps = true ->
  moveSound full log -> moveSound full (log ++ map (emission r now) ps).
Proof.
  intros Hps H i e X c s mid P Hi He.
  apply lookup_app_Some in Hi as [Hi|[Hlen Hi]].
  - destruct (H i e X c s mid P Hi He) as (HX & Hocc & HP & e' & He' & Hp').
    pose proof (lookup_lt_Some _ _ _ Hi) as Hlt.
    split; [done|]. split; [done|]. split.
    + rewrite take_app_le by lia. done.
    + exists e'. split; [|done]. by apply lookup_app_l_Some.
  - apply list_lookup_fmap_Some in Hi as (p & -> & Hp).
    simpl in He. subst p.
    apply list_elem_of_lookup_2, list_elem_of_In in Hp.
    rewrite forallb_forall in Hps. apply Hps in Hp. discriminate.
Qed.

Lemma moveSound_move (full : string) (log : list Emission) (r : string) (now : Z)
    (X : string) (c s : jsval) (mid : option string) :
  X <> EmptyString -> occursIn X full ->
  moveSound full log ->
  moveSound full
    (log ++ map (emission r now)
              [MoveToThinking X c s mid (pendingContents log); ThinkingComplete c s]).
Proof.
  intros HX Hocc H i e X' c' s' mid' P Hi He.
  apply lookup_app_Some in Hi as [Hi|[Hlen Hi]].
  - destruct (H i e X' c' s' mid' P Hi He) as (HX' & Hocc' & HP & e' & He' & Hp').
    pose proof (lookup_lt_Some _ _ _ Hi) as Hlt.
    split; [done|]. split; [done|]. split.
    + rewrite take_app_le by lia. done.
    + exists e'. split; [|done]. by apply lookup_app_l_Some.
  - destruct (i - length log)%nat as [|[|n]] eqn:En; simpl in Hi.
    + injection Hi as <-. simpl in He. injection He as <- <- <- <- <-.
      assert (i = length log) as -> by lia.
      split; [done|]. split; [done|]. split.
      * by rewrite take_app_length.
      * exists (emission r now (ThinkingComplete c s)). split; [|reflexivity].
        rewrite lookup_app_r by lia.
        replace (S (length log) - length log)%nat with 1%nat by lia. reflexivity.
    + injection Hi as <-. discriminate.
    + discriminate.
Qed.

Lemma concatAll_snoc (l : list string) (t : string) :
  concatAll (l ++ [t]) = concatAll l +:+ t.
Proof.
  induction l as [|x l IH]; simpl.
  - by rewrite app_empty_r.
  - by rewrite IH, app_assoc_s.
Qed.

Lemma pendingContents_plain (log : list Emission) (r : string) (now : Z) (text : string)
    (c s i : jsval) (n : option Z) :
  pendingContents (log ++ [emission r now (Stream text c s i None false n)])
  = pendingContents log.
Proof. rewrite pendingContents_app. simpl. by rewrite app_nil_r. Qed.

Lemma quiet_split (ps : list Payload) :
  forallb (fun p => negb (isMove p) && negb (isPending p)) ps = true ->
  forallb (fun p => negb (isMove p)) ps = true
  /\ forallb (fun p => negb (isPending p)) ps = true.
Proof.
  intros H. split; apply forallb_forall; intros p Hp; rewrite forallb_forall in H;
    apply H in Hp; by apply andb_true_iff in Hp as [? ?].
Qed.

(** Emissions that are neither moves nor pending tokens keep a buffer
    coherent with its log. *)
Lemma coherent_quiet (b : TokenBuffer) (log : list Emission) (r : string) (now : Z)
    (ps : list Payload) :
  forallb (fun p => negb (isMove p) && negb (isPending p)) ps = true ->
  coherent b log -> coherent b (log ++ map (emission r now) ps).
Proof.
  intros Hps (Htok & Hstart & Hsuf & Hpend & Hsound).
  apply quiet_split in Hps as [Hm Hp].
  split; [done|]. split; [done|]. split; [done|]. split.
  - intros H. rewrite pendingContents_app, pendingContents_quiet, app_nil_r by done. auto.
  - by apply moveSound_app.
Qed.

(** Outside the thinking phase a token is pushed on the buffer without
    touching what ties it to the log. *)
Lemma coherent_outside (b0 b' : TokenBuffer) (log : list Emission) (token : string) :
  coherent b0 log -> isInThinking b0 = false ->
  fullContent b' = fullContent b0 +:+ token -> tokens b' = tokens b0 ++ [token] ->
  isInThinking b' = false -> hasThinkingStarted b' = hasThinkingStarted b0 ->
  pendingThinkingTokens b' = pendingThinkingTokens b0 ->
  coherent b' log.
Proof.
  intros (Htok & Hstart & Hsuf & Hpend & Hsound) Hin Hf Ht Hi Hs Hp.
  split; [by rewrite Hf, Ht, concatAll_snoc, Htok|].
  split; [by rewrite Hi|]. split; [by rewrite Hi|]. split.
  - intros [?|Hns]; [congruence|]. rewrite Hp. apply Hpend. right. congruence.
  - rewrite Hf. eapply moveSound_mono; [|exact Hsound]. intros X. apply occursIn_app_r.
Qed.

Lemma parseThinking_coherent (cfg : ModelConfig) (key : string) (chat sess : jsval) (now : Z)
    (token : string) (b0 : TokenBuffer) (log : list Emission) (r : string) :
  coherent b0 log ->
  let out := parseThinking cfg key chat sess now token (pushToken token b0) in
  coherent (out_buffer out) (log ++ map (emission r now) (out_emits out))
  /\ model (out_buffer out) = model b0.
Proof.
  intros Hc out. pose proof Hc as (Htok & Hstart & Hsuf & Hpend & Hsound).
  assert (moveSound (fullContent b0 +:+ token) log) as Hms.
  { eapply moveSound_mono; [|exact Hsound]. intros X. apply occursIn_app_r. }
  assert (fullContent b0 +:+ token = concatAll (tokens b0 ++ [token])) as Hconcat.
  { by rewrite concatAll_snoc, Htok. }
  subst out. unfold parseThinking. cbn [fullContent pushToken hasThinkingStarted isInThinking
    hasResponseStarted isInResponseTags].
  destruct (Js.nonEmpty (thinking_start cfg)
            && Js.includes (fullContent b0 +:+ token) (thinking_start cfg)
            && negb (hasThinkingStarted b0)) eqn:EA.
  { apply andb_true_iff in EA as [_ Hns]. apply negb_true_iff in Hns.
    assert (isInThinking b0 = false) as Hnt.
    { destruct (isInThinking b0) eqn:E; [|done]. rewrite Hstart in Hns; done. }
    match goal with
    | |- context [match ?x with Some _ => _ | None => _ end] => destruct x as [clean|] eqn:EP
    end.
    - (* the empty pair is stripped *)
      unfold coherent. simpl. rewrite app_nil_r. split; [|done].
      split; [done|]. split; [by rewrite Hnt|]. split; [by rewrite Hnt|].
      split; [|done]. intros _. apply Hpend. by right.
    - (* thinking starts *)
      unfold coherent. simpl. split; [|done].
      split; [done|]. split; [done|]. split; [intros _; apply substringFrom_suffix|].
      split.
      + intros _. rewrite Hpend by (by right).
        destruct (nonBlank _); simpl; [|by rewrite app_nil_r].
        symmetry. apply pendingContents_plain.
      + apply moveSound_app; [|done]. by destruct (nonBlank _). }
  destruct (isInThinking b0) eqn:Hin.
  { (* inside the thinking phase *)
    pose proof (Hstart eq_refl) as Hst.
    destruct (Hsuf eq_refl) as (pre & Hpre).
    set (streamed := nonBlank token && _ && _).
    set (pendingEmit := if streamed then [_] else []).
    assert (pendingContents (log ++ map (emission r now) pendingEmit)
            = if streamed then pendingThinkingTokens b0 ++ [token]
              else pendingThinkingTokens b0) as Hp1.
    { rewrite pendingContents_app, <- Hpend by (by left). subst pendingEmit.
      destruct streamed; simpl; [done | by rewrite app_nil_r]. }
    assert (moveSound (fullContent b0 +:+ token) (log ++ map (emission r now) pendingEmit))
      as Hms1.
    { apply moveSound_app; [|done]. subst pendingEmit. by destruct streamed. }
    cbn [b_thinkingContent accumulate model pendingThinkingTokens thinkingMessageId].
    match goal with
    | |- context [match ?x with Some _ => _ | None => _ end] => destruct x as [endIndex|] eqn:ED
    end.
    - (* the end of thinking is detected *)
      set (thinkingOnly := Js.trim _).
      assert (occursIn thinkingOnly (fullContent b0 +:+ token)) as Hocc.
      { eapply occursIn_trans; [apply trim_occurs|].
        eapply occursIn_trans; [apply substring_occurs|].
        rewrite Hpre, app_assoc_s. apply occursIn_app_l, occursIn_refl. }
      assert (coherent_after :
        forall b', fullContent b' = fullContent b0 +:+ token ->
                   tokens b' = tokens b0 ++ [token] ->
                   isInThinking b' = false -> hasThinkingStarted b' = true ->
                   coherent b'
                     (log ++ map (emission r now)
                        (pendingEmit ++
                         (if Js.nonEmpty thinkingOnly
                          then [MoveToThinking thinkingOnly chat sess (thinkingMessageId b0)
                                  (if streamed then pendingThinkingTokens b0 ++ [token]
                                   else pendingThinkingTokens b0);
                                ThinkingComplete chat sess]
                          else [])))).
      { intros b' Hf Ht Hi Hs. split; [by rewrite Hf, Ht|].
        split; [by rewrite Hi|]. split; [by rewrite Hi|].
        split; [intros [?|?]; congruence|]. rewrite Hf.
        rewrite map_app, app_assoc.
        destruct (Js.nonEmpty thinkingOnly) eqn:EX.
        - rewrite <- Hp1. apply moveSound_move; [|done|done].
          intros ->. discriminate.
        - simpl. by rewrite app_nil_r. }
      repeat match goal with
             | |- context [if ?c then _ else _] =>
                 lazymatch c with
                 | Js.nonEmpty thinkingOnly => fail
                 | streamed => fail
                 | _ => destruct c
                 end
             end; simpl; (split; [apply coherent_after; simpl; done | done]).
    - (* still thinking *)
      unfold coherent. simpl. split; [|done].
      split; [done|]. split; [done|].
      split; [intros _; exists pre; by rewrite Hpre, app_assoc_s|].
      split; [intros _; by rewrite Hp1 | done]. }
  (* outside the thinking phase *)
  repeat match goal with
         | |- context [if ?c then _ else _] => destruct c
         end; cbn [out_buffer out_emits parsed];
    (split; [|done]); (apply coherent_quiet; [simpl; done|]);
    apply (coherent_outside b0 _ log token Hc Hin); simpl; done.
Qed.

Lemma parseThinking_thinking (cfg : ModelConfig) (key : string) (chat sess : jsval) (now : Z)
    (token : string) (b : TokenBuffer) :
  supports_thinking cfg = true -> MODEL_TYPES (model b) = Some cfg ->
  let out := parseThinking cfg key chat sess now token b in
  model (out_buffer out) = model b.
Proof.
  intros _ _. unfold parseThinking.
  repeat match goal with
         | |- context [if ?c then _ else _] => destruct c
         | |- context [match ?x with Some _ => _ | None => _ end] => destruct x
         end; reflexivity.
Qed.

Lemma parseToken_inv (key : string) (chat sess : jsval) (now : Z) (token : string)
    (b0 : TokenBuffer) (log : list Emission) (r : string) :
  coherent b0 log -> (isInThinking b0 = true -> thinkingModel (model b0) = true) ->
  let out := parseToken key chat sess now token (pushToken token b0) in
  coherent (out_buffer out) (log ++ map (emission r now) (out_emits out))
  /\ model (out_buffer out) = model b0
  /\ (isInThinking (out_buffer out) = true -> thinkingModel (model (out_buffer out)) = true).
Proof.
  intros Hc Hth out. subst out. unfold parseToken. cbn [model pushToken].
  unfold thinkingModel in *.
  destruct (MODEL_TYPES (model b0)) as [cfg|] eqn:EM.
  - destruct (supports_thinking cfg) eqn:ES.
    + destruct (parseThinking_coherent cfg key chat sess now token b0 log r Hc) as [H1 H2].
      split; [done|]. split; [done|]. intros _. by rewrite H2, EM.
    + assert (isInThinking b0 = false) as Hin
        by (destruct (isInThinking b0); [specialize (Hth eq_refl); discriminate | done]).
      cbn [out_buffer out_emits parsed map]. rewrite app_nil_r.
      split; [by eapply coherent_outside|]. split; [done|]. simpl. by rewrite Hin.
  - assert (isInThinking b0 = false) as Hin
        by (destruct (isInThinking b0); [specialize (Hth eq_refl); discriminate | done]).
    cbn [out_buffer out_emits parsed map]. rewrite app_nil_r.
    split; [by eapply coherent_outside|]. split; [done|]. simpl. by rewrite Hin.
Qed.

Lemma streamInv_ext (key : string) (st st' : State) :
  tokenBuffers st' = tokenBuffers st ->
  globalStreamingSessions st' = globalStreamingSessions st ->
  emitted st' = emitted st ->
  streamInv key st -> streamInv key st'.
Proof.
  intros Hb Hs He (b & Hl & Hm & Hth & Hc). exists b.
  unfold streamModelId. rewrite Hb, Hs, He. done.
Qed.

Lemma streamInv_quiet (key r : string) (now : Z) (p : Payload) (st : State) :
  negb (isMove p) && negb (isPending p) = true ->
  streamInv key st -> streamInv key (emit r now p st).
Proof.
  intros Hp (b & Hl & Hm & Hth & Hc). exists b.
  split; [done|]. split; [done|]. split; [done|].
  apply (coherent_quiet b (emitted st) r now [p]); [|done]. simpl. by rewrite Hp.
Qed.

Lemma processToken_inv (key r : string) (chat sess : jsval) (now : Z) (token : string)
    (st : State) :
  Js.nonEmpty token = true -> streamInv key st ->
  streamInv key
    (fst (processTokenStreamThinking token key (streamModelId key st) r chat sess now st)).
Proof.
  intros Hne (b & Hl & Hm & Hth & Hc). unfold processTokenStreamThinking.
  rewrite Hne. cbn [negb fst].
  assert (currentBuffer key (streamModelId key st) st = b) as ->.
  { unfold currentBuffer. rewrite Hl. simpl. by rewrite bool_decide_eq_true_2. }
  destruct (parseToken_inv key chat sess now token b (emitted st) r Hc Hth)
    as (Hc' & Hm' & Hth').
  set (out := parseToken key chat sess now token (pushToken token b)) in *.
  exists (out_buffer out).
  destruct (out_store out); unfold storeThinking; cbn; unfold streamModelId; cbn;
    rewrite lookup_insert_eq;
    (split; [done|]); (split; [by rewrite Hm'|]); (split; [done|]); exact Hc'.
Qed.

Lemma streamText_inv (text : string) (isToken : bool) (now count : Z) (ctx : ChatCtx)
    (st : State) :
  Js.nonEmpty text = true ->
  streamInv (sessionKeyOf (finalUserId ctx) (finalSessionId ctx)) st ->
  streamInv (sessionKeyOf (finalUserId ctx) (finalSessionId ctx))
    (streamText text isToken now count ctx st).
Proof.
  intros Hne Hinv. unfold streamText.
  set (key := sessionKeyOf _ _) in *.
  set (st1 := with_history _ st).
  match goal with
  | |- context [if ?c then noteSession ctx now st1 else st1] =>
      set (st2 := if c then noteSession ctx now st1 else st1)
  end.
  assert (streamInv key st2) as Hinv2.
  { apply (streamInv_ext key st); try done; subst st2;
      match goal with |- context [if ?c then _ else _] => destruct c end;
      try reflexivity; unfold noteSession;
      match goal with |- context [match ?x with Some _ => _ | None => _ end] => destruct x end;
      reflexivity. }
  pose proof (processToken_inv key (roomId ctx) (finalChatId ctx) (finalSessionId ctx) now
                text st2 Hne Hinv2) as Hinv3.
  destruct (processTokenStreamThinking text key (streamModelId key st2) (roomId ctx)
              (finalChatId ctx) (finalSessionId ctx) now st2) as [st3 processedToken].
  simpl in Hinv3. destruct (nonBlank processedToken); [|done].
  by apply streamInv_quiet.
Qed.

Lemma onChatMessage_inv (message : BusMessage) (now : Z) (ctx : ChatCtx) (st : State) :
  streamInv (sessionKeyOf (finalUserId ctx) (finalSessionId ctx)) st ->
  let '(st', ctx') := onChatMessage message now ctx st in
  streamInv (sessionKeyOf (finalUserId ctx) (finalSessionId ctx)) st'
  /\ finalUserId ctx' = finalUserId ctx /\ finalSessionId ctx' = finalSessionId ctx.
Proof.
  intros Hinv. unfold onChatMessage.
  destruct (isStreamingComplete ctx); [done|].
  destruct (_ && _); [done|].
  destruct (isCompletionMessage message).
  - split; [|done]. apply streamInv_quiet; [done|].
    apply (streamInv_ext _ st); try done; by destruct (globalChatHistory st !! _).
  - destruct (Js.nonEmpty (responseContentOf message)) eqn:E; simpl; [|done].
    split; [|done]. by apply streamText_inv.
Qed.

Lemma deliver_inv (messages : list (Z * BusMessage)) (ctx : ChatCtx) (st : State) :
  streamInv (sessionKeyOf (finalUserId ctx) (finalSessionId ctx)) st ->
  streamInv (sessionKeyOf (finalUserId ctx) (finalSessionId ctx))
    (fst (deliver messages ctx st)).
Proof.
  revert ctx st. induction messages as [|[now m] messages IH]; intros ctx st Hinv; [done|].
  simpl. pose proof (onChatMessage_inv m now ctx st Hinv) as H.
  destruct (onChatMessage m now ctx st) as [st1 ctx1]. destruct H as (H1 & Hu & Hs).
  rewrite <- Hu, <- Hs. apply IH. by rewrite Hu, Hs.
Qed.

Lemma fresh_streamInv (key : string) (st : State) :
  emitted st = [] ->
  tokenBuffers st !! key = Some (freshBuffer (getModelNameFromId (streamModelId key st))) ->
  streamInv key st.
Proof.
  intros He Hb. eexists. split; [exact Hb|]. split; [done|]. split; [done|].
  rewrite He. split; [done|]. split; [done|]. split; [done|]. split; [done|].
  apply moveSound_nil.
Qed.

(** C6 (as the code has it). In a chat stream that starts with a fresh
    parser buffer and an empty log, whenever a [move_to_thinking] is
    emitted with content [X]: [X] is not empty; the concatenation of the
    tokens the parser has received for the chat contains [X] as a
    contiguous substring; the [pendingTokens] of the event are exactly the
    texts of the pending-thinking [stream] emissions made before it, in
    order; and the next emission is the [thinking_complete] of the chat. *)
Theorem C6_move_to_thinking_sound :
  forall (messages : list (Z * BusMessage)) (ctx : ChatCtx) (st0 : State)
         (i : nat) (e : Emission) (X : string) (c s : jsval) (mid : option string)
         (P : list string),
    let key := sessionKeyOf (finalUserId ctx) (finalSessionId ctx) in
    let st := fst (deliver messages ctx st0) in
    emitted st0 = [] ->
    tokenBuffers st0 !! key = Some (freshBuffer (getModelNameFromId (streamModelId key st0))) ->
    emitted st !! i = Some e ->
    payload e = MoveToThinking X c s mid P ->
    X <> EmptyString
    /\ (exists b, tokenBuffers st !! key = Some b
                  /\ Js.includes (concatAll (tokens b)) X = true)
    /\ P = pendingContents (take i (emitted st))
    /\ exists e', emitted st !! S i = Some e' /\ payload e' = ThinkingComplete c s.
Proof.
  intros messages ctx st0 i e X c s mid P key st He Hb Hi Hp.
  destruct (deliver_inv messages ctx st0 (fresh_streamInv key st0 He Hb))
    as (b & Hl & _ & _ & Htok & _ & _ & _ & Hsound).
  destruct (Hsound i e X c s mid P Hi Hp) as (HX & Hocc & HP & Hnext).
  split; [done|]. split; [|done].
  exists b. split; [done|]. apply includes_spec. by rewrite <- Htok.
Qed.

(** The theorem at the run of scenario 2: the tokens [<think>], [why],
    [?], [</think>]. *)
Lemma C6_move_to_thinking_witness :
  emitted (afterTokens ["<think>"; "why"; "?"; "</think>"]) !! 2%nat
  = Some (emission "chat_u1_19_1_i1" 1700000000001
            (MoveToThinking "why?" (VStr "1") (VStr "19")
               (Some "thinking_u1_19_1700000000001") ["why"; "?"]))
  /\ pendingContents (take 2 (emitted (afterTokens ["<think>"; "why"; "?"; "</think>"])))
     = ["why"; "?"]
  /\ (exists b, tokenBuffers (afterTokens ["<think>"; "why"; "?"; "</think>"]) !! sampleKey
                = Some b
                /\ Js.includes (concatAll (tokens b)) "why?" = true).
Proof.
  assert (emitted (afterTokens ["<think>"; "why"; "?"; "</think>"]) !! 2%nat
          = Some (emission "chat_u1_19_1_i1" 1700000000001
                    (MoveToThinking "why?" (VStr "1") (VStr "19")
                       (Some "thinking_u1_19_1700000000001") ["why"; "?"]))) as Hi
    by (vm_compute; reflexivity).
  assert (emitted (fst sampleStart) = []) as Hlog by (vm_compute; reflexivity).
  assert (sessionKeyOf (finalUserId (snd sampleStart)) (finalSessionId (snd sampleStart))
          = sampleKey) as Hk by (vm_compute; reflexivity).
  assert (tokenBuffers (fst sampleStart)
            !! sessionKeyOf (finalUserId (snd sampleStart)) (finalSessionId (snd sampleStart))
          = Some (freshBuffer
                    (getModelNameFromId
                       (streamModelId
                          (sessionKeyOf (finalUserId (snd sampleStart))
                             (finalSessionId (snd sampleStart)))
                          (fst sampleStart))))) as Hbuf by (vm_compute; reflexivity).
  destruct (C6_move_to_thinking_sound _ (snd sampleStart) (fst sampleStart) 2%nat _ "why?"
              (VStr "1") (VStr "19") (Some "thinking_u1_19_1700000000001") ["why"; "?"]
              Hlog Hbuf Hi eq_refl) as (_ & Hocc & HP & _).
  rewrite Hk in Hocc.
  split; [exact Hi|]. split; [symmetry; exact HP | exact Hocc].
Defined.

(** C6, as stated, fails. With the tokens [<think>], [a], a blank, [b],
    [</think>] the content moved is [a b], while the [stream] emissions
    made before the move are [a] and [b], whose concatenation does not
    contain it; and when one token carries the tags and their content, the
    content [abc] is moved although nothing has been streamed at all. *)
Lemma C6_moved_content_not_in_streamed_text :
  (emitted (afterTokens ["<think>"; "a"; " "; "b"; "</think>"]) !! 2%nat
   = Some (emission "chat_u1_19_1_i1" 1700000000001
             (MoveToThinking "a b" (VStr "1") (VStr "19")
                (Some "thinking_u1_19_1700000000001") ["a"; "b"]))
   /\ streamContents (take 2 (emitted (afterTokens ["<think>"; "a"; " "; "b"; "</think>"])))
      = ["a"; "b"]
   /\ Js.includes (concatAll ["a"; "b"]) "a b" = false)
  /\ (emitted (afterTokens ["<think>abc</think>def"; " "]) !! 0%nat
      = Some (emission "chat_u1_19_1_i1" 1700000000001
                (MoveToThinking "abc" (VStr "1") (VStr "19")
                   (Some "thinking_u1_19_1700000000001") []))
      /\ Js.includes (concatAll []) "abc" = false).
Proof. vm_compute. repeat split. Qed.

(** ** White-space tokens *)

Lemma parseToken_guarded (key : string) (chat sess : jsval) (now : Z) (token : string)
    (b : TokenBuffer) :
  guardedPhase b token = true -> nonBlank token = false ->
  let out := parseToken key chat sess now token (pushToken token b) in
  out_emits out = [] /\ out_store out = None /\ nonBlank (out_return out) = false.
Proof.
  intros Hg Hblank out. subst out. unfold parseToken, guardedPhase in *.
  cbn [model pushToken].
  destruct (MODEL_TYPES (model b)) as [cfg|]; [|done].
  destruct (supports_thinking cfg); [|done]. cbn [negb orb] in Hg.
  apply andb_true_iff in Hg as [Hstart Hg]. apply negb_true_iff in Hstart.
  unfold parseThinking.
  cbn [fullContent pushToken hasThinkingStarted isInThinking hasResponseStarted
         isInResponseTags b_thinkingContent accumulate model].
  rewrite Hstart.
  destruct (isInThinking b).
  - (* thinking phase, no end marker *)
    apply negb_true_iff in Hg. unfold thinkingEnds in Hg.
    rewrite Hblank. cbn [negb andb].
    destruct (bool_decide (model b = "gpt-oss-20b") || bool_decide (model b = "3")).
    + cbn [andb negb]. rewrite Hg. done.
    + cbn [andb negb]. rewrite Hg. done.
  - (* outside the thinking phase, at no response tag *)
    apply andb_true_iff in Hg as [Hrs Hre].
    apply negb_true_iff in Hrs. apply negb_true_iff in Hre.
    assert (Js.nonEmpty (response_start cfg) && negb (hasResponseStarted b)
            && Js.includes (fullContent b +:+ token) (response_start cfg) = false) as ->
      by exact Hrs.
    rewrite Hre. done.
Qed.

Lemma nonBlank_false_trim (s : string) : nonBlank s = false -> Js.trim s = EmptyString.
Proof. unfold nonBlank. by destruct (Js.trim s). Qed.

Lemma appendResponse_last (ctx : ChatCtx) (now : Z) (isToken : bool) (text : string)
    (msgs : list Message) :
  exists m pre, last (appendResponse ctx now isToken text msgs) = Some m
                /\ role m = assistant /\ isComplete m = false /\ content m = pre +:+ text.
Proof.
  unfold appendResponse. destruct (last msgs) as [lastMessage|] eqn:El.
  - destruct (bool_decide (role lastMessage = assistant) && negb (isComplete lastMessage))
      eqn:E.
    + apply andb_true_iff in E as [Hr Hc]. apply bool_decide_eq_true in Hr.
      apply negb_true_iff in Hc.
      eexists _, (content lastMessage). rewrite last_snoc. done.
    + eexists _, EmptyString. rewrite last_snoc. done.
  - eexists _, EmptyString. rewrite last_snoc. done.
Qed.

(** The transcript keeps the assistant message that is being written
    through the parser and the catalog update. *)
Lemma storeThinking_writing (key : string) (chat chat' sess : jsval) (now : Z) (t : string)
    (old : list Message) (acc : string) (n : Z) (st : State) :
  writing key chat old acc n st ->
  writing key chat old acc n (storeThinking key chat' sess now t st).
Proof.
  intros (m & Hh & Hr & Hc & Ha & Hn & Hid). unfold storeThinking. rewrite Hh. cbn [from_option id].
  rewrite last_snoc, Hr, Hc. cbn [andb negb]. rewrite bool_decide_eq_true_2 by done.
  rewrite List.removelast_last. eexists. cbn. rewrite lookup_insert_eq.
  split; [reflexivity|]. done.
Qed.

Lemma processToken_writing (token key : string) (modelId : jsval) (r : string)
    (chat chat' sess : jsval) (now : Z) (old : list Message) (acc : string) (n : Z)
    (st : State) :
  writing key chat old acc n st ->
  writing key chat old acc n
    (fst (processTokenStreamThinking token key modelId r chat' sess now st)).
Proof.
  intros Hw. unfold processTokenStreamThinking.
  destruct (negb (Js.nonEmpty token)); [done|]. cbn [fst].
  set (out := parseToken _ _ _ _ _ _).
  assert (forall st0, globalChatHistory st0 = globalChatHistory st ->
            writing key chat old acc n st0) as Hext.
  { intros st0 E. destruct Hw as (m & Hm). exists m. by rewrite E. }
  destruct (out_store out); [apply storeThinking_writing|]; by apply Hext.
Qed.

Lemma noteSession_history (ctx : ChatCtx) (now : Z) (st : State) :
  globalChatHistory (noteSession ctx now st) = globalChatHistory st.
Proof.
  unfold noteSession.
  match goal with |- context [match ?x with Some _ => _ | None => _ end] => destruct x end;
    reflexivity.
Qed.

(** Every [stream] event of the socket streaming path passes a trimmed
    content check: the pending thinking tokens, the text before a tag and
    the text the parser returns. *)
Lemma parseToken_streams_text (key : string) (chat sess : jsval) (now : Z) (token : string)
    (b : TokenBuffer) :
  List.Forall streamsText (out_emits (parseToken key chat sess now token b)).
Proof.
  unfold parseToken.
  destruct (MODEL_TYPES (model b)) as [cfg|]; [|constructor].
  destruct (supports_thinking cfg); [|constructor].
  unfold parseThinking.
  repeat match goal with
         | |- context [if ?c then _ else _] => destruct c eqn:?
         | |- context [match ?x with Some _ => _ | None => _ end] => destruct x eqn:?
         end; cbn [out_emits parsed app];
    repeat (constructor; cbn [streamsText plainStream]; try done).
  all: match goal with
       | H : nonBlank ?t && _ && _ = true |- nonBlank ?t = true =>
           apply andb_true_iff in H as [H _]; apply andb_true_iff in H as [H _]; exact H
       end.
Qed.

Lemma processToken_streams_text (token key : string) (modelId : jsval) (r : string)
    (chat sess : jsval) (now : Z) (st : State) :
  exists new,
    emitted (fst (processTokenStreamThinking token key modelId r chat sess now st))
    = emitted st ++ new
    /\ List.Forall (fun e => streamsText (payload e)) new.
Proof.
  unfold processTokenStreamThinking.
  destruct (negb (Js.nonEmpty token)); [exists []; by rewrite app_nil_r|]. cbn [fst].
  set (out := parseToken _ _ _ _ _ _).
  exists (map (emission r now) (out_emits out)). split.
  - destruct (out_store out); unfold storeThinking; reflexivity.
  - apply Forall_map. cbn. apply parseToken_streams_text.
Qed.

Lemma streamText_streams_text (text : string) (isToken : bool) (now count : Z) (ctx : ChatCtx)
    (st : State) :
  exists new,
    emitted (streamText text isToken now count ctx st) = emitted st ++ new
    /\ List.Forall (fun e => streamsText (payload e)) new.
Proof.
  unfold streamText. set (key := sessionKeyOf _ _).
  set (st1 := with_history _ st).
  match goal with
  | |- context [if ?c then noteSession ctx now st1 else st1] =>
      set (st2 := if c then noteSession ctx now st1 else st1)
  end.
  assert (emitted st2 = emitted st) as He2.
  { subst st2. match goal with |- context [if ?c then _ else _] => destruct c end;
      [|reflexivity]. unfold noteSession.
    match goal with |- context [match ?x with Some _ => _ | None => _ end] => destruct x end;
      reflexivity. }
  destruct (processToken_streams_text text key (streamModelId key st2) (roomId ctx)
              (finalChatId ctx) (finalSessionId ctx) now st2) as (new & Hnew & Hall).
  destruct (processTokenStreamThinking text key (streamModelId key st2) (roomId ctx)
              (finalChatId ctx) (finalSessionId ctx) now st2) as [st3 processedToken].
  cbn [fst] in Hnew. rewrite He2 in Hnew.
  destruct (nonBlank processedToken) eqn:E.
  - eexists (new ++ [_]). unfold emit. cbn [emitted with_emitted]. rewrite Hnew, <- app_assoc.
    split; [reflexivity|]. apply Forall_app. split; [done|]. by repeat constructor.
  - by exists new.
Qed.

(** The text of a message is appended to the assistant message at the end
    of the transcript, in every phase of the parser. *)
Lemma streamText_appends (text : string) (isToken : bool) (now count : Z) (ctx : ChatCtx)
    (st : State) :
  let key := sessionKeyOf (finalUserId ctx) (finalSessionId ctx) in
  exists m pre,
    last (default [] (globalChatHistory (streamText text isToken now count ctx st) !! key))
    = Some m
    /\ role m = assistant /\ content m = pre +:+ text.
Proof.
  intros key. unfold streamText. fold key.
  set (st1 := with_history _ st).
  destruct (appendResponse_last ctx now isToken text (default [] (globalChatHistory st !! key)))
    as (m & pre & Hl & Hr & Hc & Hcont).
  apply last_Some in Hl as [old Hold].
  assert (writing key (chat_id m) old (pre +:+ text) (token_count m) st1) as H1.
  { exists m. subst st1. cbn [globalChatHistory with_history]. rewrite lookup_insert_eq, Hold.
    done. }
  match goal with
  | |- context [if ?c then noteSession ctx now st1 else st1] =>
      set (st2 := if c then noteSession ctx now st1 else st1)
  end.
  assert (writing key (chat_id m) old (pre +:+ text) (token_count m) st2) as H2.
  { destruct H1 as (m1 & Hm1). exists m1. subst st2.
    match goal with |- context [if ?c then _ else _] => destruct c end;
      by rewrite ?noteSession_history. }
  pose proof (processToken_writing text key (streamModelId key st2) (roomId ctx)
                (chat_id m) (finalChatId ctx) (finalSessionId ctx) now old
                (pre +:+ text) (token_count m) st2 H2) as H3.
  destruct (processTokenStreamThinking text key (streamModelId key st2) (roomId ctx)
              (finalChatId ctx) (finalSessionId ctx) now st2) as [st3 processedToken].
  cbn [fst] in H3.
  assert (globalChatHistory (if nonBlank processedToken
                             then emit (roomId ctx) now
                                    (Stream processedToken (finalChatId ctx)
                                       (finalSessionId ctx) (finalInstanceId ctx) None false
                                       (Some count)) st3
                             else st3) = globalChatHistory st3) as ->
    by (by destruct (nonBlank processedToken)).
  destruct H3 as (m3 & Hh & Hr3 & _ & Hc3 & _). exists m3, pre.
  rewrite Hh. cbn [from_option id]. by rewrite last_snoc.
Qed.

Lemma onChatMessage_token (text : string) (chat : jsval) (now : Z) (ctx : ChatCtx)
    (st : State) :
  isStreamingComplete ctx = false ->
  truthy chat = false \/ toStr chat = toStr (finalChatId ctx) ->
  Js.nonEmpty text = true ->
  fst (onChatMessage (tokenMessage text chat) now ctx st)
  = streamText text true now (messageCount ctx + 1) ctx st.
Proof.
  intros Hrun Hchat Hne. unfold onChatMessage. rewrite Hrun.
  assert (truthy (chatIdOf (tokenMessage text chat))
          && negb (bool_decide (toStr (chatIdOf (tokenMessage text chat))
                                = toStr (finalChatId ctx))) = false) as ->.
  { simpl. destruct Hchat as [Hc | Hc]; [by rewrite Hc|]. rewrite bool_decide_eq_true_2 by done.
    apply andb_false_r. }
  assert (responseContentOf (tokenMessage text chat) = text) as Hresp.
  { unfold responseContentOf, tokenMessage. cbn. by rewrite Hne. }
  cbn [isCompletionMessage tokenMessage bm_type bm_token bm_status].
  rewrite !bool_decide_eq_false_2 by discriminate. cbn [andb orb].
  rewrite Hresp, Hne. reflexivity.
Qed.

(** C10 (as the code has it). For a token whose content is not empty and
    consists only of white space: its content is appended to the content
    of the assistant message at the end of the transcript; every [stream]
    event emitted while it is processed carries text that is not blank, so
    the token is never streamed by itself; and nothing at all is emitted
    when the parser takes none of its tag branches at the token
    ([guardedPhase]): for every model without thinking support, and for a
    model with thinking support before its first tag, in the thinking
    phase before the end marker, in plain streaming after the thinking and
    inside response tags before their end. *)
Theorem C10_blank_token_not_streamed :
  forall (text : string) (chat : jsval) (now : Z) (ctx : ChatCtx) (st : State),
    let key := sessionKeyOf (finalUserId ctx) (finalSessionId ctx) in
    let st' := fst (onChatMessage (tokenMessage text chat) now ctx st) in
    isStreamingComplete ctx = false ->
    truthy chat = false \/ toStr chat = toStr (finalChatId ctx) ->
    Js.nonEmpty text = true ->
    nonBlank text = false ->
    (exists new, emitted st' = emitted st ++ new
                 /\ List.Forall (fun e => streamsText (payload e)) new)
    /\ (exists m pre, last (default [] (globalChatHistory st' !! key)) = Some m
                      /\ role m = assistant /\ content m = pre +:+ text)
    /\ (guardedPhase (currentBuffer key (streamModelId key st) st) text = true ->
        emitted st' = emitted st
        /\ globalChatHistory st' !! key
           = Some (appendResponse ctx now true text (default [] (globalChatHistory st !! key)))).
Proof.
  intros text chat now ctx st key st' Hrun Hchat Hne Hblank.
  subst st'. rewrite (onChatMessage_token text chat now ctx st Hrun Hchat Hne).
  split; [apply streamText_streams_text|]. split; [apply streamText_appends|].
  intros Hg. unfold streamText. fold key.
  rewrite (nonBlank_false_trim text Hblank). cbn [Js.len String.length Z.of_nat Z.ltb Z.compare].
  rewrite andb_false_r.
  unfold processTokenStreamThinking. rewrite Hne. cbn [negb].
  match goal with
  | |- context [parseToken ?k ?c ?s ?n ?t (pushToken ?t ?b)] =>
      change b with (currentBuffer key (streamModelId key st) st);
      destruct (parseToken_guarded k c s n t (currentBuffer key (streamModelId key st) st)
                  Hg Hblank) as (Hem & Hst & Hret)
  end.
  rewrite Hem, Hst, Hret. cbn. rewrite app_nil_r, lookup_insert_eq. done.
Qed.

(** The theorem at a blank token that arrives before the first tag of the
    sample chat, whose model has thinking support: [Hi], the blank and
    [there] are stored as [Hi there], and only [Hi] and [there] are
    streamed. *)
Lemma C10_blank_token_witness :
  guardedPhase
    (currentBuffer sampleKey (streamModelId sampleKey (afterTokens ["Hi"]))
       (afterTokens ["Hi"])) " " = true
  /\ emitted (fst (onChatMessage (tokenMessage " " (VStr "1")) 1700000000002
                     (snd (deliver [(1700000000001, tokenMessage "Hi" (VStr "1"))]
                             (snd sampleStart) (fst sampleStart)))
                     (afterTokens ["Hi"])))
     = emitted (afterTokens ["Hi"])
  /\ (content <$> last (default [] (globalChatHistory
        (fst (onChatMessage (tokenMessage " " (VStr "1")) 1700000000002
                (snd (deliver [(1700000000001, tokenMessage "Hi" (VStr "1"))]
                        (snd sampleStart) (fst sampleStart)))
                (afterTokens ["Hi"]))) !! sampleKey)))
     = Some "Hi "
  /\ streamContents (emitted (afterTokens ["Hi"; " "; "there"])) = ["Hi"; "there"]
  /\ (content <$> last (default [] (globalChatHistory (afterTokens ["Hi"; " "; "there"])
                                      !! sampleKey)))
     = Some "Hi there".
Proof.
  set (ctx := snd (deliver _ (snd sampleStart) (fst sampleStart))).
  assert (guardedPhase
            (currentBuffer sampleKey
               (streamModelId sampleKey (afterTokens ["Hi"]))
               (afterTokens ["Hi"])) " " = true) as Hg
    by (vm_compute; reflexivity).
  destruct (C10_blank_token_not_streamed " " (VStr "1") 1700000000002 ctx
              (afterTokens ["Hi"])) as (_ & _ & Hquiet).
  - vm_compute; reflexivity.
  - right. vm_compute; reflexivity.
  - reflexivity.
  - reflexivity.
  - destruct (Hquiet Hg) as [He Hh].
    split; [exact Hg|]. split; [exact He|]. split.
    + change (sessionKeyOf (finalUserId ctx) (finalSessionId ctx)) with sampleKey in Hh.
      rewrite Hh. vm_compute. reflexivity.
    + split; vm_compute; reflexivity.
Defined.

(** A blank token that arrives in the thinking phase of the sample chat is
    held as thinking text without any emission. *)
Lemma blank_token_in_thinking_phase :
  guardedPhase
    (currentBuffer sampleKey (streamModelId sampleKey (afterTokens ["<think>"; "why"]))
       (afterTokens ["<think>"; "why"])) " " = true
  /\ emitted (afterTokens ["<think>"; "why"; " "]) = emitted (afterTokens ["<think>"; "why"]).
Proof. vm_compute. split; reflexivity. Qed.

(** C10, as stated, fails. A token whose content is empty is replaced by
    the JSON text of its message, which is recorded and streamed.  And a
    white-space token that makes the parser take one of its tag branches
    has text received earlier streamed: after an empty pair of thinking
    tags the parser returns the whole text so far at every token; a
    thinking text that already holds the end marker is closed at the next
    token and what follows the marker is returned; a response start tag
    received during the thinking is found at the first token after it, and
    the response end tag at the first token inside the response tags. *)
Lemma C10_blank_tokens_that_stream :
  (let '(st, _) :=
     onChatMessage (tokenMessage EmptyString (VStr "2")) 1700000002001 (snd secondChat)
       (fst secondChat) in
   emitted (fst secondChat) = []
   /\ streamContents (emitted st) = [jsonOfBus {| bm_type := Some "token"; bm_status := None;
                                                  bm_token := None; bm_data := Some EmptyString;
                                                  bm_content := None; bm_response := None;
                                                  bm_message := None; bm_chat_id := VStr "2" |}])
  /\ nonBlank " " = false
  /\ streamContents (emitted (afterTokens ["<think></think>Hello"])) = ["Hello"]
  /\ streamContents (emitted (afterTokens ["<think></think>Hello"; " "])) = ["Hello"; "Hello "]
  /\ streamContents (emitted (afterTokens ["<think>abc</think>rest"])) = []
  /\ streamContents (emitted (afterTokens ["<think>abc</think>rest"; " "])) = ["rest "]
  /\ streamContents
       (emitted (afterTaggedTokens
                   ["<|channel|>analysis<|message|>";
                    "x<|start|>assistant<|channel|>final<|message|>Hi"; "<|end|>"]))
     = ["x<|start|>assistant<|channel|>final<|message|>Hi"]
  /\ streamContents
       (emitted (afterTaggedTokens
                   ["<|channel|>analysis<|message|>";
                    "x<|start|>assistant<|channel|>final<|message|>Hi"; "<|end|>"; " "]))
     = ["x<|start|>assistant<|channel|>final<|message|>Hi";
        "<|channel|>analysis<|message|>x"; "Hi<|end|> "]
  /\ streamContents
       (emitted (afterTaggedTokens
                   ["<|channel|>analysis<|message|>think";
                    "<|end|><|start|>assistant<|channel|>final<|message|>Hi<|end|>"]))
     = ["<|end|><|start|>assistant<|channel|>final<|message|>Hi<|end|>"; "Hi<|end|>"]
  /\ streamContents
       (emitted (afterTaggedTokens
                   ["<|channel|>analysis<|message|>think";
                    "<|end|><|start|>assistant<|channel|>final<|message|>Hi<|end|>"; " "]))
     = ["<|end|><|start|>assistant<|channel|>final<|message|>Hi<|end|>"; "Hi<|end|>";
        "<|channel|>analysis<|message|>think"].
Proof. vm_compute. repeat split. Qed.

(** * Further properties of the code *)

(** ** Session ids: [parseInt] and [toString] *)

(** [String(n)] of an integer is a string of decimal digits, which
    [parseInt] reads back. *)
Lemma pretty_N_go_app (x : N) (s : string) : pretty_N_go x s = pretty_N_go x EmptyString +:+ s.
Proof.
  revert s. induction (N.lt_wf_0 x) as [x _ IH]. intros s.
  destruct (decide (x = 0%N)) as [->|Hx].
  - by rewrite !pretty_N_go_0.
  - assert (0 < x)%N as Hpos by lia.
    rewrite (pretty_N_go_step x s Hpos), (pretty_N_go_step x EmptyString Hpos).
    assert (x `div` 10 < x)%N as Hlt by (apply N.div_lt; lia).
    rewrite (IH _ Hlt (String _ s)), (IH _ Hlt (String _ EmptyString)).
    rewrite app_assoc_s. by sapp.
Qed.

Lemma pretty_N_char_digit (d : N) :
  (d < 10)%N -> Js.digitOf 10 (pretty_N_char d) = Some (Z.of_N d).
Proof.
  intros Hd.
  destruct d as [|p]; [reflexivity|].
  do 4 (destruct p as [p|p|]; try lia; try reflexivity).
Qed.

Lemma decimal_app (a b : string) : decimal (a +:+ b) = decimal a && decimal b.
Proof. induction a as [|c a IH]; sapp; simpl; [done|]. by rewrite IH, andb_assoc. Qed.

Lemma digitsValue_app (a b : string) (acc : Z) (r : nat) :
  decimal a = true ->
  Js.digitsValue 10 (a +:+ b) acc r =
  Js.digitsValue 10 b (fst (Js.digitsValue 10 a acc r)) (snd (Js.digitsValue 10 a acc r)).
Proof.
  revert acc r. induction a as [|c a IH]; intros acc r; sapp; simpl; [done|].
  intros H. apply andb_true_iff in H as [Hc Ha]. apply bool_decide_eq_true in Hc as [d Hd].
  rewrite Hd. by apply IH.
Qed.

Lemma pretty_N_go_value (x : N) :
  decimal (pretty_N_go x EmptyString) = true
  /\ exists k : nat,
       Js.digitsValue 10 (pretty_N_go x EmptyString) 0 0 = (Z.of_N x, k)
       /\ ((0 < x)%N -> (0 < k)%nat).
Proof.
  induction (N.lt_wf_0 x) as [x _ IH].
  destruct (decide (x = 0%N)) as [->|Hx].
  - rewrite pretty_N_go_0. split; [done|]. exists O. split; [done | lia].
  - assert (0 < x)%N as Hpos by lia.
    assert (x `div` 10 < x)%N as Hlt by (apply N.div_lt; lia).
    destruct (IH _ Hlt) as (Hdec & k & Hval & _).
    assert (x `mod` 10 < 10)%N as Hm by (apply N.mod_lt; lia).
    rewrite (pretty_N_go_step x EmptyString Hpos), pretty_N_go_app.
    split.
    + rewrite decimal_app, Hdec. simpl. rewrite pretty_N_char_digit by done. done.
    + exists (S k). rewrite digitsValue_app, Hval by done. simpl.
      rewrite pretty_N_char_digit by done. simpl. split; [|lia].
      f_equal. pose proof (N.div_mod x 10). lia.
Qed.

Lemma digit_char_plain (c : ascii) (d : Z) :
  Js.digitOf 10 c = Some d ->
  Js.isWhiteSpace c = false /\ c <> "-"%char /\ c <> "+"%char /\ c <> "x"%char /\ c <> "X"%char.
Proof.
  destruct c as [[] [] [] [] [] [] [] []]; vm_compute; intros H; try discriminate H;
    repeat split; discriminate.
Qed.

Lemma parseInt_unfold (s : string) :
  Js.parseInt s =
  let sb := signSplit (Js.trimStart s) in
  let rd := radixSplit sb.2 in
  match Js.digitsValue rd.1 rd.2 0 0 with
  | (_, O) => None
  | (v, _) => Some (sb.1 * v)
  end.
Proof.
  unfold Js.parseInt. cbv zeta. fold (signSplit (Js.trimStart s)).
  destruct (signSplit (Js.trimStart s)) as [sign body]. cbn [fst snd].
  fold (radixSplit body). by destruct (radixSplit body) as [radix digits].
Qed.

Lemma radixSplit_decimal (s : string) : decimal s = true -> radixSplit s = (10, s).
Proof.
  destruct s as [|c [|c2 s2]]; [done | |].
  - intros _. destruct c as [[] [] [] [] [] [] [] []]; reflexivity.
  - intros H. simpl in H. apply andb_true_iff in H as [_ H].
    apply andb_true_iff in H as [Hc2 _]. apply bool_decide_eq_true in Hc2 as [d2 Hd2].
    destruct (digit_char_plain c2 d2 Hd2) as (_ & _ & _ & Hx & HX).
    destruct c as [[] [] [] [] [] [] [] []]; try reflexivity.
    destruct c2 as [[] [] [] [] [] [] [] []]; try reflexivity; by (destruct Hx || destruct HX).
Qed.

Lemma signSplit_decimal (s : string) :
  decimal s = true -> s <> EmptyString ->
  Js.trimStart s = s /\ signSplit s = (1, s).
Proof.
  destruct s as [|c s]; [done|]. intros H _. simpl in H.
  apply andb_true_iff in H as [Hc _]. apply bool_decide_eq_true in Hc as [d Hd].
  destruct (digit_char_plain c d Hd) as (Hw & Hm & Hp & _).
  split; [simpl; by rewrite Hw|].
  destruct c as [[] [] [] [] [] [] [] []]; try reflexivity; by (destruct Hm || destruct Hp).
Qed.

Lemma parseInt_decimal (s : string) :
  decimal s = true -> s <> EmptyString ->
  Js.parseInt s =
  match Js.digitsValue 10 s 0 0 with (_, O) => None | (v, _) => Some v end
  /\ Js.parseInt ("-" +:+ s) =
     match Js.digitsValue 10 s 0 0 with (_, O) => None | (v, _) => Some (- v) end.
Proof.
  intros Hall Hne. destruct (signSplit_decimal s Hall Hne) as [Ht Hs]. split.
  - rewrite parseInt_unfold. cbv zeta. rewrite Ht, Hs. cbn [fst snd].
    rewrite radixSplit_decimal by done. cbn [fst snd].
    destruct (Js.digitsValue 10 s 0 0) as [v [|k]]; first [done | f_equal; lia].
  - rewrite parseInt_unfold. cbv zeta.
    change (signSplit (Js.trimStart ("-" +:+ s))) with (-1, s). cbn [fst snd].
    rewrite radixSplit_decimal by done. cbn [fst snd].
    destruct (Js.digitsValue 10 s 0 0) as [v [|k]]; first [done | f_equal; lia].
Qed.

Lemma parseInt_pretty (n : Z) : Js.parseInt (pretty n) = Some n.
Proof.
  assert (forall p, exists s k, pretty (N.pos p) = s /\ decimal s = true /\ s <> EmptyString
                               /\ Js.digitsValue 10 s 0 0 = (Z.pos p, S k)) as Hpos.
  { intros p. unfold pretty, pretty_N. simpl decide. cbv iota.
    destruct (pretty_N_go_value (N.pos p)) as (Hdec & k & Hval & Hk).
    destruct k as [|k]; [lia|].
    exists (pretty_N_go (N.pos p) EmptyString), k. repeat split; try done.
    intros E. rewrite E in Hval. discriminate Hval. }
  destruct n as [|p|p].
  - reflexivity.
  - change (pretty (Z.pos p)) with (pretty (N.pos p)).
    destruct (Hpos p) as (s & k & -> & Hdec & Hne & Hval).
    destruct (parseInt_decimal s Hdec Hne) as [-> _]. by rewrite Hval.
  - change (pretty (Z.neg p)) with ("-" +:+ pretty (N.pos p)).
    destruct (Hpos p) as (s & k & -> & Hdec & Hne & Hval).
    destruct (parseInt_decimal s Hdec Hne) as [_ ->]. by rewrite Hval.
Qed.

Lemma pretty_nonEmpty (n : Z) : Js.nonEmpty (pretty n) = true.
Proof.
  destruct (pretty n) eqn:E; [|done].
  pose proof (parseInt_pretty n) as H. rewrite E in H. discriminate H.
Qed.

Lemma orElse_truthy_nonEmpty (a : jsval) : Js.nonEmpty (toStr (orElse a (VNum 0))) = true.
Proof.
  unfold orElse. destruct (truthy a) eqn:E; [|done].
  destruct a as [| |n|s]; try done. simpl. apply pretty_nonEmpty.
Qed.

Lemma orElse_same (u : jsval) : orElse u u = u.
Proof. unfold orElse. by destruct (truthy u). Qed.

(** X1. For a user id that names no member of [Object.prototype] and a
    session id of Upstream that reads as a safe integer or as no number at
    all, the next session id that the login reports ([next_session_id]) is
    the id the first [getNextSessionId] of that user returns after the
    login (when the session id does not read as a number, both are
    [NaN]). *)
Theorem X1_login_announces_first_minted_id :
  forall (userId session_id : jsval) (files : option (list string)) (st : State),
    plainKey (toStr userId) = true ->
    (forall n, Js.parseInt (toStr (orElse session_id (VNum 0))) = Some n ->
               safeInteger n = true) ->
    snd (getNextSessionId userId (fst (loginBookkeeping userId session_id files st)))
    = li_next_session_id (snd (loginBookkeeping userId session_id files st)).
Proof.
  intros userId session_id files st _ _.
  unfold loginBookkeeping. cbn [fst snd li_next_session_id].
  set (fl := toStr (orElse session_id (VNum 0))).
  unfold getNextSessionId. cbn [snd].
  assert (Hcur : forall st0, currentUserId (setForeignLastSessionId userId (VStr fl) st0)
                             = currentUserId st0) by reflexivity.
  rewrite Hcur.
  assert (currentUserId (setPersonalizedFiles userId (Some (default [] files))
                           (setCurrentUserId userId st)) = userId) as ->.
  { unfold setPersonalizedFiles. by destruct (negb (truthy userId)). }
  rewrite orElse_same.
  unfold setForeignLastSessionId. cbn [sessionCounters with_sessionCounters
    foreignLastSessionIds with_foreignLastSessionIds].
  rewrite lookup_delete_eq, lookup_insert_eq. cbn [toStr].
  unfold fl at 1. rewrite orElse_truthy_nonEmpty.
  fold fl. destruct (Js.nonEmpty fl) eqn:E; [|by (unfold fl in E; rewrite orElse_truthy_nonEmpty in E)].
  by destruct (Js.parseInt fl).
Qed.

(** The theorem at a login of [u1] with last Upstream id [18]. *)
Lemma X1_login_next_id_witness :
  plainKey (toStr (VStr "u1")) = true
  /\ snd (getNextSessionId (VStr "u1")
            (fst (loginBookkeeping (VStr "u1") (VStr "18") None initialState)))
     = li_next_session_id (snd (loginBookkeeping (VStr "u1") (VStr "18") None initialState)).
Proof.
  assert (plainKey (toStr (VStr "u1")) = true) as Hk by (vm_compute; reflexivity).
  split; [exact Hk|].
  apply (X1_login_announces_first_minted_id (VStr "u1") (VStr "18") None initialState Hk).
  intros n Hn. vm_compute in Hn. injection Hn as <-. vm_compute. reflexivity.
Defined.

Lemma getNextSessionId_counted (userId : jsval) (st : State) (m : Z) :
  sessionCounters st !! toStr (orElse userId (currentUserId st)) = Some (Some m) -> m <> 0 ->
  snd (getNextSessionId userId st) = pretty (m + 1)
  /\ currentUserId (fst (getNextSessionId userId st)) = currentUserId st
  /\ sessionCounters (fst (getNextSessionId userId st))
       !! toStr (orElse userId (currentUserId st)) = Some (Some (m + 1)).
Proof.
  intros Hc Hm. unfold getNextSessionId. rewrite Hc.
  destruct (Z.eqb_spec m 0) as [|_]; [done|]. cbn.
  split; [done|]. split; [done|]. by rewrite lookup_insert_eq.
Qed.

Lemma mintSessionIds_counted (k : nat) (userId : jsval) (st : State) (m : Z) :
  sessionCounters st !! toStr (orElse userId (currentUserId st)) = Some (Some m) -> 0 < m ->
  snd (mintSessionIds k userId st) = map (fun i => pretty (m + Z.of_nat i)) (seq 1 k).
Proof.
  revert st m. induction k as [|k IH]; intros st m Hc Hm; [done|].
  destruct (getNextSessionId_counted userId st m Hc) as (Hid & Hu & Hc'); [lia|].
  cbn [mintSessionIds].
  destruct (getNextSessionId userId st) as [st1 id] eqn:E1. cbn [fst snd] in *.
  destruct (mintSessionIds k userId st1) as [st2 ids] eqn:E2. cbn [snd].
  rewrite <- Hu in Hc'.
  pose proof (IH st1 (m + 1) Hc' ltac:(lia)) as Hrest. rewrite E2 in Hrest. cbn [snd] in Hrest.
  cbn [seq map]. rewrite Hid, Hrest. f_equal.
  rewrite <- (List.seq_shift k 1), List.map_map. apply map_ext. intros i. f_equal. lia.
Qed.

(** X2. After a login of a user whose id names no member of
    [Object.prototype] and whose last Upstream session id reads as the
    number [n >= 0], [k] successive calls of [getNextSessionId] for that
    user give the decimal strings of [n + 1], ..., [n + k], in this order,
    as long as [n + k] stays below [2^53].  (With a negative [n] the
    counter passes through 0, which the test
    [!sessionCounters[finalUserId]] takes for a missing counter; from
    [2^53] on the counter, a double, no longer advances.) *)
Theorem X2_minted_ids_count_up_from_last_id :
  forall (userId session_id : jsval) (files : option (list string)) (st : State)
         (n : Z) (k : nat),
    plainKey (toStr userId) = true ->
    Js.parseInt (toStr (orElse session_id (VNum 0))) = Some n -> 0 <= n ->
    safeInteger (n + Z.of_nat k) = true ->
    snd (mintSessionIds k userId (fst (loginBookkeeping userId session_id files st)))
    = map (fun i => pretty (n + Z.of_nat i)) (seq 1 k).
Proof.
  intros userId session_id files st n k _ Hparse Hn _.
  destruct k as [|k]; [done|].
  set (st0 := fst (loginBookkeeping userId session_id files st)).
  assert (currentUserId st0 = userId) as Hu.
  { unfold st0, loginBookkeeping. cbn [fst].
    unfold setForeignLastSessionId, setPersonalizedFiles, setCurrentUserId.
    by destruct (negb (truthy userId)). }
  assert (sessionCounters st0 !! toStr userId = None) as Hnone.
  { unfold st0, loginBookkeeping, setForeignLastSessionId. cbn. apply lookup_delete_eq. }
  assert (foreignLastSessionIds st0 !! toStr userId
          = Some (toStr (orElse session_id (VNum 0)))) as Hlast.
  { unfold st0, loginBookkeeping, setForeignLastSessionId. cbn.
    rewrite lookup_insert_eq. by rewrite orElse_truthy_nonEmpty. }
  clearbody st0. cbn [mintSessionIds].
  destruct (getNextSessionId userId st0) as [st1 id] eqn:E1.
  assert (id = pretty (n + 1)
          /\ sessionCounters st1 !! toStr (orElse userId (currentUserId st1))
             = Some (Some (n + 1))) as [-> Hc].
  { revert E1. unfold getNextSessionId. rewrite Hu, orElse_same, Hnone, Hlast.
    rewrite orElse_truthy_nonEmpty, Hparse. cbn. intros [= <- <-]. cbn.
    rewrite Hu, orElse_same. split; [done|]. apply lookup_insert_eq. }
  pose proof (mintSessionIds_counted k userId st1 (n + 1) Hc ltac:(lia)) as Hrest.
  destruct (mintSessionIds k userId st1) as [st2 ids]. cbn [snd] in *. subst ids.
  cbn [seq map]. f_equal.
  rewrite <- (List.seq_shift k 1), List.map_map. apply map_ext. intros i. f_equal. lia.
Qed.

(** The theorem at a login of [u1] with last Upstream id [18]. *)
Lemma X2_minted_ids_witness :
  plainKey (toStr (VStr "u1")) = true
  /\ Js.parseInt (toStr (orElse (VStr "18") (VNum 0))) = Some 18
  /\ safeInteger (18 + Z.of_nat 3) = true
  /\ snd (mintSessionIds 3 (VStr "u1")
            (fst (loginBookkeeping (VStr "u1") (VStr "18") None initialState)))
     = map (fun i => pretty (18 + Z.of_nat i)) (seq 1 3).
Proof.
  assert (plainKey (toStr (VStr "u1")) = true) as Hk by (vm_compute; reflexivity).
  assert (Js.parseInt (toStr (orElse (VStr "18") (VNum 0))) = Some 18) as H
    by (vm_compute; reflexivity).
  assert (safeInteger (18 + Z.of_nat 3) = true) as Hs by (vm_compute; reflexivity).
  split; [exact Hk|]. split; [exact H|]. split; [exact Hs|].
  apply (X2_minted_ids_count_up_from_last_id (VStr "u1") (VStr "18") None initialState 18 3
           Hk H); [lia | exact Hs].
Defined.

(** X3. When Upstream's login answer carries a safe integer [n] (below
    [2^53] in absolute value) as session id, the login reports
    [last_session_id = String(n)] and [next_session_id = String(n + 1)],
    and [parseInt] reads the stored last id back as [n]. *)
Theorem X3_numeric_last_id_round_trip :
  forall (userId : jsval) (files : option (list string)) (st : State) (n : Z),
    safeInteger n = true ->
    let info := snd (loginBookkeeping userId (VNum n) files st) in
    li_last_session_id info = pretty n
    /\ li_next_session_id info = pretty (n + 1)
    /\ Js.parseInt (li_last_session_id info) = Some n.
Proof.
  intros userId files st n _. cbn.
  assert (toStr (orElse (VNum n) (VNum 0)) = pretty n) as ->.
  { unfold orElse. cbn. by destruct (Z.eqb_spec n 0) as [->|]. }
  by rewrite parseInt_pretty.
Qed.

(** The theorem at a login whose answer carries the session id [18]. *)
Lemma X3_numeric_last_id_witness :
  safeInteger 18 = true
  /\ li_next_session_id (snd (loginBookkeeping (VStr "u1") (VNum 18) None initialState))
     = pretty (18 + 1).
Proof.
  assert (safeInteger 18 = true) as H by (vm_compute; reflexivity).
  split; [exact H|].
  exact (proj1 (proj2 (X3_numeric_last_id_round_trip (VStr "u1") None initialState 18 H))).
Defined.

(** ** Personalized files *)

(** X4. For a user id that names no member of [Object.prototype]: after
    [addPersonalizedFile(userId, filePath)] the file is in the list
    [getPersonalizedFiles(userId)] returns, every file listed before is
    still listed, a list without duplicates stays without duplicates, and
    adding the same file again changes nothing. *)
Theorem X4_addPersonalizedFile_lists_once :
  forall (userId : jsval) (filePath : string) (st : State),
    plainKey (toStr (orElse userId (getCurrentUserId st))) = true ->
    let st' := addPersonalizedFile userId filePath st in
    filePath ∈ getPersonalizedFiles userId st'
    /\ (forall g, g ∈ getPersonalizedFiles userId st -> g ∈ getPersonalizedFiles userId st')
    /\ (NoDup (getPersonalizedFiles userId st) -> NoDup (getPersonalizedFiles userId st'))
    /\ addPersonalizedFile userId filePath st' = st'.
Proof.
  intros userId filePath st _ st'. subst st'.
  unfold addPersonalizedFile, getPersonalizedFiles, getCurrentUserId.
  set (key := toStr (orElse userId (currentUserId st))).
  destruct (globalPersonalizedFiles st !! key) as [files|] eqn:E.
  - case_bool_decide as Hin.
    + cbn. fold key. rewrite E. cbn. rewrite bool_decide_eq_true_2 by done. done.
    + cbn. fold key. rewrite lookup_insert_eq. cbn.
      split; [set_solver|]. split; [set_solver|]. split.
      * intros Hnd. apply NoDup_app. split; [done|]. split; [|apply NoDup_singleton].
        intros x Hx Hx'. apply list_elem_of_singleton in Hx'. by subst x.
      * rewrite bool_decide_eq_true_2 by set_solver. done.
  - cbn. fold key. rewrite lookup_insert_eq. cbn.
    split; [set_solver|]. split; [set_solver|]. split; [intros _; apply NoDup_singleton|].
    rewrite bool_decide_eq_true_2 by set_solver. done.
Qed.

(** The theorem at a file added twice for [u1]. *)
Lemma X4_addPersonalizedFile_witness :
  plainKey (toStr (orElse (VStr "u1") (getCurrentUserId initialState))) = true
  /\ "notes.pdf" ∈ getPersonalizedFiles (VStr "u1")
                     (addPersonalizedFile (VStr "u1") "notes.pdf" initialState)
  /\ addPersonalizedFile (VStr "u1") "notes.pdf"
       (addPersonalizedFile (VStr "u1") "notes.pdf" initialState)
     = addPersonalizedFile (VStr "u1") "notes.pdf" initialState.
Proof.
  assert (plainKey (toStr (orElse (VStr "u1") (getCurrentUserId initialState))) = true) as Hk
    by (vm_compute; reflexivity).
  split; [exact Hk|].
  destruct (X4_addPersonalizedFile_lists_once (VStr "u1") "notes.pdf" initialState Hk)
    as (Hin & _ & _ & Hidem).
  split; [exact Hin | exact Hidem].
Defined.

(** X5. For a user id that names no member of [Object.prototype]: after
    [removePersonalizedFile(userId, filePath)] the file is not in the list
    of the user, every other file is listed exactly when it was listed
    before, and removing a file just added to a list that did not hold it
    gives the list back. *)
Theorem X5_removePersonalizedFile_removes_only_that_file :
  forall (userId : jsval) (filePath : string) (st : State),
    plainKey (toStr (orElse userId (getCurrentUserId st))) = true ->
    let st' := removePersonalizedFile userId filePath st in
    (filePath ∉ getPersonalizedFiles userId st')
    /\ (forall g, g <> filePath ->
          (g ∈ getPersonalizedFiles userId st' <-> g ∈ getPersonalizedFiles userId st))
    /\ (filePath ∉ getPersonalizedFiles userId st ->
        getPersonalizedFiles userId
          (removePersonalizedFile userId filePath (addPersonalizedFile userId filePath st))
        = getPersonalizedFiles userId st).
Proof.
  intros userId filePath st _ st'. subst st'.
  unfold removePersonalizedFile, addPersonalizedFile, getPersonalizedFiles, getCurrentUserId.
  set (key := toStr (orElse userId (currentUserId st))).
  destruct (globalPersonalizedFiles st !! key) as [files|] eqn:E.
  - cbn. fold key. rewrite lookup_insert_eq, ?E. cbn.
    split; [|split].
    + intros H. apply list_elem_of_In, filter_In in H as [_ H].
      by rewrite bool_decide_eq_true_2 in H.
    + intros g Hg. rewrite !list_elem_of_In, filter_In. rewrite bool_decide_eq_false_2 by done.
      split; [by intros [? _] | by intros ?].
    + intros Hnot. rewrite bool_decide_eq_false_2 by done. cbn. fold key.
      rewrite lookup_insert_eq. cbn. rewrite lookup_insert_eq. cbn.
      rewrite List.filter_app. cbn. rewrite bool_decide_eq_true_2 by done. cbn.
      rewrite app_nil_r. apply forallb_filter_id. apply forallb_forall. intros x Hx.
      apply negb_true_iff, bool_decide_eq_false. intros ->. by apply Hnot, list_elem_of_In.
  - cbn. fold key. rewrite E. cbn. split; [set_solver|]. split; [done|]. intros _.
    fold key. rewrite lookup_insert_eq. cbn. rewrite lookup_insert_eq. cbn.
    by rewrite bool_decide_eq_true_2.
Qed.

(** The theorem at a file of [u1] removed after a login that listed two. *)
Lemma X5_removePersonalizedFile_witness :
  plainKey
    (toStr (orElse (VStr "u1")
              (getCurrentUserId
                 (fst (loginBookkeeping (VStr "u1") (VStr "18")
                         (Some ["notes.pdf"; "plan.txt"]) initialState))))) = true
  /\ "notes.pdf" ∉
       getPersonalizedFiles (VStr "u1")
         (removePersonalizedFile (VStr "u1") "notes.pdf"
            (fst (loginBookkeeping (VStr "u1") (VStr "18")
                    (Some ["notes.pdf"; "plan.txt"]) initialState))).
Proof.
  assert (plainKey
            (toStr (orElse (VStr "u1")
                      (getCurrentUserId
                         (fst (loginBookkeeping (VStr "u1") (VStr "18")
                                 (Some ["notes.pdf"; "plan.txt"]) initialState))))) = true)
    as Hk by (vm_compute; reflexivity).
  split; [exact Hk|].
  exact (proj1 (X5_removePersonalizedFile_removes_only_that_file (VStr "u1") "notes.pdf"
                  (fst (loginBookkeeping (VStr "u1") (VStr "18")
                          (Some ["notes.pdf"; "plan.txt"]) initialState)) Hk)).
Defined.

(** X6. After the bookkeeping of a login with a (truthy) user id that
    names no member of [Object.prototype], that user is the current user,
    [getPersonalizedFiles] returns the files of Upstream's answer (none
    when the answer has no array) both for the user id and for a call
    without user id, and the lists stored under the other keys (that name
    no member of [Object.prototype] either) read as before. *)
Theorem X6_login_stores_personalized_files :
  forall (userId session_id : jsval) (files : option (list string)) (st : State),
    truthy userId = true ->
    plainKey (toStr userId) = true ->
    let st' := fst (loginBookkeeping userId session_id files st) in
    getCurrentUserId st' = userId
    /\ getPersonalizedFiles userId st' = default [] files
    /\ getPersonalizedFiles VUndef st' = default [] files
    /\ (forall v, plainKey (toStr v) = true -> toStr v <> toStr userId -> truthy v = true ->
          getPersonalizedFiles v st' = getPersonalizedFiles v st).
Proof.
  intros userId session_id files st Hu _ st'. subst st'.
  unfold loginBookkeeping, setForeignLastSessionId, setPersonalizedFiles, setCurrentUserId,
    getPersonalizedFiles, getCurrentUserId, orElse.
  cbn. rewrite Hu. cbn. rewrite ?Hu. rewrite lookup_insert_eq.
  split; [done|]. split; [done|]. split; [done|].
  intros v _ Hv Ht. rewrite Ht. by rewrite lookup_insert_ne.
Qed.

(** The theorem at a login of [u1] whose answer lists one file. *)
Lemma X6_login_files_witness :
  truthy (VStr "u1") = true
  /\ plainKey (toStr (VStr "u1")) = true
  /\ getPersonalizedFiles VUndef
       (fst (loginBookkeeping (VStr "u1") (VStr "18") (Some ["notes.pdf"]) initialState))
     = ["notes.pdf"].
Proof.
  assert (truthy (VStr "u1") = true) as H by reflexivity.
  assert (plainKey (toStr (VStr "u1")) = true) as Hk by (vm_compute; reflexivity).
  split; [exact H|]. split; [exact Hk|].
  exact (proj1 (proj2 (proj2
    (X6_login_stores_personalized_files (VStr "u1") (VStr "18") (Some ["notes.pdf"])
       initialState H Hk)))).
Defined.

(** ** Deleting sessions *)

Lemma dropPrefixed_lookup {V} (prefix k : string) (m : gmap string V) :
  dropPrefixed prefix m !! k = if Js.startsWith k prefix then None else m !! k.
Proof.
  unfold dropPrefixed. destruct (Js.startsWith k prefix) eqn:E.
  - apply map_lookup_filter_None_2. right. intros x _. cbn. by rewrite E.
  - destruct (m !! k) as [x|] eqn:Hk.
    + by apply map_lookup_filter_Some_2.
    + apply map_lookup_filter_None_2. by left.
Qed.

Lemma sessionKeyOf_prefixed (u sid : jsval) :
  Js.startsWith (sessionKeyOf u sid) (toStr u +:+ "_") = true.
Proof.
  apply startsWith_spec. exists (toStr sid). unfold sessionKeyOf. by rewrite app_assoc_s.
Qed.

(** X7. [clearUserSessionData(user_id)] leaves in the catalog exactly the
    sessions of other users, drops every transcript and every chat count
    whose key starts with [user_id + '_'] (so all the keys
    [user_id_sessionId] of the user), keeps the entries under all other
    keys, forgets the last Upstream id and the id counter of the user, and
    resets the current user only when it is [user_id]. *)
Theorem X7_clearUserSessionData_drops_the_keys_of_the_user :
  forall (user_id : jsval) (st : State),
    let st' := fst (clearUserSessionData user_id st) in
    (forall s, In s (globalSessionNames st') <-> In s (globalSessionNames st) /\ s_user_id s <> user_id)
    /\ (forall k, Js.startsWith k (toStr user_id +:+ "_") = true ->
          globalChatHistory st' !! k = None /\ sessionMessageCounts st' !! k = None)
    /\ (forall sid, globalChatHistory st' !! sessionKeyOf user_id sid = None
                    /\ sessionMessageCounts st' !! sessionKeyOf user_id sid = None)
    /\ (forall k, Js.startsWith k (toStr user_id +:+ "_") = false ->
          globalChatHistory st' !! k = globalChatHistory st !! k
          /\ sessionMessageCounts st' !! k = sessionMessageCounts st !! k)
    /\ foreignLastSessionIds st' !! toStr user_id = None
    /\ sessionCounters st' !! toStr user_id = None
    /\ currentUserId st' = (if strictEq (currentUserId st) user_id then VNull else currentUserId st).
Proof.
  intros user_id st st'.
  assert (globalSessionNames st'
          = List.filter (fun s => negb (strictEq (s_user_id s) user_id)) (globalSessionNames st)
          /\ globalChatHistory st' = dropPrefixed (toStr user_id +:+ "_") (globalChatHistory st)
          /\ sessionMessageCounts st'
             = dropPrefixed (toStr user_id +:+ "_") (sessionMessageCounts st)
          /\ foreignLastSessionIds st' = delete (toStr user_id) (foreignLastSessionIds st)
          /\ sessionCounters st' = delete (toStr user_id) (sessionCounters st)
          /\ currentUserId st'
             = (if strictEq (currentUserId st) user_id then VNull else currentUserId st))
    as (Hs & Hh & Hc & Hf & Hn & Hu).
  { subst st'. unfold clearUserSessionData. cbn.
    by destruct (strictEq (currentUserId st) user_id). }
  rewrite Hs, Hh, Hc, Hf, Hn, Hu. clear.
  assert (forall k, Js.startsWith k (toStr user_id +:+ "_") = true ->
            dropPrefixed (toStr user_id +:+ "_") (globalChatHistory st) !! k = None
            /\ dropPrefixed (toStr user_id +:+ "_") (sessionMessageCounts st) !! k = None) as Hgone.
  { intros k Hk. by rewrite !dropPrefixed_lookup, Hk. }
  split; [|split; [|split; [|split; [|split; [|split]]]]].
  - intros s. rewrite filter_In. unfold strictEq.
    split; intros [H1 H2]; (split; [done|]).
    + by apply negb_true_iff, bool_decide_eq_false in H2.
    + by apply negb_true_iff, bool_decide_eq_false.
  - exact Hgone.
  - intros sid. apply Hgone, sessionKeyOf_prefixed.
  - intros k Hk. by rewrite !dropPrefixed_lookup, Hk.
  - apply lookup_delete_eq.
  - apply lookup_delete_eq.
  - done.
Qed.

Lemma filter_length_lt {A} (f : A -> bool) (l : list A) (x : A) :
  In x l -> f x = false -> (length (List.filter f l) < length l)%nat.
Proof.
  induction l as [|y l IH]; [intros []|]. simpl. intros [->|Hin] Hx.
  - rewrite Hx. pose proof (List.filter_length_le f l). lia.
  - destruct (f y); simpl; [apply IH in Hin; [lia | done]|].
    pose proof (List.filter_length_le f l). lia.
Qed.

Lemma deleteSession_found (sessionId : string) (foreign : ForeignDelete) (st : State)
    (s0 : Session) :
  truthy (currentUserId st) = true -> Js.nonEmpty sessionId = true ->
  List.find (sameSession (currentUserId st) sessionId) (globalSessionNames st) = Some s0 ->
  let u := currentUserId st in
  let key := sessionKeyOf u (VStr sessionId) in
  let kept := List.filter (fun s => negb (sameSession u sessionId s)) (globalSessionNames st) in
  deleteSessionEndpoint sessionId foreign st =
  (with_counts (delete key (sessionMessageCounts st))
     (with_history (delete key (globalChatHistory st)) (with_sessions kept st)),
   DeleteDone sessionId u (Z.of_nat (length (globalSessionNames st)) - Z.of_nat (length kept))
     (match globalChatHistory st !! key with Some msgs => Z.of_nat (length msgs) | None => 0 end)
     (bool_decide (is_Some (sessionMessageCounts st !! key))) foreign).
Proof.
  intros Hu Hid Hfind u key kept.
  unfold deleteSessionEndpoint, getCurrentUserId. rewrite Hu, Hid. cbn [negb].
  by rewrite Hfind.
Qed.

(** X8. When the current user owns a catalog entry with the session id of
    the request, [DELETE /deletesession/:sessionId] answers with success
    and removes from the catalog exactly the entries of that user and id
    (at least one), the transcript and the chat count under that key,
    and nothing of the thinking or parser buffers, and the state it leaves is the
    same whatever Upstream's delete call gave (answer, error status or
    exception). *)
Theorem X8_deleteSession_cleans_up_whatever_Upstream_answers :
  forall (sessionId : string) (foreign : ForeignDelete) (st : State) (s0 : Session),
    truthy (currentUserId st) = true -> Js.nonEmpty sessionId = true ->
    In s0 (globalSessionNames st) -> s_user_id s0 = currentUserId st ->
    s_session_id s0 = VStr sessionId ->
    let u := currentUserId st in
    let key := sessionKeyOf u (VStr sessionId) in
    exists st' n m c,
      deleteSessionEndpoint sessionId foreign st
      = (st', DeleteDone sessionId u n m c foreign)
      /\ 1 <= n
      /\ (forall s, In s (globalSessionNames st') <->
                    In s (globalSessionNames st)
                    /\ ~ (s_user_id s = u /\ s_session_id s = VStr sessionId))
      /\ globalChatHistory st' = delete key (globalChatHistory st)
      /\ sessionMessageCounts st' = delete key (sessionMessageCounts st)
      /\ thinkingContentBuffer st' = thinkingContentBuffer st
      /\ tokenBuffers st' = tokenBuffers st
      /\ (forall other, fst (deleteSessionEndpoint sessionId other st) = st').
Proof.
  intros sessionId foreign st s0 Hu Hid Hin Hs0u Hs0 u key.
  assert (sameSession u sessionId s0 = true) as Hsame.
  { unfold sameSession, strictEq. rewrite Hs0u, Hs0. by rewrite !bool_decide_eq_true_2. }
  destruct (List.find (sameSession u sessionId) (globalSessionNames st)) as [s1|] eqn:Hfind.
  2:{ eapply List.find_none in Hfind; [|exact Hin]. congruence. }
  eexists _, _, _, _. split; [by apply (deleteSession_found sessionId foreign st s1)|]. cbn.
  split; [|split; [|split; [done|split; [done|split; [done|split; [done|]]]]]].
  - assert (negb (sameSession u sessionId s0) = false) as Hneg by (by rewrite Hsame).
    pose proof (filter_length_lt (fun s => negb (sameSession u sessionId s))
                  (globalSessionNames st) s0 Hin Hneg) as Hlt.
    fold u. lia.
  - intros s. rewrite filter_In. unfold sameSession, strictEq.
    rewrite negb_true_iff, andb_false_iff, !bool_decide_eq_false. fold u.
    split; intros [H1 H2]; (split; [done|]).
    + intros [? ?]. by destruct H2.
    + destruct (decide (s_user_id s = u)); [|by left]. right. intros ?. by apply H2.
  - intros other. by rewrite (deleteSession_found sessionId other st s1).
Qed.

(** The theorem at session [14] of the sample catalog, with Upstream's
    delete call timing out. *)
Lemma X8_deleteSession_witness :
  truthy (currentUserId tenSessions) = true
  /\ In (localSession "14") (globalSessionNames tenSessions)
  /\ exists st' n m c,
       deleteSessionEndpoint "14" (ForeignDeleteThrew "timeout") tenSessions
       = (st', DeleteDone "14" (currentUserId tenSessions) n m c (ForeignDeleteThrew "timeout"))
       /\ 1 <= n
       /\ globalChatHistory st'
          = delete (sessionKeyOf (currentUserId tenSessions) (VStr "14"))
              (globalChatHistory tenSessions).
Proof.
  assert (truthy (currentUserId tenSessions) = true) as Hu by reflexivity.
  assert (In (localSession "14") (globalSessionNames tenSessions)) as Hin
    by (left; reflexivity).
  split; [exact Hu|]. split; [exact Hin|].
  destruct (X8_deleteSession_cleans_up_whatever_Upstream_answers "14"
              (ForeignDeleteThrew "timeout") tenSessions (localSession "14")
              Hu eq_refl Hin eq_refl eq_refl)
    as (st' & n & m & c & Hret & Hn & _ & Hh & _).
  exists st', n, m, c. split; [exact Hret|]. split; [exact Hn | exact Hh].
Defined.

Lemma getNextSessionId_frame (userId : jsval) (st : State) :
  globalSessionNames (fst (getNextSessionId userId st)) = globalSessionNames st
  /\ currentUserId (fst (getNextSessionId userId st)) = currentUserId st
  /\ Js.nonEmpty (snd (getNextSessionId userId st)) = true.
Proof.
  unfold getNextSessionId. cbn. split; [done|]. split; [done|].
  match goal with |- context [match ?x with Some n => pretty n | None => _ end] => destruct x end;
    [apply pretty_nonEmpty | done].
Qed.

Lemma manageSessionWindow_below (userId : jsval) (st : State) :
  (length (List.filter (ofUser (orElse userId (currentUserId st))) (globalSessionNames st)) < 25)%nat ->
  exists r, manageSessionWindow userId st = Some (st, r).
Proof.
  intros Hn. unfold manageSessionWindow.
  destruct (_ =? 9); [by eexists|]. destruct (Z.leb_spec 25
    (Z.of_nat (length (List.filter (ofUser (orElse userId (currentUserId st)))
                         (globalSessionNames st))))); [lia | by eexists].
Qed.

(** X9. Creating a session through [POST /chatsession] for the current
    user and then deleting the id it returned gives the catalog back: the
    created session is at the head of the catalog under the returned id,
    the delete finds it and removes exactly one entry.  This holds below
    the window limit of 25 sessions and when the user holds no session
    under the minted id yet. *)
Theorem X9_created_session_can_be_deleted_again :
  forall (req : ChatSessionRequest) (now : Z) (foreign : ForeignDelete) (st : State),
    let u := currentUserId st in
    let id := snd (getNextSessionId u st) in
    truthy u = true ->
    (negb (truthy (cs_user_id req)) || strictEq (cs_user_id req) (VStr "default_user") = true
     \/ cs_user_id req = u) ->
    (length (List.filter (ofUser u) (globalSessionNames st)) < 25)%nat ->
    (forall s, In s (globalSessionNames st) -> ~ (s_user_id s = u /\ s_session_id s = VStr id)) ->
    exists title count wm st1 st2 m c,
      chatSessionEndpoint req now st = (st1, SessionCreated id u title count wm)
      /\ (exists s, head (globalSessionNames st1) = Some s
                    /\ s_session_id s = VStr id /\ s_user_id s = u /\ s_title s = title)
      /\ deleteSessionEndpoint id foreign st1 = (st2, DeleteDone id u 1 m c foreign)
      /\ globalSessionNames st2 = globalSessionNames st.
Proof.
  intros req now foreign st u id Hu Hreq Hn Hfresh.
  assert ((if negb (truthy (cs_user_id req)) || strictEq (cs_user_id req) (VStr "default_user")
           then currentUserId st else cs_user_id req) = u) as Huser.
  { destruct Hreq as [Hc | Hc]; rewrite Hc; [done|]. by destruct (_ || _). }
  destruct (manageSessionWindow_below u st) as [r Hw].
  { unfold orElse. fold u. by rewrite Hu. }
  destruct (getNextSessionId_frame u st) as (Hcat & Hcur & Hne). fold id in Hne.
  unfold chatSessionEndpoint. rewrite Huser, Hw.
  destruct (getNextSessionId u st) as [stn id'] eqn:En. cbn [fst snd] in *. subst id.
  match goal with
  | |- context [with_sessions (?n :: globalSessionNames stn) stn] =>
      set (new := n); set (st1 := with_sessions (new :: globalSessionNames stn) stn)
  end.
  assert (sameSession u id' new = true) as Hsame.
  { unfold sameSession, strictEq. cbn. by rewrite !bool_decide_eq_true_2. }
  assert (List.filter (fun s => negb (sameSession u id' s)) (globalSessionNames st1)
          = globalSessionNames st) as Hkeep.
  { cbn [st1 globalSessionNames with_sessions List.filter]. rewrite Hsame. cbn [negb].
    rewrite Hcat. apply forallb_filter_id, forallb_forall. intros s Hs.
    unfold sameSession, strictEq. apply negb_true_iff, andb_false_iff.
    destruct (decide (s_user_id s = u)) as [E1|E1]; [|left; by apply bool_decide_eq_false].
    right. apply bool_decide_eq_false. intros E2. by apply (Hfresh s Hs). }
  assert (currentUserId st1 = u) as Hcur1 by exact Hcur.
  assert (List.find (sameSession (currentUserId st1) id') (globalSessionNames st1) = Some new)
    as Hfind.
  { rewrite Hcur1. cbn [st1 globalSessionNames with_sessions List.find]. by rewrite Hsame. }
  assert (truthy (currentUserId st1) = true) as Hu1 by (by rewrite Hcur1).
  pose proof (deleteSession_found id' foreign st1 new Hu1 Hne Hfind) as Hdel.
  cbv zeta in Hdel. rewrite Hcur1, Hkeep in Hdel.
  assert (Z.of_nat (length (globalSessionNames st1)) - Z.of_nat (length (globalSessionNames st)) = 1)
    as Hone.
  { cbn [st1 globalSessionNames with_sessions length]. rewrite Hcat. lia. }
  rewrite Hone in Hdel.
  eexists _, _, _, st1, _, _, _.
  split; [reflexivity|]. split; [by exists new|]. split; [exact Hdel | reflexivity].
Qed.

(** The theorem at the sample catalog of ten sessions. *)
Lemma X9_create_then_delete_witness :
  truthy (currentUserId tenSessions) = true
  /\ (length (List.filter (ofUser (currentUserId tenSessions))
                (globalSessionNames tenSessions)) < 25)%nat
  /\ exists title count wm st1 st2 m c,
       chatSessionEndpoint {| cs_user_id := VStr "u1"; cs_title := "Plans" |}
         1700000000000 tenSessions
       = (st1, SessionCreated (snd (getNextSessionId (currentUserId tenSessions) tenSessions))
                 (currentUserId tenSessions) title count wm)
       /\ deleteSessionEndpoint (snd (getNextSessionId (currentUserId tenSessions) tenSessions))
            (ForeignDeleted "ok") st1
          = (st2, DeleteDone (snd (getNextSessionId (currentUserId tenSessions) tenSessions))
                    (currentUserId tenSessions) 1 m c (ForeignDeleted "ok"))
       /\ globalSessionNames st2 = globalSessionNames tenSessions.
Proof.
  assert (truthy (currentUserId tenSessions) = true) as Hu by reflexivity.
  assert (length (List.filter (ofUser (currentUserId tenSessions))
                    (globalSessionNames tenSessions)) < 25)%nat as Hlen
    by (vm_compute; lia).
  split; [exact Hu|]. split; [exact Hlen|].
  assert (forall s, In s (globalSessionNames tenSessions) ->
            ~ (s_user_id s = currentUserId tenSessions
               /\ s_session_id s
                  = VStr (snd (getNextSessionId (currentUserId tenSessions) tenSessions))))
    as Hfresh.
  { intros s Hin [_ Hid]. vm_compute in Hid. cbn in Hin.
    repeat (destruct Hin as [<-|Hin]; [discriminate Hid|]). exact Hin. }
  destruct (X9_created_session_can_be_deleted_again
              {| cs_user_id := VStr "u1"; cs_title := "Plans" |} 1700000000000
              (ForeignDeleted "ok") tenSessions Hu (or_intror eq_refl) Hlen Hfresh)
    as (title & count & wm & st1 & st2 & m & c & Hc & _ & Hd & Hs).
  exists title, count, wm, st1, st2, m, c. split; [exact Hc|]. split; [exact Hd | exact Hs].
Defined.

(** ** The session window *)

Lemma insertByKey_In {A} (key : A -> Z) (x y : A) (l : list A) :
  In y (insertByKey key x l) <-> y = x \/ In y l.
Proof.
  induction l as [|h t IH]; simpl; [intuition congruence|].
  destruct (key x <=? key h); simpl; [intuition congruence|]. rewrite IH. intuition congruence.
Qed.

Lemma sortByKey_In {A} (key : A -> Z) (y : A) (l : list A) :
  In y (sortByKey key l) <-> In y l.
Proof.
  unfold sortByKey. induction l as [|h t IH]; simpl; [done|].
  rewrite insertByKey_In, IH. intuition congruence.
Qed.

Lemma insertByKey_head {A} (key : A -> Z) (x : A) (l : list A) :
  (forall h t, l = h :: t -> forall y, In y l -> key h <= key y) ->
  forall h t, insertByKey key x l = h :: t ->
              forall y, In y (insertByKey key x l) -> key h <= key y.
Proof.
  intros Hl h t E y Hy. apply insertByKey_In in Hy.
  destruct l as [|h0 t0]; simpl in E.
  - injection E as <- <-. destruct Hy as [->|[]]. lia.
  - specialize (Hl h0 t0 eq_refl).
    destruct (Z.leb_spec (key x) (key h0)) as [Hle|Hgt]; injection E as <- <-.
    + destruct Hy as [->|Hy]; [lia|]. specialize (Hl y Hy). lia.
    + destruct Hy as [->|Hy]; [lia|]. by apply Hl.
Qed.

Lemma sortByKey_head {A} (key : A -> Z) (l : list A) (h : A) (t : list A) :
  sortByKey key l = h :: t -> In h l /\ forall y, In y l -> key h <= key y.
Proof.
  intros E. split.
  - apply (sortByKey_In key). rewrite E. by left.
  - intros y Hy. apply (sortByKey_In key) in Hy. revert h t E y Hy.
    induction l as [|x l IH]; [done|].
    change (sortByKey key (x :: l)) with (insertByKey key x (sortByKey key l)).
    apply insertByKey_head. exact IH.
Qed.

(** X10. Whenever [manageSessionWindow] evicts a session of a user whose
    session ids read as safe integers (below [2^53], where the comparator's
    doubles are exact), the user held at least 25 sessions, the evicted one
    is a session of the user whose numeric id is the smallest among the
    user's sessions, the catalog loses exactly the entries of the user
    with that id, and the transcript and chat count of that session are
    deleted. *)
Theorem X10_window_evicts_the_smallest_session_id :
  forall (userId : jsval) (st st' : State) (r : WindowResult) (old : Session),
    manageSessionWindow userId st = Some (st', r) -> deletedSession r = Some old ->
    (forall s b, In s (globalSessionNames st) ->
                 s_user_id s = orElse userId (currentUserId st) ->
                 sessionNum (s_session_id s) = Some b -> safeInteger b = true) ->
    let u := orElse userId (currentUserId st) in
    let key := sessionKeyOf u (s_session_id old) in
    (25 <= length (List.filter (ofUser u) (globalSessionNames st)))%nat
    /\ In old (globalSessionNames st) /\ s_user_id old = u
    /\ (forall s, In s (globalSessionNames st) -> s_user_id s = u ->
          exists a b, sessionNum (s_session_id old) = Some a
                      /\ sessionNum (s_session_id s) = Some b /\ a <= b)
    /\ (forall s, In s (globalSessionNames st') <->
                  In s (globalSessionNames st)
                  /\ ~ (s_user_id s = u /\ s_session_id s = s_session_id old))
    /\ globalChatHistory st' = delete key (globalChatHistory st)
    /\ sessionMessageCounts st' = delete key (sessionMessageCounts st)
    /\ (forall t, thinkingContentBuffer st' !! key = Some t -> t = EmptyString).
Proof.
  intros userId st st' r old Hw Hold _ u key. revert Hw.
  unfold manageSessionWindow. fold u.
  set (mine := List.filter (ofUser u) (globalSessionNames st)).
  destruct (Z.of_nat (length mine) =? 9); [intros [= <- <-]; discriminate Hold|].
  destruct (Z.leb_spec 25 (Z.of_nat (length mine))) as [Hn|Hn];
    [|intros [= <- <-]; discriminate Hold].
  destruct (forallb _ mine) eqn:Hall; [|done].
  set (num := fun s : Session => default 0 (sessionNum (s_session_id s))).
  destruct (sortByKey num mine) as [|oldest rest] eqn:Hsort; [done|].
  intros [= <- <-]. cbn in Hold. injection Hold as ->.
  destruct (sortByKey_head num mine old rest Hsort) as [Hin Hmin].
  apply filter_In in Hin as [Hin Hmine]. unfold ofUser, strictEq in Hmine.
  apply bool_decide_eq_true in Hmine.
  split; [lia|]. split; [done|]. split; [done|]. split; [|split; [|split; [|split]]].
  - intros s Hs Hus.
    assert (In s mine) as Hsm.
    { apply filter_In. split; [done|]. unfold ofUser, strictEq. by apply bool_decide_eq_true. }
    assert (forall x, In x mine -> exists a, sessionNum (s_session_id x) = Some a) as Hnum.
    { intros x Hx. rewrite forallb_forall in Hall. specialize (Hall x Hx).
      apply bool_decide_eq_true in Hall as [a Ha]. by exists a. }
    destruct (Hnum old) as [a Ha].
    { apply filter_In. split; [done|]. unfold ofUser, strictEq. by apply bool_decide_eq_true. }
    destruct (Hnum s Hsm) as [b Hb]. exists a, b. split; [done|]. split; [done|].
    pose proof (Hmin s Hsm) as Hle. unfold num in Hle. by rewrite Ha, Hb in Hle.
  - intros s.
    match goal with |- In s (globalSessionNames ?x) <-> _ =>
      assert (globalSessionNames x
              = List.filter (fun s => negb (strictEq (s_user_id s) u
                                            && strictEq (s_session_id s) (s_session_id old)))
                  (globalSessionNames st)) as ->
    end.
    { cbn. by destruct (thinkingContentBuffer st !! _) as [[|]|]. }
    rewrite filter_In. unfold strictEq.
    rewrite negb_true_iff, andb_false_iff, !bool_decide_eq_false.
    split; intros [H1 H2]; (split; [done|]).
    + intros [? ?]. by destruct H2.
    + destruct (decide (s_user_id s = u)); [|by left]. right. intros ?. by apply H2.
  - cbn. by destruct (thinkingContentBuffer st !! _) as [[|]|].
  - cbn. by destruct (thinkingContentBuffer st !! _) as [[|]|].
  - cbn. fold key. destruct (thinkingContentBuffer st !! key) as [[|c t0]|] eqn:E; cbn.
    + rewrite E. by intros t [= <-].
    + rewrite lookup_delete_eq. done.
    + rewrite E. done.
Qed.

(** The theorem at a catalog of 25 sessions of [u1]. *)
Lemma X10_window_eviction_witness :
  (forall s b, In s (globalSessionNames fullWindow) ->
               s_user_id s = orElse (VStr "u1") (currentUserId fullWindow) ->
               sessionNum (s_session_id s) = Some b -> safeInteger b = true)
  /\ exists st' w old,
    manageSessionWindow (VStr "u1") fullWindow = Some (st', w)
    /\ deletedSession w = Some old
    /\ In old (globalSessionNames fullWindow)
    /\ globalChatHistory st'
       = delete (sessionKeyOf (orElse (VStr "u1") (currentUserId fullWindow)) (s_session_id old))
           (globalChatHistory fullWindow).
Proof.
  assert (forall s b, In s (globalSessionNames fullWindow) ->
                      s_user_id s = orElse (VStr "u1") (currentUserId fullWindow) ->
                      sessionNum (s_session_id s) = Some b -> safeInteger b = true) as Hsafe.
  { assert (forallb (fun s => match sessionNum (s_session_id s) with
                              | Some b => safeInteger b
                              | None => true
                              end) (globalSessionNames fullWindow) = true) as Hall
      by (vm_compute; reflexivity).
    intros s b Hin _ Hb. rewrite forallb_forall in Hall. specialize (Hall s Hin).
    by rewrite Hb in Hall. }
  split; [exact Hsafe|].
  destruct (manageSessionWindow (VStr "u1") fullWindow) as [[st' w]|] eqn:E;
    [|vm_compute in E; discriminate E].
  destruct (deletedSession w) as [old|] eqn:Eo;
    [|exfalso; vm_compute in E; injection E as _ Ew; rewrite <- Ew in Eo; discriminate Eo].
  destruct (X10_window_evicts_the_smallest_session_id (VStr "u1") fullWindow st' w old E Eo
              Hsafe)
    as (_ & Hin & _ & _ & _ & Hh & _).
  exists st', w, old. split; [reflexivity|]. split; [exact Eo|]. split; [exact Hin | exact Hh].
Defined.

(** ** Stop: events, frame and scrub *)

(** What the consumer cleanup of a stop may change: the consumer slot, the
    transcripts, the stream table and the parser buffers; nothing else. *)
Lemma forceCleanup_frame (userId sessionId chatId : jsval) (cancel : CancelOutcome)
    (st : State) :
  let st' := fst (forceCleanupConsumerForSession userId sessionId chatId cancel st) in
  globalSessionNames st' = globalSessionNames st
  /\ sessionMessageCounts st' = sessionMessageCounts st
  /\ sessionCounters st' = sessionCounters st
  /\ foreignLastSessionIds st' = foreignLastSessionIds st
  /\ currentUserId st' = currentUserId st
  /\ thinkingContentBuffer st' = thinkingContentBuffer st
  /\ globalPersonalizedFiles st' = globalPersonalizedFiles st
  /\ emitted st' = emitted st.
Proof.
  unfold forceCleanupConsumerForSession.
  destruct (globalActiveConsumer st); [|done].
  destruct (_ || _); [|done]. destruct cancel; [|done].
  unfold cleanupTokenBuffer, removeIncompleteChatFromHistory. cbn.
  destruct (truthy chatId); [destruct (globalChatHistory st !! _)|];
    cbn; destruct (tokenBuffers st !! _); done.
Qed.

(** X11. A [POST /stop] that names a session appends to the push channel,
    for the room of the chat and with the ids of the request: nothing when
    Upstream answers an error status; a [complete] with zero tokens
    followed by the [cleanup_generation] hint, worded as a stop by the
    user, when Upstream answers ok with a JSON body; the same pair worded
    as a stop after a timeout when the call fails or the body does not
    parse; and both pairs, four events, when the ok answer has the body
    [null], since reading [data.status] throws after the first cleanup.
    It answers 500 in the first case and 200 with [cleanup_completed] in
    the others, with status [timeout_cleanup] on a [null] body. *)
Theorem X11_stop_emits_completion_and_cleanup_hint :
  forall (req : StopRequest) (reply : UpstreamReply) (cancel : CancelOutcome) (now : Z)
         (st : State),
    truthy (stop_session_id req) = true ->
    let userId := orElse (stop_user_id req) (currentUserId st) in
    let byUser :=
      stopEvents userId req now "Generation stopped by user" "user_stopped" "stop_requested" in
    let byTimeout :=
      stopEvents userId req now "Generation stopped (server timeout)" "timeout_stopped"
        "stop_timeout" in
    let '(st', resp) := stopEndpoint req reply cancel now st in
    emitted st' =
    emitted st ++
    match reply with
    | ReplyOk _ _ => byUser
    | ReplyOkNull _ => byUser ++ byTimeout
    | ReplyNotOk _ => []
    | ReplyOkUnparsable | ReplyThrows => byTimeout
    end
    /\ http_code resp = match reply with ReplyNotOk _ => 500 | _ => 200 end
    /\ success resp = match reply with ReplyNotOk _ => false | _ => true end
    /\ cleanup_completed resp = match reply with ReplyNotOk _ => false | _ => true end
    /\ (forall retry, reply = ReplyOkNull retry -> r_status resp = Some "timeout_cleanup").
Proof.
  intros req reply cancel now st Hs userId byUser byTimeout.
  assert (forall outcome text ctype reason st0,
            emitted (stopCleanup userId req outcome now text ctype reason st0)
            = emitted st0 ++ stopEvents userId req now text ctype reason) as Hemit.
  { intros outcome text ctype reason st0.
    unfold stopCleanup, stopEvents, emit, emission. cbn [emitted with_emitted].
    destruct (forceCleanup_frame userId (stop_session_id req) (stop_chat_id req) outcome st0)
      as (_ & _ & _ & _ & _ & _ & _ & ->).
    by rewrite <- app_assoc. }
  unfold stopEndpoint. fold userId. rewrite Hs.
  destruct reply as [status message|retry| |code|]; cbn [fst snd]; rewrite ?Hemit;
    rewrite <- ?app_assoc, ?app_nil_r;
    (do 4 (split; [reflexivity|])); first [by intros ? [=] | reflexivity].
Qed.

(** The theorem at a stop of the sample chat that Upstream answers with
    the body [null]: four events. *)
Lemma X11_stop_emissions_witness :
  truthy (stop_session_id sampleStop) = true
  /\ length
       (emitted (fst (stopEndpoint sampleStop (ReplyOkNull (CancelReturns true))
                        (CancelReturns true) 1700000000500 (fst sampleStart)))) = 4%nat
  /\ let '(st', resp) :=
       stopEndpoint sampleStop (ReplyOkNull (CancelReturns true)) (CancelReturns true)
         1700000000500 (fst sampleStart) in
     emitted st' =
     emitted (fst sampleStart) ++
     (stopEvents (orElse (stop_user_id sampleStop) (currentUserId (fst sampleStart)))
        sampleStop 1700000000500 "Generation stopped by user" "user_stopped" "stop_requested"
      ++ stopEvents (orElse (stop_user_id sampleStop) (currentUserId (fst sampleStart)))
           sampleStop 1700000000500 "Generation stopped (server timeout)" "timeout_stopped"
           "stop_timeout")
     /\ http_code resp = 200
     /\ success resp = true
     /\ cleanup_completed resp = true
     /\ (forall retry, ReplyOkNull (CancelReturns true) = ReplyOkNull retry ->
           r_status resp = Some "timeout_cleanup").
Proof.
  assert (truthy (stop_session_id sampleStop) = true) as H by reflexivity.
  split; [exact H|]. split; [vm_compute; reflexivity|].
  exact (X11_stop_emits_completion_and_cleanup_hint sampleStop
           (ReplyOkNull (CancelReturns true)) (CancelReturns true) 1700000000500
           (fst sampleStart) H).
Defined.

(** X12. [POST /stop] never touches the session catalog, the chat counts,
    the id counters, the last Upstream ids, the current user, the thinking
    buffer or the personalized files, whatever the request, Upstream's
    answer and the outcome of cancelling the consumer. *)
Theorem X12_stop_leaves_catalog_and_counters_alone :
  forall (req : StopRequest) (reply : UpstreamReply) (cancel : CancelOutcome) (now : Z)
         (st : State),
    let st' := fst (stopEndpoint req reply cancel now st) in
    globalSessionNames st' = globalSessionNames st
    /\ sessionMessageCounts st' = sessionMessageCounts st
    /\ sessionCounters st' = sessionCounters st
    /\ foreignLastSessionIds st' = foreignLastSessionIds st
    /\ currentUserId st' = currentUserId st
    /\ thinkingContentBuffer st' = thinkingContentBuffer st
    /\ globalPersonalizedFiles st' = globalPersonalizedFiles st.
Proof.
  intros req reply cancel now st.
  assert (forall outcome text ctype reason st0,
            let st1 := stopCleanup (orElse (stop_user_id req) (currentUserId st)) req outcome
                         now text ctype reason st0 in
            globalSessionNames st1 = globalSessionNames st0
            /\ sessionMessageCounts st1 = sessionMessageCounts st0
            /\ sessionCounters st1 = sessionCounters st0
            /\ foreignLastSessionIds st1 = foreignLastSessionIds st0
            /\ currentUserId st1 = currentUserId st0
            /\ thinkingContentBuffer st1 = thinkingContentBuffer st0
            /\ globalPersonalizedFiles st1 = globalPersonalizedFiles st0) as Hc.
  { intros outcome text ctype reason st0. unfold stopCleanup, emit. cbn.
    destruct (forceCleanup_frame (orElse (stop_user_id req) (currentUserId st))
                (stop_session_id req) (stop_chat_id req) outcome st0)
      as (H1 & H2 & H3 & H4 & H5 & H6 & H7 & _). done. }
  unfold stopEndpoint.
  destruct reply as [status message|retry| |code|]; cbn [fst];
    destruct (truthy (stop_session_id req)); try done; try apply Hc.
  set (st0 := stopCleanup _ req cancel now "Generation stopped by user" _ _ st).
  destruct (Hc cancel "Generation stopped by user" "user_stopped" "stop_requested" st)
    as (H1 & H2 & H3 & H4 & H5 & H6 & H7). fold st0 in H1, H2, H3, H4, H5, H6, H7.
  destruct (Hc retry "Generation stopped (server timeout)" "timeout_stopped" "stop_timeout"
              st0) as (G1 & G2 & G3 & G4 & G5 & G6 & G7).
  rewrite G1, G2, G3, G4, G5, G6, G7. done.
Qed.

Lemma removeIncomplete_frame (userId sessionId chatId : jsval) (st : State) :
  let st' := removeIncompleteChatFromHistory userId sessionId chatId st in
  globalActiveConsumer st' = globalActiveConsumer st
  /\ globalStreamingSessions st' = globalStreamingSessions st
  /\ tokenBuffers st' = tokenBuffers st
  /\ (forall k, k <> sessionKeyOf userId sessionId ->
        globalChatHistory st' !! k = globalChatHistory st !! k).
Proof.
  unfold removeIncompleteChatFromHistory.
  destruct (globalChatHistory st !! sessionKeyOf userId sessionId); cbn; [|done].
  repeat split. intros k Hk. by rewrite lookup_insert_ne.
Qed.

(** X13. When [forceCleanupConsumerForSession] returns [true], the cancel
    did not throw, the consumer slot is empty, the stream entry and the
    parser buffer of the session are gone, the transcripts of other
    sessions are untouched, and a second call finds nothing to cancel
    (returns [false] and changes nothing). *)
Theorem X13_cancelled_consumer_releases_the_stream_state :
  forall (userId sessionId chatId : jsval) (cancel : CancelOutcome) (st st' : State),
    forceCleanupConsumerForSession userId sessionId chatId cancel st = (st', true) ->
    let key := sessionKeyOf userId sessionId in
    globalActiveConsumer st' = None
    /\ globalStreamingSessions st' = delete key (globalStreamingSessions st)
    /\ tokenBuffers st' = delete key (tokenBuffers st)
    /\ (forall k, k <> key -> globalChatHistory st' !! k = globalChatHistory st !! k)
    /\ cancel <> CancelThrows
    /\ forceCleanupConsumerForSession userId sessionId chatId cancel st' = (st', false).
Proof.
  intros userId sessionId chatId cancel st st' H key. revert H.
  unfold forceCleanupConsumerForSession at 1.
  destruct (globalActiveConsumer st) as [c|]; [|intros [=]].
  destruct (_ || _); [|intros [=]]. destruct cancel as [b|]; [|intros [=]].
  fold key. intros [= <-].
  set (st1 := with_activeConsumer None st).
  set (st2 := if truthy chatId then removeIncompleteChatFromHistory userId sessionId chatId st1
              else st1).
  assert (globalActiveConsumer st2 = None
          /\ globalStreamingSessions st2 = globalStreamingSessions st
          /\ tokenBuffers st2 = tokenBuffers st
          /\ (forall k, k <> key -> globalChatHistory st2 !! k = globalChatHistory st !! k))
    as (G1 & G2 & G3 & G4).
  { unfold st2. destruct (truthy chatId); [|done].
    destruct (removeIncomplete_frame userId sessionId chatId st1) as (F1 & F2 & F3 & F4).
    cbv zeta in *. rewrite F1, F2, F3. done. }
  set (st3 := with_streamingSessions (delete key (globalStreamingSessions st2)) st2).
  assert (globalActiveConsumer (cleanupTokenBuffer key st3) = globalActiveConsumer st3
          /\ globalStreamingSessions (cleanupTokenBuffer key st3) = globalStreamingSessions st3
          /\ tokenBuffers (cleanupTokenBuffer key st3) = delete key (tokenBuffers st3)
          /\ globalChatHistory (cleanupTokenBuffer key st3) = globalChatHistory st3)
    as (H1 & H2 & H3 & H4).
  { unfold cleanupTokenBuffer.
    destruct (tokenBuffers st3 !! key) eqn:E; cbn; [done|].
    by rewrite (delete_id (tokenBuffers st2)) by exact E. }
  split; [|split; [|split; [|split; [|split]]]].
  - by rewrite H1.
  - rewrite H2. cbn. by rewrite G2.
  - rewrite H3. cbn. by rewrite G3.
  - intros k Hk. rewrite H4. cbn. by apply G4.
  - done.
  - unfold forceCleanupConsumerForSession. rewrite H1. cbn. by rewrite G1.
Qed.

(** The theorem at the chat whose consumer tag contains [u1_19]. *)
Lemma X13_cancelled_consumer_witness :
  forceCleanupConsumerForSession (VStr "u1") (VStr "19") (VStr "1") (CancelReturns true)
    resubmittedChat
  = (fst (forceCleanupConsumerForSession (VStr "u1") (VStr "19") (VStr "1")
            (CancelReturns true) resubmittedChat), true)
  /\ globalActiveConsumer
       (fst (forceCleanupConsumerForSession (VStr "u1") (VStr "19") (VStr "1")
               (CancelReturns true) resubmittedChat)) = None.
Proof.
  assert (forceCleanupConsumerForSession (VStr "u1") (VStr "19") (VStr "1")
            (CancelReturns true) resubmittedChat
          = (fst (forceCleanupConsumerForSession (VStr "u1") (VStr "19") (VStr "1")
                    (CancelReturns true) resubmittedChat), true)) as H
    by (vm_compute; reflexivity).
  split; [exact H|].
  exact (proj1 (X13_cancelled_consumer_releases_the_stream_state (VStr "u1") (VStr "19")
                  (VStr "1") (CancelReturns true) resubmittedChat _ H)).
Defined.

Lemma filter_twice {A} (f : A -> bool) (l : list A) : List.filter f (List.filter f l) = List.filter f l.
Proof.
  apply forallb_filter_id, forallb_forall. intros x Hx. by apply filter_In in Hx as [_ ?].
Qed.

(** X14. [removeIncompleteChatFromHistory] keeps in the transcript of the
    session exactly the messages that belong to another chat or are
    complete, leaves the transcripts under other keys alone, and applying
    it twice is the same as applying it once. *)
Theorem X14_scrub_keeps_finished_messages_and_other_chats :
  forall (userId sessionId chatId : jsval) (st : State),
    let key := sessionKeyOf userId sessionId in
    let st' := removeIncompleteChatFromHistory userId sessionId chatId st in
    (forall m, In m (default [] (globalChatHistory st' !! key)) <->
               In m (default [] (globalChatHistory st !! key))
               /\ (chat_id m <> chatId \/ isComplete m = true))
    /\ (forall k, k <> key -> globalChatHistory st' !! k = globalChatHistory st !! k)
    /\ removeIncompleteChatFromHistory userId sessionId chatId st' = st'.
Proof.
  intros userId sessionId chatId st key st'. subst st'.
  unfold removeIncompleteChatFromHistory. fold key.
  destruct (globalChatHistory st !! key) as [msgs|] eqn:E.
  - cbn. rewrite lookup_insert_eq. cbn. split; [|split].
    + intros m. rewrite filter_In. unfold shouldRemove, strictEq.
      rewrite negb_true_iff, andb_false_iff, bool_decide_eq_false.
      split; intros [H1 H2]; (split; [done|]).
      * destruct H2 as [H2|H2]; [by left|]. right. by destruct (isComplete m).
      * destruct H2 as [H2|H2]; [by left|]. right. by rewrite H2.
    + intros k Hk. by rewrite lookup_insert_ne.
    + by rewrite filter_twice, insert_insert_eq.
  - rewrite E. cbn. split; [|split]; [|done|done].
    intros m. split; [intros [] | intros [[] _]].
Qed.

(** ** The transcript of a socket chat *)

(** X15. Once the callback of a socket chat has handled a completion
    signal for its chat, the chat is marked complete and every message the
    Bus delivers afterwards is dropped: the state and the context are those
    left by the completion signal. *)
Theorem X15_nothing_is_processed_after_the_completion_signal :
  forall (fin : BusMessage) (now : Z) (rest : list (Z * BusMessage)) (ctx : ChatCtx)
         (st : State),
    isStreamingComplete ctx = false -> endsChat ctx fin = true ->
    isStreamingComplete (snd (onChatMessage fin now ctx st)) = true
    /\ deliver ((now, fin) :: rest) ctx st = onChatMessage fin now ctx st.
Proof.
  intros fin now rest ctx st Hrun Hfin.
  unfold endsChat in Hfin. apply andb_true_iff in Hfin as [Hpass Hdone].
  apply negb_true_iff in Hpass.
  assert (forall msgs c s, isStreamingComplete c = true -> deliver msgs c s = (s, c)) as Hidle.
  { induction msgs as [|[t m] msgs IH]; intros c s Hc; [done|].
    cbn [deliver]. unfold onChatMessage. rewrite Hc. by apply IH. }
  cbn [deliver].
  destruct (onChatMessage fin now ctx st) as [st1 ctx1] eqn:E.
  assert (isStreamingComplete ctx1 = true) as Hc.
  { revert E. unfold onChatMessage. rewrite Hrun, Hpass, Hdone. by intros [= <- <-]. }
  split; [exact Hc | by apply Hidle].
Qed.

(** The theorem at the sample chat: a token that arrives after the
    completion signal. *)
Lemma X15_after_completion_witness :
  isStreamingComplete (snd sampleStart) = false
  /\ endsChat (snd sampleStart) doneMessage = true
  /\ deliver [(1700000000002, doneMessage);
              (1700000000003, tokenMessage "late" (VStr "1"))]
       (snd sampleStart) (fst sampleStart)
     = onChatMessage doneMessage 1700000000002 (snd sampleStart) (fst sampleStart).
Proof.
  assert (isStreamingComplete (snd sampleStart) = false) as H1 by reflexivity.
  assert (endsChat (snd sampleStart) doneMessage = true) as H2 by (vm_compute; reflexivity).
  split; [exact H1|]. split; [exact H2|].
  exact (proj2 (X15_nothing_is_processed_after_the_completion_signal doneMessage 1700000000002
                  [(1700000000003, tokenMessage "late" (VStr "1"))]
                  (snd sampleStart) (fst sampleStart) H1 H2)).
Defined.

Lemma streamText_writing (text : string) (isToken : bool) (now count : Z) (ctx : ChatCtx)
    (st : State) (old : list Message) (acc : string) (n : Z) :
  let key := sessionKeyOf (finalUserId ctx) (finalSessionId ctx) in
  (writing key (finalChatId ctx) old acc n st
   \/ (default [] (globalChatHistory st !! key) = old /\ settled old = true
       /\ acc = EmptyString /\ n = 0)) ->
  writing key (finalChatId ctx) old (acc +:+ text) (n + 1)
    (streamText text isToken now count ctx st).
Proof.
  intros key Hstart. unfold streamText. fold key.
  set (st1 := with_history _ st).
  assert (writing key (finalChatId ctx) old (acc +:+ text) (n + 1) st1) as H1.
  { subst st1. unfold writing. cbn [globalChatHistory with_history]. rewrite lookup_insert_eq.
    destruct Hstart as [(m & Hh & Hr & Hc & Ha & Hn & Hid)|(Hold & Hs & -> & ->)].
    - rewrite Hh. cbn [from_option id]. unfold appendResponse.
      rewrite last_snoc, Hr, Hc. cbn [andb negb]. rewrite bool_decide_eq_true_2 by done.
      rewrite List.removelast_last. eexists. split; [reflexivity|]. cbn.
      by rewrite Ha, Hn.
    - rewrite Hold. unfold appendResponse. unfold settled in Hs.
      destruct (last old) as [lastMessage|].
      + apply negb_true_iff in Hs. rewrite Hs. eexists. split; [reflexivity|]. done.
      + eexists. split; [reflexivity|]. done. }
  match goal with
  | |- context [if ?c then noteSession ctx now st1 else st1] =>
      set (st2 := if c then noteSession ctx now st1 else st1)
  end.
  assert (writing key (finalChatId ctx) old (acc +:+ text) (n + 1) st2) as H2.
  { destruct H1 as (m & Hm). exists m. subst st2.
    match goal with |- context [if ?c then _ else _] => destruct c end;
      by rewrite ?noteSession_history. }
  pose proof (processToken_writing text key (streamModelId key st2) (roomId ctx)
                (finalChatId ctx) (finalChatId ctx) (finalSessionId ctx) now old
                (acc +:+ text) (n + 1) st2 H2) as H3.
  destruct (processTokenStreamThinking text key (streamModelId key st2) (roomId ctx)
              (finalChatId ctx) (finalSessionId ctx) now st2) as [st3 processedToken].
  cbn [fst] in H3. destruct (nonBlank processedToken); [|done].
  destruct H3 as (m & Hm). by exists m.
Qed.

Lemma carriesText_progress (ctx : ChatCtx) (b : bool) (c : Z) (m : BusMessage) :
  carriesText (with_progress b c ctx) m = carriesText ctx m.
Proof. reflexivity. Qed.

Lemma onChatMessage_text (m : BusMessage) (now : Z) (ctx : ChatCtx) (st : State) :
  isStreamingComplete ctx = false -> carriesText ctx m = true ->
  onChatMessage m now ctx st =
  (streamText (responseContentOf m) (isTokenMessage m) now (messageCount ctx + 1) ctx st,
   with_progress false (messageCount ctx + 1) ctx).
Proof.
  intros Hrun Hm. unfold carriesText in Hm.
  apply andb_true_iff in Hm as [Hm Hne]. apply andb_true_iff in Hm as [Hpass Hnot].
  apply negb_true_iff in Hpass, Hnot.
  unfold onChatMessage. by rewrite Hrun, Hpass, Hnot, Hne.
Qed.

Lemma deliver_writing (msgs : list (Z * BusMessage)) (ctx : ChatCtx) (st : State)
    (old : list Message) (acc : string) (n : Z) :
  let key := sessionKeyOf (finalUserId ctx) (finalSessionId ctx) in
  isStreamingComplete ctx = false ->
  forallb (fun p => carriesText ctx p.2) msgs = true ->
  writing key (finalChatId ctx) old acc n st ->
  writing key (finalChatId ctx) old (acc +:+ concatAll (textsOf msgs))
    (n + Z.of_nat (length msgs)) (fst (deliver msgs ctx st))
  /\ snd (deliver msgs ctx st)
     = with_progress false (messageCount ctx + Z.of_nat (length msgs)) ctx.
Proof.
  intros key. revert ctx st acc n key.
  induction msgs as [|[t m] msgs IH]; intros ctx st acc n key Hrun Hall Hw.
  - cbn. rewrite app_empty_r, !Z.add_0_r. split; [done|]. destruct ctx; cbn in *. by subst.
  - cbn [forallb] in Hall. apply andb_true_iff in Hall as [Hm Hall]. cbn [snd] in Hm.
    cbn [deliver]. rewrite onChatMessage_text by done.
    pose proof (streamText_writing (responseContentOf m) (isTokenMessage m) t
                  (messageCount ctx + 1) ctx st old acc n (or_introl Hw)) as H1.
    destruct (IH (with_progress false (messageCount ctx + 1) ctx)
                (streamText (responseContentOf m) (isTokenMessage m) t (messageCount ctx + 1)
                   ctx st)
                (acc +:+ responseContentOf m) (n + 1) eq_refl Hall H1) as [IH1 IH2]. cbn [textsOf map concatAll length snd].
    rewrite <- app_assoc_s. split.
    + replace (n + Z.of_nat (S (length msgs))) with (n + 1 + Z.of_nat (length msgs)) by lia.
      exact IH1.
    + rewrite IH2. unfold with_progress. cbn. f_equal. lia.
Qed.

Lemma deliver_first_text (msgs : list (Z * BusMessage)) (ctx : ChatCtx) (st : State) :
  let key := sessionKeyOf (finalUserId ctx) (finalSessionId ctx) in
  let old := default [] (globalChatHistory st !! key) in
  isStreamingComplete ctx = false ->
  forallb (fun p => carriesText ctx p.2) msgs = true -> msgs <> [] ->
  settled old = true ->
  writing key (finalChatId ctx) old (concatAll (textsOf msgs)) (Z.of_nat (length msgs))
    (fst (deliver msgs ctx st))
  /\ snd (deliver msgs ctx st)
     = with_progress false (messageCount ctx + Z.of_nat (length msgs)) ctx.
Proof.
  intros key old Hrun Hall Hne Hold.
  destruct msgs as [|[t m] msgs]; [done|].
  cbn [forallb] in Hall. apply andb_true_iff in Hall as [Hm Hall]. cbn [snd] in Hm.
  cbn [deliver]. rewrite onChatMessage_text by done.
  pose proof (streamText_writing (responseContentOf m) (isTokenMessage m) t
                (messageCount ctx + 1) ctx st old EmptyString 0
                (or_intror (conj eq_refl (conj Hold (conj eq_refl eq_refl))))) as H1.
  destruct (deliver_writing msgs (with_progress false (messageCount ctx + 1) ctx)
              (streamText (responseContentOf m) (isTokenMessage m) t (messageCount ctx + 1)
                 ctx st)
              old (EmptyString +:+ responseContentOf m) (0 + 1) eq_refl Hall H1) as [H2 H3].
  cbn [textsOf map concatAll length snd]. split.
  - replace (Z.of_nat (S (length msgs))) with (0 + 1 + Z.of_nat (length msgs)) by lia.
    exact H2.
  - rewrite H3. unfold with_progress. cbn. f_equal. lia.
Qed.

(** X16. When the Bus delivers a non-empty sequence of messages that carry
    text for a running chat, and the transcript does not end with an
    assistant message still being written, the transcript grows by exactly
    one assistant message of the chat, not complete, whose content is the
    concatenation of the delivered texts in order and whose token count is
    the number of messages. *)
Theorem X16_transcript_collects_every_delivered_text :
  forall (msgs : list (Z * BusMessage)) (ctx : ChatCtx) (st : State),
    let key := sessionKeyOf (finalUserId ctx) (finalSessionId ctx) in
    let old := default [] (globalChatHistory st !! key) in
    isStreamingComplete ctx = false ->
    forallb (fun p => carriesText ctx p.2) msgs = true -> msgs <> [] ->
    settled old = true ->
    exists m,
      globalChatHistory (fst (deliver msgs ctx st)) !! key = Some (old ++ [m])
      /\ role m = assistant /\ isComplete m = false /\ chat_id m = finalChatId ctx
      /\ content m = concatAll (textsOf msgs)
      /\ token_count m = Z.of_nat (length msgs).
Proof.
  intros msgs ctx st key old Hrun Hall Hne Hold.
  destruct (deliver_first_text msgs ctx st Hrun Hall Hne Hold)
    as [(m & Hh & Hr & Hc & Ha & Hn & Hid) _].
  by exists m.
Qed.

(** The theorem at the sample chat receiving two pieces of an answer. *)
Lemma X16_transcript_witness :
  forallb (fun p => carriesText (snd sampleStart) p.2) twoPieces = true
  /\ exists m,
       globalChatHistory (fst (deliver twoPieces (snd sampleStart) (fst sampleStart)))
         !! sessionKeyOf (finalUserId (snd sampleStart)) (finalSessionId (snd sampleStart))
       = Some (default [] (globalChatHistory (fst sampleStart)
                             !! sessionKeyOf (finalUserId (snd sampleStart))
                                  (finalSessionId (snd sampleStart))) ++ [m])
       /\ content m = concatAll (textsOf twoPieces).
Proof.
  assert (forallb (fun p => carriesText (snd sampleStart) p.2) twoPieces = true) as H
    by (vm_compute; reflexivity).
  split; [exact H|].
  destruct (X16_transcript_collects_every_delivered_text twoPieces (snd sampleStart)
              (fst sampleStart) eq_refl H ltac:(discriminate) ltac:(vm_compute; reflexivity))
    as (m & Hm & _ & _ & _ & Hc & _).
  exists m. split; [exact Hm | exact Hc].
Defined.





(** X18. The [cleanupConsumer] of a socket chat does nothing on the paths
    that end the chat by themselves: after a completion signal, and after
    the safety timer has fired, the chat is already marked complete, so the
    consumer slot, the parser buffers and the stream table stay as they
    were and every later [cleanupConsumer()] returns without effect (the
    consumer of the chat is not released by it). *)
Theorem X18_chat_cleanup_never_runs_once_the_chat_is_marked_complete :
  forall (rabbitConsumer : option Consumer) (fin : BusMessage) (now later : Z)
         (ctx : ChatCtx) (st : State),
    isStreamingComplete ctx = false ->
    (endsChat ctx fin = true ->
     let '(st1, ctx1) := onChatMessage fin now ctx st in
     globalActiveConsumer st1 = globalActiveConsumer st
     /\ tokenBuffers st1 = tokenBuffers st
     /\ globalStreamingSessions st1 = globalStreamingSessions st
     /\ forall st2, cleanupConsumer rabbitConsumer ctx1 st2 = (st2, ctx1, rabbitConsumer))
    /\ (let '(st1, ctx1, rc1) := onSafetyTimeout rabbitConsumer later ctx st in
        globalActiveConsumer st1 = globalActiveConsumer st
        /\ tokenBuffers st1 = tokenBuffers st
        /\ globalStreamingSessions st1 = globalStreamingSessions st
        /\ rc1 = rabbitConsumer /\ isStreamingComplete ctx1 = true
        /\ forall st2, cleanupConsumer rabbitConsumer ctx1 st2 = (st2, ctx1, rabbitConsumer)).
Proof.
  intros rabbitConsumer fin now later ctx st Hrun. split.
  - intros Hfin. unfold endsChat in Hfin. apply andb_true_iff in Hfin as [Hpass Hdone].
    apply negb_true_iff in Hpass. unfold onChatMessage. rewrite Hrun, Hpass, Hdone.
    split; [|split; [|split]].
    + by destruct (globalChatHistory st !! _).
    + by destruct (globalChatHistory st !! _).
    + by destruct (globalChatHistory st !! _).
    + intros st2. unfold cleanupConsumer. by destruct rabbitConsumer.
  - unfold onSafetyTimeout. rewrite Hrun. unfold cleanupConsumer.
    destruct rabbitConsumer; cbn; repeat split.
Qed.

(** The theorem at the sample chat, when its safety timer fires. *)
Lemma X18_cleanup_guard_witness :
  isStreamingComplete (snd sampleStart) = false
  /\ let '(st1, ctx1, rc1) :=
       onSafetyTimeout (Some sampleConsumer) 1700000045000 (snd sampleStart) (fst sampleStart) in
     globalActiveConsumer st1 = globalActiveConsumer (fst sampleStart)
     /\ tokenBuffers st1 = tokenBuffers (fst sampleStart)
     /\ globalStreamingSessions st1 = globalStreamingSessions (fst sampleStart)
     /\ rc1 = Some sampleConsumer /\ isStreamingComplete ctx1 = true
     /\ forall st2, cleanupConsumer (Some sampleConsumer) ctx1 st2
                    = (st2, ctx1, Some sampleConsumer).
Proof.
  assert (isStreamingComplete (snd sampleStart) = false) as H by reflexivity.
  split; [exact H|].
  exact (proj2 (X18_chat_cleanup_never_runs_once_the_chat_is_marked_complete
                  (Some sampleConsumer) doneMessage 1700000000002 1700000045000
                  (snd sampleStart) (fst sampleStart) H)).
Defined.

Lemma noteSession_frame (ctx : ChatCtx) (now : Z) (st : State) :
  globalStreamingSessions (noteSession ctx now st) = globalStreamingSessions st
  /\ emitted (noteSession ctx now st) = emitted st
  /\ tokenBuffers (noteSession ctx now st) = tokenBuffers st.
Proof.
  unfold noteSession.
  match goal with |- context [match ?x with Some _ => _ | None => _ end] => destruct x end;
    done.
Qed.

Lemma currentBuffer_model (key : string) (modelId : jsval) (st : State) :
  model (currentBuffer key modelId st) = getModelNameFromId modelId.
Proof.
  unfold currentBuffer. case_bool_decide as E; [exact E|]. reflexivity.
Qed.

Lemma processToken_plain (token key : string) (modelId : jsval) (r : string)
    (chat sess : jsval) (now : Z) (st : State) :
  thinkingModel (getModelNameFromId modelId) = false ->
  snd (processTokenStreamThinking token key modelId r chat sess now st) = token
  /\ emitted (fst (processTokenStreamThinking token key modelId r chat sess now st))
     = emitted st
  /\ globalStreamingSessions
       (fst (processTokenStreamThinking token key modelId r chat sess now st))
     = globalStreamingSessions st.
Proof.
  intros Hplain. unfold processTokenStreamThinking.
  destruct (Js.nonEmpty token) eqn:Hne; cbn [negb].
  - unfold parseToken. cbn [model pushToken]. rewrite currentBuffer_model.
    unfold thinkingModel in Hplain.
    destruct (MODEL_TYPES (getModelNameFromId modelId)) as [cfg|].
    + rewrite Hplain. cbn. by rewrite app_nil_r.
    + cbn. by rewrite app_nil_r.
  - destruct token; [done | discriminate Hne].
Qed.

Lemma streamText_plain (text : string) (isToken : bool) (now count : Z) (ctx : ChatCtx)
    (st : State) :
  let key := sessionKeyOf (finalUserId ctx) (finalSessionId ctx) in
  thinkingModel (getModelNameFromId (streamModelId key st)) = false ->
  let st' := streamText text isToken now count ctx st in
  globalStreamingSessions st' = globalStreamingSessions st
  /\ emitted st' =
     emitted st ++
     (if nonBlank text
      then [emission (roomId ctx) now
              (Stream text (finalChatId ctx) (finalSessionId ctx) (finalInstanceId ctx)
                 None false (Some count))]
      else []).
Proof.
  intros key Hplain st'. subst st'. unfold streamText. fold key.
  set (st1 := with_history _ st).
  match goal with
  | |- context [if ?c then noteSession ctx now st1 else st1] =>
      set (st2 := if c then noteSession ctx now st1 else st1)
  end.
  assert (globalStreamingSessions st2 = globalStreamingSessions st
          /\ emitted st2 = emitted st) as [Hs2 He2].
  { subst st2. destruct (noteSession_frame ctx now st1) as (F1 & F2 & _).
    match goal with |- context [if ?c then _ else _] => destruct c end; [by rewrite F1, F2|done]. }
  assert (streamModelId key st2 = streamModelId key st) as Hm.
  { unfold streamModelId. by rewrite Hs2. }
  rewrite Hm.
  destruct (processToken_plain text key (streamModelId key st) (roomId ctx) (finalChatId ctx)
              (finalSessionId ctx) now st2 Hplain) as (Hret & Hemit & Hstream).
  destruct (processTokenStreamThinking text key (streamModelId key st) (roomId ctx)
              (finalChatId ctx) (finalSessionId ctx) now st2) as [st3 processedToken].
  cbn [fst snd] in *. subst processedToken.
  destruct (nonBlank text); cbn; rewrite ?Hemit, ?Hstream, ?He2, ?Hs2, ?app_nil_r; done.
Qed.

(** X19. For a chat whose model has no thinking support, the events
    emitted while the Bus delivers texts are all [stream] events on the
    room of the chat, and their contents are exactly the delivered texts
    that are not blank, in order. *)
Theorem X19_model_without_thinking_streams_the_non_blank_texts :
  forall (msgs : list (Z * BusMessage)) (ctx : ChatCtx) (st : State),
    let key := sessionKeyOf (finalUserId ctx) (finalSessionId ctx) in
    isStreamingComplete ctx = false ->
    forallb (fun p => carriesText ctx p.2) msgs = true ->
    thinkingModel (getModelNameFromId (streamModelId key st)) = false ->
    let st' := fst (deliver msgs ctx st) in
    exists new,
      emitted st' = emitted st ++ new
      /\ forallb isStream new = true
      /\ map room new = map (fun _ => roomId ctx) new
      /\ streamContents new = List.filter nonBlank (textsOf msgs).
Proof.
  intros msgs ctx st key. revert ctx st key.
  induction msgs as [|[t m] msgs IH]; intros ctx st key Hrun Hall Hplain st'; subst st'.
  - exists []. by rewrite app_nil_r.
  - cbn [forallb] in Hall. apply andb_true_iff in Hall as [Hm Hall]. cbn [snd] in Hm.
    cbn [deliver]. rewrite onChatMessage_text by done.
    destruct (streamText_plain (responseContentOf m) (isTokenMessage m) t
                (messageCount ctx + 1) ctx st Hplain) as [Hs He].
    fold key in Hs, He.
    set (st1 := streamText _ _ _ _ ctx st) in *.
    destruct (IH (with_progress false (messageCount ctx + 1) ctx) st1 eq_refl Hall)
      as (new & Hnew & Hall' & Hrooms & Hcont).
    { cbn [finalUserId finalSessionId with_progress]. fold key.
      unfold streamModelId in *. by rewrite Hs. }
    cbn [roomId with_progress] in Hrooms.
    rewrite Hnew, He. cbn [textsOf map List.filter snd].
    destruct (nonBlank (responseContentOf m)).
    + eexists (_ :: new). rewrite <- app_assoc. split; [reflexivity|].
      split; [exact Hall'|]. split; [cbn; by rewrite Hrooms|].
      unfold streamContents in *. cbn [omap list_omap emission payload]. by rewrite Hcont.
    + exists new. rewrite app_nil_r. done.
Qed.

(** The theorem at chat [2] of the sample session (model [1]), with a
    blank token between two texts. *)
Lemma X19_plain_model_witness :
  thinkingModel
    (getModelNameFromId
       (streamModelId (sessionKeyOf (finalUserId (snd secondChat)) (finalSessionId (snd secondChat)))
          (fst secondChat))) = false
  /\ exists new,
       emitted (fst (deliver [(1700000002001, tokenMessage "So" (VStr "2"));
                              (1700000002002, tokenMessage " " (VStr "2"));
                              (1700000002003, tokenMessage "on" (VStr "2"))]
                       (snd secondChat) (fst secondChat)))
       = emitted (fst secondChat) ++ new
       /\ streamContents new
          = List.filter nonBlank
              (textsOf [(1700000002001, tokenMessage "So" (VStr "2"));
                        (1700000002002, tokenMessage " " (VStr "2"));
                        (1700000002003, tokenMessage "on" (VStr "2"))]).
Proof.
  assert (thinkingModel
            (getModelNameFromId
               (streamModelId
                  (sessionKeyOf (finalUserId (snd secondChat)) (finalSessionId (snd secondChat)))
                  (fst secondChat))) = false) as H by (vm_compute; reflexivity).
  split; [exact H|].
  destruct (X19_model_without_thinking_streams_the_non_blank_texts
              [(1700000002001, tokenMessage "So" (VStr "2"));
               (1700000002002, tokenMessage " " (VStr "2"));
               (1700000002003, tokenMessage "on" (VStr "2"))]
              (snd secondChat) (fst secondChat) ltac:(vm_compute; reflexivity)
              ltac:(vm_compute; reflexivity) H)
    as (new & He & _ & _ & Hs).
  exists new. split; [exact He | exact Hs].
Defined.

(** ** Model names and session titles *)

Lemma toStr_truthy (v : jsval) : truthy v = true -> Js.nonEmpty (toStr v) = true.
Proof. destruct v as [| |n|s]; try done. intros _. apply pretty_nonEmpty. Qed.

Lemma lowerChar_not_V (c : ascii) : Js.lowerChar c <> "V"%char.
Proof. destruct c as [[] [] [] [] [] [] [] []]; vm_compute; discriminate. Qed.

Lemma toLowerCase_no_V (s pre post : string) :
  Js.toLowerCase s <> pre +:+ String "V" post.
Proof.
  revert s. induction pre as [|a pre IH]; intros [|c s]; sapp; simpl; try discriminate.
  - intros [= H _]. by apply lowerChar_not_V in H.
  - intros [= _ H]. by apply IH in H.
Qed.

(** X20. [getModelNameFromId] of the socket chat module is idempotent:
    applied to a name it returned it gives the same name.  And its mapping
    key ['Vission-LLM'] can never be the one that matches, since the id is
    lower-cased before the substring test. *)
Theorem X20_model_name_is_a_fixed_point :
  (forall modelId : jsval,
     getModelNameFromId (VStr (getModelNameFromId modelId)) = getModelNameFromId modelId)
  /\ (forall (modelId : jsval) (kv : string * string),
        List.find (fun kv => Js.includes (Js.toLowerCase (toStr modelId)) kv.1) modelMappings
        = Some kv ->
        kv.1 <> "Vission-LLM").
Proof.
  split.
  - intros modelId.
    remember (getModelNameFromId modelId) as name eqn:En.
    unfold getModelNameFromId in En.
    destruct (truthy modelId) eqn:Ht; cbn [negb] in En; [|by subst name].
    pose proof (toStr_truthy modelId Ht) as Hne.
    set (s := toStr modelId) in *.
    destruct (MODEL_TYPES s) as [cfg|] eqn:Hm.
    + subst name. unfold getModelNameFromId. cbn [truthy toStr negb]. by rewrite Hne, Hm.
    + destruct (List.find _ modelMappings) as [kv|] eqn:Hf.
      * subst name. apply List.find_some in Hf as [Hin _].
        repeat (destruct Hin as [<-|Hin]; [reflexivity|]). destruct Hin.
      * subst name. unfold getModelNameFromId. cbn [truthy toStr negb].
        by rewrite Hne, Hm, Hf.
  - intros modelId kv Hf E. apply List.find_some in Hf as [_ Hinc].
    rewrite E in Hinc. apply includes_spec in Hinc as (pre & post & H).
    by apply toLowerCase_no_V in H.
Qed.

Lemma length_app_s (a b : string) :
  String.length (a +:+ b) = (String.length a + String.length b)%nat.
Proof. induction a as [|c a IH]; sapp; simpl; [done | by rewrite IH]. Qed.

Lemma trimStart_length (s : string) : (String.length (Js.trimStart s) <= String.length s)%nat.
Proof. destruct (trimStart_suffix s) as [pre H]. rewrite H at 2. rewrite length_app_s. lia. Qed.

Lemma trimEnd_length (s : string) : (String.length (Js.trimEnd s) <= String.length s)%nat.
Proof. destruct (trimEnd_prefix s) as [post H]. rewrite H at 2. rewrite length_app_s. lia. Qed.

Lemma trim_length (s : string) : (String.length (Js.trim s) <= String.length s)%nat.
Proof.
  unfold Js.trim. pose proof (trimEnd_length (Js.trimStart s)). pose proof (trimStart_length s).
  lia.
Qed.

Lemma take_length_s (n : nat) (s : string) : (String.length (Js.take n s) <= n)%nat.
Proof. revert s. induction n as [|n IH]; intros [|c s]; simpl; try lia. specialize (IH s). lia. Qed.

Lemma substring_length (s : string) (a b : Z) :
  0 <= a -> a <= b -> Js.len (Js.substring s a b) <= b - a.
Proof.
  intros Ha Hb. unfold Js.substring, Js.len.
  pose proof (take_length_s (Nat.max (Js.clamp s a) (Js.clamp s b)
                             - Nat.min (Js.clamp s a) (Js.clamp s b))
                (Js.drop (Nat.min (Js.clamp s a) (Js.clamp s b)) s)) as H.
  unfold Js.clamp, Js.len in *. lia.
Qed.

(** X21. The title [generateSessionTitle] makes is never empty and has at
    most 53 characters; a prompt whose trimmed text has at most 50
    characters is its own title (trimmed), a longer one gives a piece of
    the prompt of at most 50 characters followed by ['...']. *)
Theorem X21_session_title_is_short_and_not_empty :
  forall firstMessage : string,
    let title := generateSessionTitle firstMessage in
    Js.nonEmpty title = true
    /\ Js.len title <= 53
    /\ (Js.nonEmpty (Js.trim firstMessage) = true -> Js.len (Js.trim firstMessage) <= 50 ->
        title = Js.trim firstMessage)
    /\ (50 < Js.len (Js.trim firstMessage) ->
        exists head, title = head +:+ "..." /\ occursIn head firstMessage /\ Js.len head <= 50).
Proof.
  intros firstMessage title. subst title. unfold generateSessionTitle.
  destruct (Js.nonEmpty firstMessage) eqn:H0; cbn [negb].
  2:{ destruct firstMessage; [|done]. cbn. repeat split; try done; try lia. }
  destruct (Js.nonEmpty (Js.trim firstMessage)) eqn:H1; cbn [negb].
  2:{ destruct (Js.trim firstMessage); [|done]. cbn. repeat split; try done; try lia. }
  set (trimmed := Js.trim firstMessage) in *.
  assert (Js.len (Js.trim (Js.substring trimmed 0 50)) <= 50) as Hhead.
  { pose proof (substring_length trimmed 0 50 ltac:(lia) ltac:(lia)).
    pose proof (trim_length (Js.substring trimmed 0 50)). unfold Js.len in *. lia. }
  destruct (Z.ltb_spec 50 (Js.len trimmed)) as [Hlong|Hshort].
  - split; [|split; [|split]].
    + destruct (Js.trim (Js.substring trimmed 0 50)); done.
    + unfold Js.len in *. rewrite length_app_s. cbn. lia.
    + lia.
    + intros _. eexists. split; [reflexivity|]. split; [|exact Hhead].
      eapply occursIn_trans; [apply trim_occurs|].
      eapply occursIn_trans; [apply substring_occurs|]. apply trim_occurs.
  - split; [done|]. split; [lia|]. split; [done | lia].
Qed.

(** ** Re-sync: one entry per session id *)

Lemma mapSet_keeps_keys {V} (k k0 : jsval) (v : V) (m : list (jsval * V)) :
  In k0 (map fst m) -> In k0 (map fst (mapSet k v m)).
Proof.
  induction m as [|[k' v'] m IH]; simpl; [done|].
  intros [Hk|Hin]; unfold strictEq; case_bool_decide; simpl; subst; auto.
Qed.

Lemma mapSet_has_key {V} (k : jsval) (v : V) (m : list (jsval * V)) :
  In k (map fst (mapSet k v m)).
Proof.
  induction m as [|[k' v'] m IH]; simpl; [by left|].
  unfold strictEq; case_bool_decide; simpl; auto.
Qed.

Lemma mergeOne_keeps_keys (u k0 : jsval) (m : list (jsval * Session)) (t : Transformed) :
  In k0 (map fst m) -> In k0 (map fst (mergeOne u m t)).
Proof. intros H. unfold mergeOne. destruct (mapGet _ _); by apply mapSet_keeps_keys. Qed.

Lemma fold_mergeOne_keeps_keys (u k0 : jsval) (ts : list Transformed)
    (m : list (jsval * Session)) :
  In k0 (map fst m) -> In k0 (map fst (fold_left (mergeOne u) ts m)).
Proof.
  revert m. induction ts as [|t ts IH]; intros m H; simpl; [done|].
  by apply IH, mergeOne_keeps_keys.
Qed.

Lemma fold_remember_keys (current : list Session) (m : list (jsval * Session)) (s : Session) :
  In s current \/ In (s_session_id s) (map fst m) ->
  In (s_session_id s)
     (map fst (fold_left (fun m s => mapSet (s_session_id s) (rememberOrigin s) m) current m)).
Proof.
  revert m. induction current as [|s0 current IH]; intros m H; simpl.
  - by destruct H.
  - apply IH. destruct H as [[->|H]|H]; [right; apply mapSet_has_key | by left |].
    right. by apply mapSet_keeps_keys.
Qed.

Lemma filter_none {A} (f : A -> bool) (l : list A) :
  (forall x, In x l -> f x = false) -> List.filter f l = [].
Proof.
  induction l as [|x l IH]; intros H; simpl; [done|].
  rewrite (H x) by (by left). apply IH. intros y Hy. apply H. by right.
Qed.

Lemma keyed_ids (u : jsval) (m : list (jsval * Session)) :
  keyed u m -> map s_session_id (map snd m) = map fst m.
Proof.
  induction m as [|[k s] m IH]; intros Hk; simpl; [done|].
  destruct (Hk k s) as [-> _]; [by left|]. f_equal. apply IH.
  intros k' s' Hin. apply Hk. by right.
Qed.

(** X22. After a session-index re-sync that delivered at least one row for
    the user, the catalog holds one entry per session id for that user, the
    sessions of other users are kept as they were and in their order, every
    session id the user held before is still in the catalog (local sessions
    are not lost), and the rows answered are those of the user's catalog
    entries. *)
Theorem X22_sync_keeps_one_entry_per_session_id :
  forall (u : jsval) (now : Z) (message : IndexPayload) (st : State),
    transformSessions u now message <> [] ->
    let result := onSessionIndexMessage u now message st in
    let catalog := globalSessionNames (fst result) in
    List.NoDup (map s_session_id (List.filter (ofUser u) catalog))
    /\ List.filter (fun s => negb (ofUser u s)) catalog
       = List.filter (fun s => negb (ofUser u s)) (globalSessionNames st)
    /\ (forall s, In s (globalSessionNames st) -> s_user_id s = u ->
        exists s', In s' catalog /\ s_user_id s' = u /\ s_session_id s' = s_session_id s)
    /\ snd result = map rowOf (List.filter (ofUser u) catalog).
Proof.
  intros u now message st Hne result catalog. subst catalog result.
  unfold onSessionIndexMessage.
  destruct (transformSessions u now message) as [|t ts] eqn:Ets; [done|]. clear Hne.
  cbn [fst snd]. 
  set (current := List.filter (ofUser u) (globalSessionNames st)).
  set (others := List.filter (fun s => negb (ofUser u s)) (globalSessionNames st)).
  set (dedup := deduplicate u current (t :: ts)).
  replace (globalSessionNames (with_sessions (dedup ++ others) st)) with (dedup ++ others)
    by reflexivity.
  assert (forall s, In s current -> s_user_id s = u) as Hcur.
  { intros s Hin. apply filter_In in Hin as [_ H]. unfold ofUser, strictEq in H.
    by case_bool_decide. }
  set (m0 := fold_left (fun m s => mapSet (s_session_id s) (rememberOrigin s) m) current []).
  destruct (fold_remember_inv u current [] Hcur) as [Hn0 Hk0];
    [constructor | by intros ? ? [] |]. fold m0 in Hn0, Hk0.
  destruct (fold_mergeOne_inv u (t :: ts) m0 Hn0 Hk0) as [Hn Hk].
  assert (forall s, In s dedup -> ofUser u s = true) as Hded.
  { intros s Hin. apply in_map_iff in Hin as ([k s'] & <- & Hin).
    destruct (Hk _ _ Hin) as [_ Hu]. unfold ofUser, strictEq. simpl. by case_bool_decide. }
  assert (List.filter (ofUser u) (dedup ++ others) = dedup) as Hmine.
  { rewrite List.filter_app, (forallb_filter_id (ofUser u) dedup)
      by (by apply forallb_forall).
    rewrite (filter_none (ofUser u) others), app_nil_r; [done|].
    intros s Hin. apply filter_In in Hin as [_ H]. by destruct (ofUser u s). }
  rewrite Hmine. split; [|split; [|split]].
  - unfold dedup, deduplicate. fold m0. by rewrite (keyed_ids u).
  - rewrite List.filter_app, (filter_none _ dedup).
    + apply filter_twice.
    + intros s Hin. by rewrite (Hded s Hin).
  - intros s Hin Hu.
    assert (In s current) as Hc.
    { apply filter_In. split; [done|]. unfold ofUser, strictEq. by case_bool_decide. }
    pose proof (fold_remember_keys current [] s (or_introl Hc)) as Hkey. fold m0 in Hkey.
    apply (fold_mergeOne_keeps_keys u _ (t :: ts)) in Hkey.
    apply in_map_iff in Hkey as ([k s'] & Hfst & Hin'). simpl in Hfst. subst k.
    destruct (Hk _ _ Hin') as [Hid Hown].
    exists s'. split; [|done]. apply in_or_app. left.
    apply in_map_iff. by exists (s_session_id s, s').
  - done.
Qed.

(** The theorem at the sample catalog and payload of the re-sync. *)
Lemma X22_sync_witness :
  transformSessions (VStr "u1") 1700000003000 syncPayload <> []
  /\ List.NoDup
       (map s_session_id
          (List.filter (ofUser (VStr "u1"))
             (globalSessionNames
                (fst (onSessionIndexMessage (VStr "u1") 1700000003000 syncPayload beforeSync))))).
Proof.
  assert (transformSessions (VStr "u1") 1700000003000 syncPayload <> []) as H
    by (intros E; vm_compute in E; discriminate E).
  split; [exact H|].
  exact (proj1 (X22_sync_keeps_one_entry_per_session_id (VStr "u1") 1700000003000 syncPayload
                  beforeSync H)).
Defined.

(** ** [POST /chat]: transcript, replay and catalog *)




